(** * remembrall: the argument scanner and the add / peek / clear executors

    A shallow embedding of [src/remembrall.c].  The C functions are
    written as Rocq functions over an explicit world (the open database
    connection and what has been written to standard error); the
    relational store behind the [sqlite3] calls is a small executable
    model of the one table the program uses. *)

From Stdlib Require Import ZArith List Bool Ascii String Lia Permutation DecimalString.
Import ListNotations.

Local Open Scope string_scope.
Local Open Scope list_scope.
Local Open Scope Z_scope.

(** ** C strings and the argument vector *)

Definition NUL : ascii := "000"%char.
Definition dquote : string := String "034"%char EmptyString.
Definition newline : string := String "010"%char EmptyString.

Definition strlen (s : string) : Z := Z.of_nat (String.length s).

(** [strcmp(a, b) == 0] *)
Definition strcmp0 (a b : string) : bool := String.eqb a b.

(** [strncmp(s, lit, strlen(lit)) == 0]: [s] begins with the literal. *)
Definition strncmp0 (s lit : string) : bool := String.prefix lit s.

(** The bytes of a C string starting at the front of [mem]: everything up
    to the first NUL. *)
Fixpoint c_str (mem : string) : string :=
  match mem with
  | EmptyString => EmptyString
  | String c m => if Ascii.eqb c NUL then EmptyString else String c (c_str m)
  end.

Fixpoint advance (k : nat) (mem : string) : string :=
  match k, mem with
  | O, _ => mem
  | S k', String _ m => advance k' m
  | S _, EmptyString => EmptyString
  end.

(** The argument strings as the process holds them: one after another,
    each closed by its NUL, and after the last one the bytes [tail] (the
    environment strings).  This is how the systems the program is built
    for hand [argv] to [main].  [argv[i]] points at the first byte of the
    i-th string, so that for [args] the vector from [argv[i]] on,
    [argv[i][k]] is byte [k] of [arg_block args tail] and [argv[i] + k] is
    the C string that starts there.  For [k] up to the length of the
    string this is the string's own byte (or its NUL), whatever the
    layout.  The source also indexes at 9 a token it only knows to begin
    with [-p] (line 624); for a shorter token that byte lies past the
    token's NUL and is a byte of what follows. *)
Fixpoint arg_block (args : list string) (tail : string) : string :=
  match args with
  | [] => tail
  | a :: rest => (a ++ String NUL (arg_block rest tail))%string
  end.

Definition arg_byte (args : list string) (tail : string) (k : nat) : ascii :=
  match String.get k (arg_block args tail) with
  | Some c => c
  | None => NUL
  end.

Definition arg_str (args : list string) (tail : string) (k : nat) : string :=
  c_str (advance k (arg_block args tail)).

(** An argument string holds no NUL byte. *)
Fixpoint nul_free (s : string) : bool :=
  match s with
  | EmptyString => true
  | String c m => negb (Ascii.eqb c NUL) && nul_free m
  end.

(** ** Commands *)

Inductive Rmbrl_Verbosity_Level : Set :=
| RMBRL_VERB_NORMAL
| RMBRL_VERB_SILENT
| RMBRL_VERB_VERBOSE.

Inductive Rmbrl_Log_Level : Set :=
| RMBRL_LOG_INFO
| RMBRL_LOG_WARNING
| RMBRL_LOG_ERROR.

Inductive Rmbrl_Command_Function : Set :=
| RMBRL_CMD_UNKNOWN
| RMBRL_CMD_ADD
| RMBRL_CMD_PEEK
| RMBRL_CMD_CLEAR.

(** [project] and [task] are [char *]: [None] is the NULL pointer. *)
Record Rmbrl_Command : Set := mkCommand {
  function : Rmbrl_Command_Function;
  verbosity : Rmbrl_Verbosity_Level;
  project : option string;
  task : option string;
  all : bool;
  dry_run : bool
}.

(** [Rmbrl_Command cmd = {0}] *)
Definition cmd_zero : Rmbrl_Command :=
  mkCommand RMBRL_CMD_UNKNOWN RMBRL_VERB_NORMAL None None false false.

Definition set_function (c : Rmbrl_Command) (f : Rmbrl_Command_Function) :=
  mkCommand f (verbosity c) (project c) (task c) (all c) (dry_run c).
Definition set_verbosity (c : Rmbrl_Command) (v : Rmbrl_Verbosity_Level) :=
  mkCommand (function c) v (project c) (task c) (all c) (dry_run c).
Definition set_project (c : Rmbrl_Command) (p : string) :=
  mkCommand (function c) (verbosity c) (Some p) (task c) (all c) (dry_run c).
Definition set_task (c : Rmbrl_Command) (t : string) :=
  mkCommand (function c) (verbosity c) (project c) (Some t) (all c) (dry_run c).
Definition set_all (c : Rmbrl_Command) (b : bool) :=
  mkCommand (function c) (verbosity c) (project c) (task c) b (dry_run c).
Definition set_dry_run (c : Rmbrl_Command) (b : bool) :=
  mkCommand (function c) (verbosity c) (project c) (task c) (all c) b.

Definition is_add (f : Rmbrl_Command_Function) : bool :=
  match f with RMBRL_CMD_ADD => true | _ => false end.
Definition is_silent (v : Rmbrl_Verbosity_Level) : bool :=
  match v with RMBRL_VERB_SILENT => true | _ => false end.
Definition is_verbose (v : Rmbrl_Verbosity_Level) : bool :=
  match v with RMBRL_VERB_VERBOSE => true | _ => false end.
Definition is_null (p : option string) : bool :=
  match p with None => true | Some _ => false end.

(** ** The scan over [argv[2..]] in [main]

    [args] is the vector from [argv[i]] on; the result is the command and
    the ignored flags, or [None] for the early [return 1] of a project
    flag without a name. *)
Fixpoint scan (tail : string) (cmd : Rmbrl_Command) (ignored_flags : list string)
         (args : list string) : option (Rmbrl_Command * list string) :=
  match args with
  | [] => Some (cmd, ignored_flags)
  | tok :: rest =>
    if (strcmp0 tok "--all" || strcmp0 tok "-a") && negb (is_add (function cmd))
    then scan tail (set_all cmd true) ignored_flags rest
    else if strcmp0 tok "--dry-run" || strcmp0 tok "-n"
    then scan tail (set_dry_run cmd true) ignored_flags rest
    else if strcmp0 tok "--verbose" || strcmp0 tok "-v"
    then scan tail (set_verbosity cmd RMBRL_VERB_VERBOSE) ignored_flags rest
    else if strcmp0 tok "--silent" || strcmp0 tok "-s"
    then scan tail (set_verbosity cmd RMBRL_VERB_SILENT) ignored_flags rest
    else if strncmp0 tok "-p" || strncmp0 tok "--project"
    then
      if Ascii.eqb (arg_byte args tail 2) "="%char
      then scan tail (set_project cmd (arg_str args tail 3)) ignored_flags rest
      else if Ascii.eqb (arg_byte args tail 9) "="%char
      then scan tail (set_project cmd (arg_str args tail 10)) ignored_flags rest
      else
        match rest with
        | name :: rest' =>
          if negb (Ascii.eqb (arg_byte rest tail 0) "-"%char)
          then scan tail (set_project cmd name) ignored_flags rest'
          else None
        | [] => None
        end
    else if is_add (function cmd) && is_null (task cmd)
            && negb (Ascii.eqb (arg_byte args tail 0) "-"%char)
    then scan tail (set_task cmd tok) ignored_flags rest
    else scan tail cmd (ignored_flags ++ [tok]) rest
  end.

(** ** Standard error *)

(** What the process has written, one entry per [fprintf]. *)
Definition Stream := list string.

Definition log_prefix (level : Rmbrl_Log_Level) : string :=
  match level with
  | RMBRL_LOG_INFO => "[INFO] "
  | RMBRL_LOG_WARNING => "[WARNING] "
  | RMBRL_LOG_ERROR => "[ERROR] "
  end.

(** [rmbrl_log]: the level's prefix, then the formatted message. *)
Definition log_line (level : Rmbrl_Log_Level) (msg : string) : Stream :=
  [log_prefix level; msg].

(** ** The store

    The embedded SQL engine ([src/deps/sqlite3.c], reached through
    [sqlite3.h]) is not among the sources.  Spec sections 3 and 6 give
    the table [memories(id, task, project, created_at)] and the
    capabilities the program consumes: parameterised statements,
    [DELETE ... RETURNING *], transaction begin and rollback.  The model
    keeps exactly that: one table, the seven statements the program
    prepares, and a snapshot for the open transaction.  The statements
    the program prepares are well-formed for the schema, and the store is
    taken to prepare and step them without I/O failure, so the branches
    of the executors that report a failed [sqlite3_prepare_v2] or
    [sqlite3_step] have no counterpart below.  Opening the store and
    creating the table can fail, as in [main]. *)

(** Modelled from the spec: a persisted row (spec section 3).  [row_id]
    is the integer primary key, [created_at] the timestamp text the store
    sets at insertion ([YYYY-MM-DD HH:MM:SS]). *)
Record Row : Set := mkRow {
  row_id : Z;
  row_task : string;
  row_project : string;
  created_at : string
}.

(** Modelled from the spec: the persisted state, the table in table
    order and the high-water mark that [AUTOINCREMENT] keeps. *)
Record Store : Set := mkStore {
  memories : list Row;
  sqlite_sequence : Z
}.

(** The statements of the source, with their parameters bound. *)
Inductive Sql : Set :=
| Create_table
| Begin_transaction
| Rollback
| Insert (task project : string)
| Select (where_project : option string) (limit_1 : bool)
| Delete (where_project : option string)
| Delete_id (id : Z).

(** [WHERE project = ?], or no [WHERE] clause for [None]. *)
Definition matches (p : option string) (r : Row) : bool :=
  match p with
  | None => true
  | Some s => String.eqb (row_project r) s
  end.

(** Modelled from the spec: [ORDER BY created_at DESC], the sole
    ordering key.  Text comparison, rows with equal keys in table order
    (the store gives no promise on ties; the theorems below use only that
    the result is ordered and holds the same rows). *)
Fixpoint insert_desc (r : Row) (l : list Row) : list Row :=
  match l with
  | [] => [r]
  | x :: l' =>
    if String.leb (created_at x) (created_at r) then r :: l
    else x :: insert_desc r l'
  end.

Definition order_by_created_at_desc (l : list Row) : list Row :=
  fold_right insert_desc [] l.

(** Modelled from the spec: [SELECT * FROM memories] with the optional
    filter, newest first, and the optional [LIMIT 1]. *)
Definition select_rows (p : option string) (limit_1 : bool) (st : Store) : list Row :=
  let sorted := order_by_created_at_desc (filter (matches p) (memories st)) in
  if limit_1 then firstn 1 sorted else sorted.

Definition max_rowid (l : list Row) : Z :=
  fold_right (fun r m => Z.max (row_id r) m) 0 l.

(** Modelled from the spec: ids are unique and assigned by the store in
    increasing order, never reusing one. *)
Definition next_rowid (st : Store) : Z :=
  Z.max (sqlite_sequence st) (max_rowid (memories st)) + 1.

(** Modelled from the spec: [INSERT INTO memories (task, project)]; the
    store supplies the id and the timestamp. *)
Definition insert_row (t p now : string) (st : Store) : Store :=
  let i := next_rowid st in
  mkStore (memories st ++ [mkRow i t p now]) i.

(** Modelled from the spec: [DELETE ... RETURNING *], the rows removed
    (in table order) and the table without them. *)
Definition delete_where (pred : Row -> bool) (st : Store) : list Row * Store :=
  (filter pred (memories st),
   mkStore (filter (fun r => negb (pred r)) (memories st)) (sqlite_sequence st)).

(** Modelled from the spec: an open connection.  The table as this
    connection sees it, the snapshot a [BEGIN] took (if a transaction is
    open), the store's clock, and the statements handed to the store so
    far. *)
Record sqlite3 : Set := mkDb {
  live : Store;
  saved : option Store;
  clock : string;
  statements : list Sql
}.

(** Modelled from the spec: the connection a successful open hands
    back, on the table as the file holds it: no transaction open, nothing
    received yet. *)
Definition opened (file : Store) (now : string) : sqlite3 :=
  mkDb file None now [].

(** The store's limit on the length of a path name. *)
Definition SQLITE_MAX_PATHNAME : Z := 512.

(** Modelled from the spec: [sqlite3_open] (spec section 4.2,
    [open(path) -> Session | Error(IOError, StoreError)]).  The store
    refuses a path name that does not leave room, within its limit, for
    the eight bytes of the suffix of its journal; otherwise the file
    system decides, [io_error] being its refusal if any.  The left result
    is the text [sqlite3_errmsg] gives after the failure. *)
Definition sqlite3_open (filename : string) (io_error : option string)
           (file : Store) (now : string) : string + sqlite3 :=
  if SQLITE_MAX_PATHNAME <? strlen filename + 8
  then inl "unable to open database file"
  else match io_error with
       | Some reason => inl reason
       | None => inr (opened file now)
       end.

(** Modelled from the spec: what is persisted once the connection is
    closed; a transaction still open is rolled back. *)
Definition sqlite3_close (c : sqlite3) : Store :=
  match saved c with
  | Some s => s
  | None => live c
  end.

(** Modelled from the spec: the text of the last error; the program
    asks for it only after calls that did not fail. *)
Definition sqlite3_errmsg (c : sqlite3) : string := "not an error".

Definition record_stmt (s : Sql) (c : sqlite3) : sqlite3 :=
  mkDb (live c) (saved c) (clock c) (statements c ++ [s]).

(** Modelled from the spec: [sqlite3_exec] on a statement without
    parameters; the error message on failure, [None] for [SQLITE_OK].
    There is one transaction at a time, and a rollback restores the
    snapshot. *)
Definition sqlite3_exec (s : Sql) (c : sqlite3) : option string * sqlite3 :=
  let c := record_stmt s c in
  match s with
  | Begin_transaction =>
    match saved c with
    | Some _ => (Some "cannot start a transaction within a transaction", c)
    | None => (None, mkDb (live c) (Some (live c)) (clock c) (statements c))
    end
  | Rollback =>
    match saved c with
    | Some st => (None, mkDb st None (clock c) (statements c))
    | None => (Some "cannot rollback - no transaction is active", c)
    end
  | _ => (None, c)
  end.

(** Modelled from the spec: [sqlite3_prepare_v2], the binds and the
    [sqlite3_step]s of one prepared statement; the rows it yields before
    [SQLITE_DONE], and the connection after it.  A [DELETE ... RETURNING]
    removes its rows on the first step. *)
Definition sqlite3_run (s : Sql) (c : sqlite3) : list Row * sqlite3 :=
  let c := record_stmt s c in
  let put st := mkDb st (saved c) (clock c) (statements c) in
  match s with
  | Insert t p => ([], put (insert_row t p (clock c) (live c)))
  | Select p lim => (select_rows p lim (live c), c)
  | Delete p =>
    let '(gone, st) := delete_where (matches p) (live c) in (gone, put st)
  | Delete_id i =>
    let '(gone, st) := delete_where (fun r => row_id r =? i) (live c) in (gone, put st)
  | _ => ([], c)
  end.

(** Modelled from the spec: [sqlite3_column_int], the low 32 bits of the
    integer column as an [int]. *)
Definition sqlite3_column_int (z : Z) : Z :=
  (z + 2147483648) mod 4294967296 - 2147483648.

(** Modelled from the spec: [sqlite3_expanded_sql], the statement with
    its parameters filled in (text in single quotes, a quote doubled). *)
Fixpoint sql_quote_body (s : string) : string :=
  match s with
  | EmptyString => EmptyString
  | String c m =>
    if Ascii.eqb c "'"%char then String c (String c (sql_quote_body m))
    else String c (sql_quote_body m)
  end.

Definition sql_quote (s : string) : string :=
  ("'" ++ sql_quote_body s ++ "'")%string.

Definition where_clause (p : option string) : string :=
  match p with
  | Some s => (" WHERE project = " ++ sql_quote s)%string
  | None => EmptyString
  end.

Definition sqlite3_expanded_sql (s : Sql) : string :=
  match s with
  | Create_table =>
    ("CREATE TABLE IF NOT EXISTS memories("
       ++ "id INTEGER PRIMARY KEY AUTOINCREMENT NOT NULL,"
       ++ "task TEXT NOT NULL,"
       ++ "project TEXT DEFAULT '' NOT NULL,"
       ++ "created_at TIMESTAMP DEFAULT CURRENT_TIMESTAMP NOT NULL);")%string
  | Begin_transaction => "BEGIN TRANSACTION;"
  | Rollback => "ROLLBACK;"
  | Insert t p =>
    ("INSERT INTO memories (task, project) VALUES ("
       ++ sql_quote t ++ ", " ++ sql_quote p ++ ");")%string
  | Select p lim =>
    ("SELECT * FROM memories" ++ where_clause p ++ " ORDER BY created_at DESC"
       ++ match p, lim with
          | _, false => ";"
          | Some _, true => " LIMIT 1;"
          | None, true => " LIMIT 1"
          end)%string
  | Delete p => ("DELETE FROM memories" ++ where_clause p ++ " RETURNING *;")%string
  | Delete_id i =>
    ("DELETE FROM memories WHERE id = "
       ++ NilEmpty.string_of_int (Z.to_int i) ++ " RETURNING *;")%string
  end.

(** ** The world of an executor: the connection and standard error *)

Record World : Set := mkWorld {
  db : sqlite3;
  stderr : Stream
}.

Definition with_db (w : World) (c : sqlite3) : World := mkWorld c (stderr w).

Definition fprintf_stderr (s : string) (w : World) : World :=
  mkWorld (db w) (stderr w ++ [s]).

Definition rmbrl_log (level : Rmbrl_Log_Level) (msg : string) (w : World) : World :=
  mkWorld (db w) (stderr w ++ log_line level msg).

Definition rmbrl_db_begin_transaction (verbosity : Rmbrl_Verbosity_Level)
           (w : World) : Z * World :=
  match sqlite3_exec Begin_transaction (db w) with
  | (Some err_msg, c) =>
    (1, rmbrl_log RMBRL_LOG_ERROR
          ("Failed to begin transaction: " ++ err_msg ++ newline)%string (with_db w c))
  | (None, c) =>
    let w := with_db w c in
    (0, if is_verbose verbosity
        then rmbrl_log RMBRL_LOG_INFO ("Begin transaction..." ++ newline)%string w
        else w)
  end.

Definition rmbrl_db_rollback_transaction (verbosity : Rmbrl_Verbosity_Level)
           (w : World) : Z * World :=
  match sqlite3_exec Rollback (db w) with
  | (Some err_msg, c) =>
    (1, rmbrl_log RMBRL_LOG_ERROR
          ("Failed to rollback transaction: " ++ err_msg ++ newline)%string (with_db w c))
  | (None, c) =>
    let w := with_db w c in
    (0, if is_verbose verbosity
        then rmbrl_log RMBRL_LOG_INFO ("Rollback transaction..." ++ newline)%string w
        else w)
  end.

(** [cmd->project && strlen(cmd->project) > 256] *)
Definition project_too_long (cmd : Rmbrl_Command) : bool :=
  match project cmd with
  | Some p => 256 <? strlen p
  | None => false
  end.

Definition log_project_too_long (cmd : Rmbrl_Command) (w : World) : World :=
  rmbrl_log RMBRL_LOG_ERROR
    ("Project " ++ dquote ++ match project cmd with Some p => p | None => EmptyString end
       ++ dquote ++ " exceeds char limit of 256 bytes." ++ newline)%string w.

Definition log_query (cmd : Rmbrl_Command) (stmt : Sql) (w : World) : World :=
  if is_verbose (verbosity cmd)
  then rmbrl_log RMBRL_LOG_INFO ("Query: " ++ sqlite3_expanded_sql stmt ++ newline)%string w
  else w.

(** The body shared by the row loops of peek and clear: task, project
    suffix when not empty, and in verbose mode the first ten characters
    of the timestamp (the source cuts its copy at index 10). *)
Definition print_row (v : Rmbrl_Verbosity_Level) (r : Row) (w : World) : World :=
  let w := rmbrl_log RMBRL_LOG_INFO ("    " ++ dquote ++ row_task r ++ dquote)%string w in
  let w := if 0 <? strlen (row_project r)
           then fprintf_stderr (" -- " ++ row_project r)%string w else w in
  let w := if is_verbose v
           then fprintf_stderr (" -- " ++ String.substring 0 10 (created_at r))%string w
           else w in
  fprintf_stderr newline w.

(** *** add *)

(** Lines 297-332: the insert, its report, and the rollback of a dry run. *)
Definition add_insert (cmd : Rmbrl_Command) (t : string) (w : World) : Z * World :=
  let stmt := Insert t (match project cmd with Some p => p | None => EmptyString end) in
  let w := log_query cmd stmt w in
  let '(_, c) := sqlite3_run stmt (db w) in
  let w := with_db w c in
  let w := rmbrl_log RMBRL_LOG_INFO
             (dquote ++ t ++ dquote ++ " was added to your memory!" ++ newline)%string w in
  if dry_run cmd
  then
    let '(result, w) := rmbrl_db_rollback_transaction (verbosity cmd) w in
    if negb (result =? 0) then (result, w) else (0, w)
  else (0, w).

(** [None] is the dereference of a NULL [cmd->task]; [main] never calls
    add that way. *)
Definition rmbrl_command_add (cmd : Rmbrl_Command) (w : World) : option (Z * World) :=
  match task cmd with
  | None => None
  | Some t =>
    Some
      (if 256 <? strlen t
       then (1, rmbrl_log RMBRL_LOG_ERROR
                  ("Task " ++ dquote ++ t ++ dquote
                     ++ " exceeds char limit of 256 bytes." ++ newline)%string w)
       else if project_too_long cmd
       then (1, log_project_too_long cmd w)
       else if dry_run cmd
       then
         let w := rmbrl_log RMBRL_LOG_INFO
                    ("Performing dry run. Memory will NOT be remembered!" ++ newline)%string w in
         let '(result, w) := rmbrl_db_begin_transaction (verbosity cmd) w in
         if negb (result =? 0) then (result, w) else add_insert cmd t w
       else add_insert cmd t w)
  end.

(** *** peek *)

Fixpoint peek_loop (cmd : Rmbrl_Command) (result_rows : list Row) (w : World) : World :=
  match result_rows with
  | [] => w
  | r :: rest =>
    let w := print_row (verbosity cmd) r w in
    if negb (all cmd) then w else peek_loop cmd rest w
  end.

Definition rmbrl_command_peek (cmd : Rmbrl_Command) (w : World) : Z * World :=
  if project_too_long cmd
  then (1, log_project_too_long cmd w)
  else
    let stmt := Select (project cmd) false in
    let w := log_query cmd stmt w in
    let w := if negb (is_silent (verbosity cmd))
             then rmbrl_log RMBRL_LOG_INFO ("Currently Remembering:" ++ newline)%string w
             else w in
    let '(result_rows, c) := sqlite3_run stmt (db w) in
    (0, peek_loop cmd result_rows (with_db w c)).

(** *** clear *)

Fixpoint clear_loop (cmd : Rmbrl_Command) (result_rows : list Row) (w : World) : World :=
  match result_rows with
  | [] => w
  | r :: rest => clear_loop cmd rest (print_row (verbosity cmd) r w)
  end.

(** Lines 483-552: the delete, by [id] unless [id] still holds -1. *)
Definition clear_delete (cmd : Rmbrl_Command) (id : Z) (w : World) : Z * World :=
  let stmt := if id =? -1 then Delete (project cmd) else Delete_id id in
  let w := log_query cmd stmt w in
  let w := if negb (is_silent (verbosity cmd))
           then rmbrl_log RMBRL_LOG_INFO ("Forgotten Memories:" ++ newline)%string w
           else w in
  let '(result_rows, c) := sqlite3_run stmt (db w) in
  let w := clear_loop cmd result_rows (with_db w c) in
  if dry_run cmd
  then
    let '(result, w) := rmbrl_db_rollback_transaction (verbosity cmd) w in
    if negb (result =? 0) then (result, w) else (0, w)
  else (0, w).

(** Lines 426-481: without [--all] the row to forget is looked up first. *)
Definition clear_resolve (cmd : Rmbrl_Command) (w : World) : Z * World :=
  if negb (all cmd)
  then
    let stmt := Select (project cmd) true in
    let w := log_query cmd stmt w in
    let '(result_rows, c) := sqlite3_run stmt (db w) in
    let w := with_db w c in
    match result_rows with
    | [] =>
      (1, rmbrl_log RMBRL_LOG_ERROR
            ("Failed to remember memory to delete: " ++ sqlite3_errmsg (db w) ++ newline)%string w)
    | r :: _ =>
      let id := sqlite3_column_int (row_id r) in
      let w := if is_verbose (verbosity cmd)
               then print_row RMBRL_VERB_VERBOSE r
                      (rmbrl_log RMBRL_LOG_INFO ("Found Memory:" ++ newline)%string w)
               else w in
      clear_delete cmd id w
    end
  else clear_delete cmd (-1) w.

Definition rmbrl_command_clear (cmd : Rmbrl_Command) (w : World) : Z * World :=
  if project_too_long cmd
  then (1, log_project_too_long cmd w)
  else if dry_run cmd
  then
    let w := rmbrl_log RMBRL_LOG_INFO
               ("Performing dry run. Memory will NOT be forgotten!" ++ newline)%string w in
    let '(result, w) := rmbrl_db_begin_transaction (verbosity cmd) w in
    if negb (result =? 0) then (result, w) else clear_resolve cmd w
  else clear_resolve cmd w.

(** ** main *)

(** What [main] reads from its surroundings: the bytes that follow the
    argument strings, [getenv("HOME")], the reason [mkdir] failed (other
    than the directory existing), the reason the file system refused to
    open the store file, the message of the store when it refused the
    CREATE TABLE, and the store's clock. *)
Record Env : Set := mkEnv {
  environ : string;
  HOME : option string;
  mkdir_error : option string;
  open_error : option string;
  create_table_error : option string;
  CURRENT_TIMESTAMP : string
}.

(** What a run leaves behind.  [session] is [None] when the run had no
    connection to the store ([sqlite3_open] not reached, or failed), else
    the statements the connection received. *)
Record Process : Set := mkProcess {
  exit_code : Z;
  stdout : Stream;
  process_stderr : Stream;
  file : Store;
  session : option (list Sql)
}.

Definition rmbrl_print_help : Stream :=
  [ ("Usage: program (COMMAND) [FLAGS]" ++ newline ++ newline)%string;
    ("Commands:" ++ newline)%string;
    ("  add     Add memory to your collection (supports --project)" ++ newline)%string;
    ("  peek    Show what you're currently remembering (supports --all, --project)"
       ++ newline)%string;
    ("  clear   Forget memories (supports --all, --project)" ++ newline ++ newline)%string;
    ("Command Flags:" ++ newline)%string;
    ("  -p, --project    Tag and filter memories by project name" ++ newline)%string;
    ("                   (supported by: add, peek, clear)" ++ newline)%string;
    ("  -a, --all        Apply operation to all memories" ++ newline)%string;
    ("                   (supported by: peek, clear)" ++ newline ++ newline)%string;
    ("Global Flags:" ++ newline)%string;
    ("  -h, --help       Show help information" ++ newline)%string;
    ("  -V, --version    Show version information" ++ newline)%string;
    ("  -v, --verbose    Enable verbose output" ++ newline)%string;
    ("  -s, --silent     Enable silent mode" ++ newline)%string;
    ("  -n, --dry-run    Perform dry run without making changes" ++ newline)%string ].

Definition rmbrl_command_function_str (func : Rmbrl_Command_Function) : string :=
  match func with
  | RMBRL_CMD_UNKNOWN => "?"
  | RMBRL_CMD_ADD => "add"
  | RMBRL_CMD_PEEK => "peek"
  | RMBRL_CMD_CLEAR => "clear"
  end.

(** [%s] given a NULL pointer prints [(null)]. *)
Definition percent_s (p : option string) : string :=
  match p with Some s => s | None => "(null)" end.

Definition bool_str (b : bool) : string := if b then "true" else "false".

Definition rmbrl_command_debug_print (cmd : Rmbrl_Command) : Stream :=
  let cmd_verbosity :=
    match verbosity cmd with
    | RMBRL_VERB_NORMAL => "normal"
    | RMBRL_VERB_SILENT => "silent"
    | RMBRL_VERB_VERBOSE => "verbose"
    end in
  log_line RMBRL_LOG_INFO ("Parsed Command Line Args:" ++ newline)%string
  ++ log_line RMBRL_LOG_INFO
       ("    function: " ++ rmbrl_command_function_str (function cmd) ++ newline)%string
  ++ log_line RMBRL_LOG_INFO ("    task: " ++ percent_s (task cmd) ++ newline)%string
  ++ log_line RMBRL_LOG_INFO ("    project: " ++ percent_s (project cmd) ++ newline)%string
  ++ log_line RMBRL_LOG_INFO ("    all: " ++ bool_str (all cmd) ++ newline)%string
  ++ log_line RMBRL_LOG_INFO ("    dry-run: " ++ bool_str (dry_run cmd) ++ newline)%string
  ++ log_line RMBRL_LOG_INFO ("    verbosity: " ++ cmd_verbosity ++ newline)%string.

(** The loop of lines 671-676: each item, and [", "] after all but the
    last. *)
Fixpoint print_ignored (items : list string) : Stream :=
  match items with
  | [] => []
  | x :: rest =>
    x :: match rest with
         | [] => []
         | _ :: _ => ", " :: print_ignored rest
         end
  end.

(** Lines 668-678. *)
Definition warn_ignored (v : Rmbrl_Verbosity_Level) (ignored_flags : list string) : Stream :=
  match ignored_flags with
  | [] => []
  | _ :: _ =>
    if negb (is_silent v)
    then log_line RMBRL_LOG_WARNING "Ignoring flags: "
           ++ print_ignored ignored_flags ++ [newline]
    else []
  end.

Definition command_of_name (name : string) : Rmbrl_Command_Function :=
  if strcmp0 name "add" then RMBRL_CMD_ADD
  else if strcmp0 name "peek" then RMBRL_CMD_PEEK
  else if strcmp0 name "clear" then RMBRL_CMD_CLEAR
  else RMBRL_CMD_UNKNOWN.

(** [snprintf(db_path, sizeof(db_path), "%s/.local/share/rmbrl/", home_env)]
    (line 717): at most 511 bytes, and the NUL. *)
Definition db_dir (home_env : string) : string :=
  String.substring 0 511 (home_env ++ "/.local/share/rmbrl/")%string.

(** [strncat(db_path, "rmbrl.db", 9)] (line 731) writes the eight bytes
    and the NUL after the directory.  [db_path] is a [char[512]]: after a
    directory of 504 bytes or more the write runs past the end of the
    array.  The bytes written are the same then, and the string that
    [sqlite3_open] is handed at line 737 is the one below; what the bytes
    past the array held before is outside the model. *)
Definition db_path (home_env : string) : string :=
  (db_dir home_env ++ "rmbrl.db")%string.

(** Lines 690-783 on Linux: the store file, the table, the dispatch and
    the close.  [file] is the store held in [rmbrl.db] under the data
    directory. *)
Definition main_session (cmd : Rmbrl_Command) (err : Stream) (env : Env)
           (file : Store) : Process :=
  match HOME env with
  | None =>
    mkProcess 1 []
      (err ++ log_line RMBRL_LOG_ERROR ("HOME environment variable not found!" ++ newline)%string)
      file None
  | Some home_env =>
    match mkdir_error env with
    | Some reason =>
      mkProcess 1 []
        (err ++ log_line RMBRL_LOG_ERROR
                  ("Failed to create path: " ++ db_dir home_env ++ newline
                     ++ "Reason: " ++ reason ++ newline)%string)
        file None
    | None =>
      let verbose := is_verbose (verbosity cmd) in
      let err := if verbose
                 then err ++ log_line RMBRL_LOG_INFO
                               ("DB Path: " ++ db_path home_env ++ newline)%string
                 else err in
      match sqlite3_open (db_path home_env) (open_error env) file
              (CURRENT_TIMESTAMP env) with
      | inl errmsg =>
        (* lines 738-742: no connection, and no close *)
        mkProcess 1 []
          (err ++ log_line RMBRL_LOG_ERROR
                    ("Databased connection failed: " ++ errmsg ++ newline)%string)
          file None
      | inr c =>
        let w := mkWorld c err in
        let w := if verbose
                 then rmbrl_log RMBRL_LOG_INFO
                        ("Database connection successful!" ++ newline)%string w
                 else w in
        let '(_, c) := sqlite3_exec Create_table (db w) in
        let w := with_db w c in
        match create_table_error env with
        | Some err_msg =>
          (* lines 755-760: RMBRL_CLEANUP_RETURN(1) *)
          let w := rmbrl_log RMBRL_LOG_ERROR ("SQL error: " ++ err_msg ++ newline)%string w in
          mkProcess 1 [] (stderr w) (sqlite3_close (db w)) (Some (statements (db w)))
        | None =>
          let w := if verbose
                   then rmbrl_log RMBRL_LOG_INFO
                          ("Table " ++ dquote ++ "memories" ++ dquote
                             ++ " exists or created successfully!" ++ newline)%string w
                   else w in
          let '(result, w) :=
            match function cmd with
            | RMBRL_CMD_ADD =>
              match rmbrl_command_add cmd w with
              | Some r => r
              | None => (139, w) (* not reached: the task was checked before *)
              end
            | RMBRL_CMD_PEEK => rmbrl_command_peek cmd w
            | RMBRL_CMD_CLEAR => rmbrl_command_clear cmd w
            | RMBRL_CMD_UNKNOWN => (134, w) (* not reached: RMBRL_UNREACHABLE aborts *)
            end in
          mkProcess result [] (stderr w) (sqlite3_close (db w)) (Some (statements (db w)))
        end
      end
    end
  end.

(** Lines 668-688: the warning, the verbose dump, the task check. *)
Definition main_after_scan (cmd : Rmbrl_Command) (ignored_flags : list string)
           (env : Env) (file : Store) : Process :=
  let err := warn_ignored (verbosity cmd) ignored_flags in
  let err := if is_verbose (verbosity cmd)
             then err ++ rmbrl_command_debug_print cmd else err in
  if is_add (function cmd) && is_null (task cmd)
  then
    mkProcess 1 []
      (err ++ log_line RMBRL_LOG_ERROR
                ("Running " ++ dquote ++ "add" ++ dquote
                   ++ " command but missing task description" ++ newline)%string)
      file None
  else main_session cmd err env file.

Definition main (argv : list string) (env : Env) (file : Store) : Process :=
  match argv with
  | [] | [_] => mkProcess 1 rmbrl_print_help [] file None
  | _ :: argv1 :: args =>
    if strcmp0 argv1 "--help" || strcmp0 argv1 "-h"
    then mkProcess 0 rmbrl_print_help [] file None
    else if strcmp0 argv1 "--version" || strcmp0 argv1 "-V"
    then mkProcess 0 [("remembrall v0.1.0" ++ newline)%string] [] file None
    else
      match command_of_name argv1 with
      | RMBRL_CMD_UNKNOWN =>
        mkProcess 1 rmbrl_print_help
          (log_line RMBRL_LOG_ERROR ("Unknown command '" ++ argv1 ++ "'" ++ newline)%string)
          file None
      | func =>
        match scan (environ env) (set_function cmd_zero func) [] args with
        | None =>
          mkProcess 1 []
            (log_line RMBRL_LOG_ERROR
               ("Project flag provided but missing project name" ++ newline)%string)
            file None
        | Some (cmd, ignored_flags) => main_after_scan cmd ignored_flags env file
        end
      end
  end.

(** * The words of the statements

    Names for what the theorems speak about: the text of a printed
    row, the header and notice lines, the rows a peek shows, the
    well-formedness of row ids, and the sample inputs. *)

(** [r] is at least as recent as everything in [l]. *)
Definition newest_of (r : Row) (l : list Row) : Prop :=
  forall x, In x l -> String.leb (created_at x) (created_at r) = true.

Inductive desc_sorted : list Row -> Prop :=
| desc_nil : desc_sorted []
| desc_cons r l : newest_of r l -> desc_sorted l -> desc_sorted (r :: l).

(** What one row adds to standard error. *)
Definition row_text (v : Rmbrl_Verbosity_Level) (r : Row) : Stream :=
  log_line RMBRL_LOG_INFO ("    " ++ dquote ++ row_task r ++ dquote)%string
  ++ (if 0 <? strlen (row_project r) then [(" -- " ++ row_project r)%string] else [])
  ++ (if is_verbose v then [(" -- " ++ String.substring 0 10 (created_at r))%string] else [])
  ++ [newline].

(** The query line of verbose mode. *)
Definition query_text (cmd : Rmbrl_Command) (stmt : Sql) : Stream :=
  if is_verbose (verbosity cmd)
  then log_line RMBRL_LOG_INFO ("Query: " ++ sqlite3_expanded_sql stmt ++ newline)%string
  else [].

Fixpoint filler (n : nat) : string :=
  match n with
  | O => EmptyString
  | S n' => String "x"%char (filler n')
  end.

Definition is_delete (s : Sql) : bool :=
  match s with
  | Delete _ | Delete_id _ => true
  | _ => false
  end.

Definition INT_MAX : Z := 2147483647.

(** The primary key: row ids are unique, and as [AUTOINCREMENT] hands
    them out they are positive; the program reads them into an [int]. *)
Definition rowids_ok (st : Store) : Prop :=
  NoDup (map row_id (memories st))
  /\ forall r, In r (memories st) -> 1 <= row_id r <= INT_MAX.

Definition sample_store : Store :=
  mkStore [ mkRow 1 "a" "lazypm" "2025-01-01 00:00:00";
            mkRow 2 "b" "lazypm" "2025-01-03 00:00:00";
            mkRow 3 "c" "other" "2025-01-05 00:00:00" ] 3.

Definition clear_lazypm : Rmbrl_Command :=
  mkCommand RMBRL_CMD_CLEAR RMBRL_VERB_NORMAL (Some "lazypm") None false false.

Definition one_other_row : Store :=
  mkStore [mkRow 1 "a" "other" "2025-01-01 00:00:00"] 1.

Definition one_lazypm_row : Store :=
  mkStore [mkRow 1 "a" "lazypm" "2025-01-01 00:00:00"] 1.

(** A store whose one row was stored in the very second on which
    [world_on] sets the clock. *)
Definition same_second_store : Store :=
  mkStore [mkRow 1 "old" "lazypm" "2025-01-06 00:00:00"] 1.

(** A fresh connection to [file], nothing written yet. *)
Definition world_on (file : Store) : World :=
  mkWorld (opened file "2025-01-06 00:00:00") [].

Definition peek_header (v : Rmbrl_Verbosity_Level) : Stream :=
  if negb (is_silent v)
  then log_line RMBRL_LOG_INFO ("Currently Remembering:" ++ newline)%string
  else [].

(** The rows the loop of peek prints: all the SELECT yields, or with
    [all] unset only the first. *)
Definition peek_shown (cmd : Rmbrl_Command) (st : Store) : list Row :=
  let result_rows := select_rows (project cmd) false st in
  if all cmd then result_rows else firstn 1 result_rows.

Definition first_byte (s : string) : ascii :=
  match s with
  | String c _ => c
  | EmptyString => NUL
  end.

Definition sample_env : Env :=
  mkEnv "SHELL=/bin/sh" (Some "/home/u") None None None "2025-01-06 00:00:00".

Definition two_rows : Store :=
  mkStore [ mkRow 1 "untagged" EmptyString "2025-01-01 00:00:00";
            mkRow 2 "tagged" "lazypm" "2025-01-03 00:00:00" ] 2.

Definition clear_notice (cmd : Rmbrl_Command) : Stream :=
  if dry_run cmd
  then log_line RMBRL_LOG_INFO
         ("Performing dry run. Memory will NOT be forgotten!" ++ newline)%string
  else [].

Definition clear_header (v : Rmbrl_Verbosity_Level) : Stream :=
  if negb (is_silent v)
  then log_line RMBRL_LOG_INFO ("Forgotten Memories:" ++ newline)%string
  else [].

Definition delete_stmt (cmd : Rmbrl_Command) (id : Z) : Sql :=
  if id =? -1 then Delete (project cmd) else Delete_id id.

(** How a silent and a normal run of clear compare, from the point
    where standard error holds [pre] and the connection is [c0]. *)
Definition differ_by_header (pre : Stream) (c0 : sqlite3) (rs rn : Z * World) : Prop :=
  fst rs = fst rn
  /\ db (snd rs) = db (snd rn)
  /\ (fst rs <> 0 -> stderr (snd rs) = stderr (snd rn))
  /\ (fst rs = 0 ->
      exists stmt : Sql,
        is_delete stmt = true
        /\ In stmt (statements (db (snd rs)))
        /\ stderr (snd rs)
           = pre ++ flat_map (row_text RMBRL_VERB_SILENT) (fst (sqlite3_run stmt c0))
        /\ stderr (snd rn)
           = pre ++ log_line RMBRL_LOG_INFO ("Forgotten Memories:" ++ newline)%string
               ++ flat_map (row_text RMBRL_VERB_SILENT) (fst (sqlite3_run stmt c0))).

(** ** The loop of [main] as a machine

    One round of the loop over [argv] takes the state (the command and the
    ignored flags) to the next one; [step tok] lists the ways, each under
    the test of the source that guards it. *)

Definition State : Type := (Rmbrl_Command * list string)%type.

Definition is_all_flag (tok : string) : bool :=
  strcmp0 tok "--all" || strcmp0 tok "-a".
Definition is_dry_flag (tok : string) : bool :=
  strcmp0 tok "--dry-run" || strcmp0 tok "-n".
Definition is_verbose_flag (tok : string) : bool :=
  strcmp0 tok "--verbose" || strcmp0 tok "-v".
Definition is_silent_flag (tok : string) : bool :=
  strcmp0 tok "--silent" || strcmp0 tok "-s".
Definition is_project_flag (tok : string) : bool :=
  strncmp0 tok "-p" || strncmp0 tok "--project".

Inductive step (tok : string) : State -> State -> Prop :=
| step_all cmd ign :
    is_all_flag tok = true -> function cmd <> RMBRL_CMD_ADD ->
    step tok (cmd, ign) (set_all cmd true, ign)
| step_dry cmd ign :
    is_dry_flag tok = true ->
    step tok (cmd, ign) (set_dry_run cmd true, ign)
| step_verbose cmd ign :
    is_verbose_flag tok = true ->
    step tok (cmd, ign) (set_verbosity cmd RMBRL_VERB_VERBOSE, ign)
| step_silent cmd ign :
    is_silent_flag tok = true ->
    step tok (cmd, ign) (set_verbosity cmd RMBRL_VERB_SILENT, ign)
| step_attached cmd ign p :
    is_project_flag tok = true ->
    step tok (cmd, ign) (set_project cmd p, ign)
| step_task cmd ign :
    function cmd = RMBRL_CMD_ADD -> task cmd = None -> first_byte tok <> "-"%char ->
    step tok (cmd, ign) (set_task cmd tok, ign)
| step_ignore cmd ign :
    is_dry_flag tok = false -> is_verbose_flag tok = false ->
    is_silent_flag tok = false -> is_project_flag tok = false ->
    (is_all_flag tok = false \/ function cmd = RMBRL_CMD_ADD) ->
    (function cmd <> RMBRL_CMD_ADD \/ task cmd <> None \/ first_byte tok = "-"%char) ->
    step tok (cmd, ign) (cmd, ign ++ [tok]).

(** [l] is [m] with some elements left out, the order kept. *)
Inductive subseq {A : Type} : list A -> list A -> Prop :=
| subseq_nil : subseq [] []
| subseq_skip x l m : subseq l m -> subseq l (x :: m)
| subseq_take x l m : subseq l m -> subseq (x :: l) (x :: m).

(** ** What an executor does to the connection

    The return code and the connection an executor leaves, written
    without the logging: the tests, the statements and the transaction
    calls of the source in their order. *)

Definition exec_effect (s : Sql) (c : sqlite3) : Z * sqlite3 :=
  let r := sqlite3_exec s c in
  (match fst r with Some _ => 1 | None => 0 end, snd r).

(** The rollback that ends a dry run. *)
Definition finish_effect (dry : bool) (c : sqlite3) : Z * sqlite3 :=
  if dry then exec_effect Rollback c else (0, c).

(** The begin that opens a dry run, and the early return when it fails. *)
Definition guarded_effect (dry : bool) (body : sqlite3 -> Z * sqlite3)
           (c : sqlite3) : Z * sqlite3 :=
  if dry
  then let r := exec_effect Begin_transaction c in
       if fst r =? 0 then body (snd r) else r
  else body c.

Definition add_effect (cmd : Rmbrl_Command) (t : string) (c : sqlite3) : Z * sqlite3 :=
  if (256 <? strlen t) || project_too_long cmd then (1, c)
  else
    guarded_effect (dry_run cmd)
      (fun c =>
         finish_effect (dry_run cmd)
           (snd (sqlite3_run
                   (Insert t (match project cmd with Some p => p | None => EmptyString end))
                   c)))
      c.

Definition peek_effect (cmd : Rmbrl_Command) (c : sqlite3) : Z * sqlite3 :=
  if project_too_long cmd then (1, c)
  else (0, record_stmt (Select (project cmd) false) c).

Definition clear_effect (cmd : Rmbrl_Command) (c : sqlite3) : Z * sqlite3 :=
  if project_too_long cmd then (1, c)
  else
    guarded_effect (dry_run cmd)
      (fun c =>
         if negb (all cmd)
         then
           let c1 := record_stmt (Select (project cmd) true) c in
           match select_rows (project cmd) true (live c) with
           | [] => (1, c1)
           | r :: _ =>
             finish_effect (dry_run cmd)
               (snd (sqlite3_run (delete_stmt cmd (sqlite3_column_int (row_id r))) c1))
           end
         else finish_effect (dry_run cmd) (snd (sqlite3_run (delete_stmt cmd (-1)) c)))
      c.

(** The code and the connection of a result. *)
Definition outcome (r : Z * World) : Z * sqlite3 := (fst r, db (snd r)).

(** The switch of [main] (lines 765-779), on the connection that has
    received the CREATE TABLE. *)
Definition dispatch_effect (cmd : Rmbrl_Command) (c : sqlite3) : Z * sqlite3 :=
  match function cmd with
  | RMBRL_CMD_ADD =>
    match task cmd with
    | Some t => add_effect cmd t c
    | None => (139, c)
    end
  | RMBRL_CMD_PEEK => peek_effect cmd c
  | RMBRL_CMD_CLEAR => clear_effect cmd c
  | RMBRL_CMD_UNKNOWN => (134, c)
  end.

(** The connection [main] dispatches on: the store file opened, the
    table statement received. *)
Definition session_start (env : Env) (file : Store) : sqlite3 :=
  record_stmt Create_table (opened file (CURRENT_TIMESTAMP env)).

(** [main] gets its connection: the home directory is known and short
    enough for the path of the store file, the data directory is there,
    and the file system lets the file be opened. *)
Definition store_opens (env : Env) : Prop :=
  exists home_env,
    HOME env = Some home_env /\ strlen home_env <= 476
    /\ mkdir_error env = None /\ open_error env = None.

(** ** The words of the scan *)

(** The token begins with a dash. *)
Definition dashed (tok : string) : Prop := first_byte tok = "-"%char.

(** The verbosity a verbosity flag asks for. *)
Definition verbosity_of_flag (tok : string) : Rmbrl_Verbosity_Level :=
  if is_verbose_flag tok then RMBRL_VERB_VERBOSE else RMBRL_VERB_SILENT.

(** The token is one of the flags the loop acts upon whatever the
    command. *)
Definition recognised (tok : string) : bool :=
  is_dry_flag tok || is_verbose_flag tok || is_silent_flag tok || is_project_flag tok.

(** ** Dynamic arrays (lines 68-99)

    [Rmbrl_DA_Strs] as [main] uses it for the ignored flags.  [items] holds
    the slots written so far, the first [count] of the block; the block
    itself is what the last [RMBRL_REALLOC] returned, [capacity] slots of
    [sizeof_item] bytes computed in [size_t].  The allocator is taken to
    succeed (the source aborts otherwise). *)

Definition SIZE_MAX : Z := 18446744073709551615.

(** Arithmetic in [size_t], 64 bits on the systems the program is built
    for. *)
Definition size_t (z : Z) : Z := z mod (SIZE_MAX + 1).

Definition RMBRL_DA_INIT_CAP : Z := 256.

(** [sizeof( *(da)->items)], a [char *]. *)
Definition sizeof_item : Z := 8.

Record Rmbrl_DA_Strs : Set := mkDA {
  items : list string;
  capacity : Z;
  count : Z
}.

(** [Rmbrl_DA_Strs ignored_flags = {0}] *)
Definition da_zero : Rmbrl_DA_Strs := mkDA [] 0 0.

(** The loop of lines 83-86, at most [fuel] rounds of it: [None] when
    the test still holds after them. *)
Fixpoint da_double (fuel : nat) (expected_capacity cap : Z) {struct fuel} : option Z :=
  if cap <? expected_capacity
  then match fuel with
       | O => None
       | S fuel' => da_double fuel' expected_capacity (size_t (cap * 2))
       end
  else Some cap.

Definition rmbrl_da_reserve (fuel : nat) (da : Rmbrl_DA_Strs) (expected_capacity : Z)
  : option Rmbrl_DA_Strs :=
  if capacity da <? expected_capacity
  then
    let cap := if capacity da =? 0 then RMBRL_DA_INIT_CAP else capacity da in
    match da_double fuel expected_capacity cap with
    | Some cap' => Some (mkDA (items da) cap' (count da))
    | None => None
    end
  else Some da.

Definition rmbrl_da_append (fuel : nat) (da : Rmbrl_DA_Strs) (item : string)
  : option Rmbrl_DA_Strs :=
  match rmbrl_da_reserve fuel da (size_t (count da + 1)) with
  | Some da' => Some (mkDA (items da' ++ [item]) (capacity da') (size_t (count da' + 1)))
  | None => None
  end.

(** The bytes asked of [RMBRL_REALLOC] for the block (line 87). *)
Definition block_bytes (da : Rmbrl_DA_Strs) : Z := size_t (capacity da * sizeof_item).

(** What the appends keep: [count] is the number of slots written, it
    does not exceed [capacity], and [capacity] is no more than the first
    capacity or twice the count. *)
Definition da_ok (da : Rmbrl_DA_Strs) : Prop :=
  count da = Z.of_nat (List.length (items da))
  /\ count da <= capacity da
  /\ capacity da <= Z.max RMBRL_DA_INIT_CAP (2 * count da).

(** ** One more sample input *)

(** A store whose newest row has an id that reads as -1 in an [int]. *)
Definition wide_id_store : Store :=
  mkStore [ mkRow 1 "a" "lazypm" "2025-01-01 00:00:00";
            mkRow 7 "b" "other" "2025-01-02 00:00:00";
            mkRow 4294967295 "c" "lazypm" "2025-01-03 00:00:00" ] 4294967295.

(** * Properties *)

(** ** Facts about the store *)

Section Ordering.

Lemma string_leb_trans (a : string) : forall b c,
  String.leb a b = true -> String.leb b c = true -> String.leb a c = true.
Proof.
  unfold String.leb.
  induction a as [|x a IH]; intros [|y b] [|z c]; simpl; try congruence.
  unfold Ascii.compare.
  destruct (N.compare_spec (N_of_ascii x) (N_of_ascii y)) as [Hxy|Hxy|Hxy];
    destruct (N.compare_spec (N_of_ascii y) (N_of_ascii z)) as [Hyz|Hyz|Hyz];
    destruct (N.compare_spec (N_of_ascii x) (N_of_ascii z)) as [Hxz|Hxz|Hxz];
    try congruence; try lia; auto; apply IH.
Qed.

Lemma string_leb_false_flip (a b : string) :
  String.leb a b = false -> String.leb b a = true.
Proof.
  intros H. destruct (String.leb_total a b) as [E|E]; congruence.
Qed.

Lemma string_ltb_not_leb (a b : string) :
  String.ltb a b = true -> String.leb b a = false.
Proof.
  unfold String.ltb, String.leb. rewrite (String.compare_antisym b a).
  destruct (String.compare a b); simpl; congruence.
Qed.

Lemma insert_desc_perm (r : Row) (l : list Row) :
  Permutation (r :: l) (insert_desc r l).
Proof.
  induction l as [|x l IH]; simpl; auto.
  destruct (String.leb (created_at x) (created_at r)); auto.
  rewrite perm_swap. now apply perm_skip.
Qed.

Lemma order_by_perm (l : list Row) :
  Permutation l (order_by_created_at_desc l).
Proof.
  induction l as [|x l IH]; simpl; auto.
  rewrite <- insert_desc_perm. now apply perm_skip.
Qed.

Lemma insert_desc_sorted (r : Row) (l : list Row) :
  desc_sorted l -> desc_sorted (insert_desc r l).
Proof.
  induction 1 as [|x l Hx Hl IH]; simpl.
  - constructor; [intros y []|constructor].
  - destruct (String.leb (created_at x) (created_at r)) eqn:E.
    + constructor; [|now constructor].
      intros y [<-|Hy]; auto.
      eapply string_leb_trans; [apply Hx, Hy|exact E].
    + constructor; auto.
      intros y Hy.
      apply (Permutation_in _ (Permutation_sym (insert_desc_perm r l))) in Hy.
      destruct Hy as [<-|Hy]; auto using string_leb_false_flip.
Qed.

Lemma order_by_sorted (l : list Row) : desc_sorted (order_by_created_at_desc l).
Proof.
  induction l; simpl; [constructor|now apply insert_desc_sorted].
Qed.

Lemma string_leb_refl (a : string) : String.leb a a = true.
Proof. destruct (String.leb_total a a); auto. Qed.

(** The first row of an [ORDER BY created_at DESC] is a row of the input
    and no row of the input is more recent. *)
Lemma order_by_head (l : list Row) (r : Row) (t : list Row) :
  order_by_created_at_desc l = r :: t -> In r l /\ newest_of r l.
Proof.
  intros E. pose proof (order_by_perm l) as P. pose proof (order_by_sorted l) as S.
  rewrite E in P, S. split.
  - apply (Permutation_in _ (Permutation_sym P)). now left.
  - intros x Hx. apply (Permutation_in _ P) in Hx. inversion S; subst.
    destruct Hx as [<-|Hx]; auto using string_leb_refl.
Qed.

Lemma order_by_nil (l : list Row) : order_by_created_at_desc l = [] -> l = [].
Proof.
  intros E. pose proof (order_by_perm l) as P. rewrite E in P.
  now apply Permutation_sym, Permutation_nil in P.
Qed.

(** A row strictly more recent than all others comes out first. *)
Lemma order_by_snoc_newest (l : list Row) (r : Row) :
  (forall x, In x l -> String.ltb (created_at x) (created_at r) = true) ->
  order_by_created_at_desc (l ++ [r]) = r :: order_by_created_at_desc l.
Proof.
  induction l as [|x l IH]; intros H; simpl; auto.
  rewrite IH by (intros; apply H; now right). simpl.
  now rewrite (string_ltb_not_leb _ _ (H x (or_introl eq_refl))).
Qed.

End Ordering.

(** ** Opening the store *)

Lemma length_append_string (a b : string) :
  String.length (a ++ b)%string = (String.length a + String.length b)%nat.
Proof. induction a as [|c a IH]; cbn; [reflexivity|now rewrite IH]. Qed.

Lemma length_substring_0 (n : nat) (s : string) :
  String.length (String.substring 0 n s) = Nat.min n (String.length s).
Proof.
  revert s. induction n as [|n IH]; intros [|c s]; cbn; try reflexivity.
  now rewrite IH.
Qed.

(** The path handed to [sqlite3_open]: the home directory, the twenty
    bytes of the data directory cut at 511, and the eight of the file
    name. *)
Lemma db_path_length (home_env : string) :
  strlen (db_path home_env) = Z.min 511 (strlen home_env + 20) + 8.
Proof.
  unfold db_path, db_dir, strlen.
  rewrite length_append_string, length_substring_0, length_append_string.
  cbn [String.length]. lia.
Qed.

(** The open succeeds exactly when the home directory has at most 476
    bytes and the file system does not refuse. *)
Lemma sqlite3_open_cases (home_env : string) (io_error : option string)
      (file : Store) (now : string) :
  (strlen home_env <= 476 /\ io_error = None
   /\ sqlite3_open (db_path home_env) io_error file now = inr (opened file now))
  \/ ((476 < strlen home_env \/ io_error <> None)
      /\ exists errmsg,
           sqlite3_open (db_path home_env) io_error file now = inl errmsg).
Proof.
  unfold sqlite3_open, SQLITE_MAX_PATHNAME. rewrite db_path_length.
  destruct (512 <? Z.min 511 (strlen home_env + 20) + 8 + 8) eqn:E.
  - apply Z.ltb_lt in E. right. split; [left; lia|now eexists].
  - apply Z.ltb_ge in E. destruct io_error as [reason|].
    + right. split; [right; discriminate|now eexists].
    + left. split; [lia|]. split; reflexivity.
Qed.

(** ** Facts about the world *)

Lemma db_rmbrl_log level msg w : db (rmbrl_log level msg w) = db w.
Proof. reflexivity. Qed.

Lemma db_log_query cmd stmt w : db (log_query cmd stmt w) = db w.
Proof. unfold log_query. now destruct (is_verbose (verbosity cmd)). Qed.

Lemma db_print_row v r w : db (print_row v r w) = db w.
Proof.
  unfold print_row.
  destruct (0 <? strlen (row_project r)), (is_verbose v); reflexivity.
Qed.

Lemma db_clear_loop cmd rs : forall w, db (clear_loop cmd rs w) = db w.
Proof.
  induction rs as [|r rs IH]; intros w; simpl; auto.
  now rewrite IH, db_print_row.
Qed.

Lemma db_peek_loop cmd rs : forall w, db (peek_loop cmd rs w) = db w.
Proof.
  induction rs as [|r rs IH]; intros w; simpl; auto.
  destruct (all cmd); simpl; [rewrite IH|]; apply db_print_row.
Qed.

Ltac same_db :=
  repeat first
    [ rewrite db_rmbrl_log | rewrite db_log_query | rewrite db_print_row
    | rewrite db_clear_loop | rewrite db_peek_loop ].

Lemma stderr_print_row v r w :
  stderr (print_row v r w) = stderr w ++ row_text v r.
Proof.
  unfold print_row, row_text.
  destruct (0 <? strlen (row_project r)), (is_verbose v); simpl;
    repeat rewrite <- app_assoc; reflexivity || (simpl; reflexivity).
Qed.

Lemma stderr_clear_loop cmd rs : forall w,
  stderr (clear_loop cmd rs w) = stderr w ++ flat_map (row_text (verbosity cmd)) rs.
Proof.
  induction rs as [|r rs IH]; intros w; simpl.
  - now rewrite app_nil_r.
  - now rewrite IH, stderr_print_row, <- app_assoc.
Qed.

Lemma stderr_peek_loop cmd rs : forall w,
  stderr (peek_loop cmd rs w)
  = stderr w ++ flat_map (row_text (verbosity cmd)) (if all cmd then rs else firstn 1 rs).
Proof.
  induction rs as [|r rs IH]; intros w.
  - simpl. destruct (all cmd); now rewrite app_nil_r.
  - cbn [peek_loop]. destruct (all cmd); cbn [negb firstn flat_map].
    + now rewrite IH, stderr_print_row, <- app_assoc.
    + now rewrite stderr_print_row, app_nil_r.
Qed.

Lemma stderr_log_query cmd stmt w :
  stderr (log_query cmd stmt w) = stderr w ++ query_text cmd stmt.
Proof.
  unfold log_query, query_text.
  destruct (is_verbose (verbosity cmd)); simpl; [reflexivity|now rewrite app_nil_r].
Qed.

(** ** add: validation (C5) *)

(** C5.  A task longer than 256 bytes makes add return 1 with the
    connection untouched: no statement is handed to the store, the rows and
    the open transaction (if any) are as before, and the one thing added to
    standard error is the report naming the task.  With a task within
    the limit, a project longer than 256 bytes is refused the same way,
    the report naming the project. *)
Theorem add_rejects_oversized_fields :
  forall (cmd : Rmbrl_Command) (t : string) (w : World),
    task cmd = Some t ->
    (256 < strlen t ->
     rmbrl_command_add cmd w
     = Some (1, mkWorld (db w)
                  (stderr w
                   ++ log_line RMBRL_LOG_ERROR
                        ("Task " ++ dquote ++ t ++ dquote
                           ++ " exceeds char limit of 256 bytes." ++ newline)%string)))
    /\ (forall p, strlen t <= 256 -> project cmd = Some p -> 256 < strlen p ->
        rmbrl_command_add cmd w
        = Some (1, mkWorld (db w)
                     (stderr w
                      ++ log_line RMBRL_LOG_ERROR
                           ("Project " ++ dquote ++ p ++ dquote
                              ++ " exceeds char limit of 256 bytes." ++ newline)%string))).
Proof.
  intros cmd t w Ht. unfold rmbrl_command_add. rewrite Ht. split.
  - intros Hlen. apply Z.ltb_lt in Hlen. now rewrite Hlen.
  - intros p Hlen Hp Hplen.
    apply Z.ltb_ge in Hlen. rewrite Hlen.
    unfold project_too_long, log_project_too_long. rewrite Hp.
    apply Z.ltb_lt in Hplen. now rewrite Hplen.
Qed.

Lemma add_rejects_oversized_fields_witness :
  rmbrl_command_add
    (mkCommand RMBRL_CMD_ADD RMBRL_VERB_NORMAL None (Some (filler 257)) false false)
    (world_on sample_store)
  = Some (1, mkWorld (db (world_on sample_store))
               (stderr (world_on sample_store)
                ++ log_line RMBRL_LOG_ERROR
                     ("Task " ++ dquote ++ filler 257 ++ dquote
                        ++ " exceeds char limit of 256 bytes." ++ newline)%string))
  /\ rmbrl_command_add
       (mkCommand RMBRL_CMD_ADD RMBRL_VERB_NORMAL (Some (filler 257)) (Some "t") false false)
       (world_on sample_store)
     = Some (1, mkWorld (db (world_on sample_store))
                  (stderr (world_on sample_store)
                   ++ log_line RMBRL_LOG_ERROR
                        ("Project " ++ dquote ++ filler 257 ++ dquote
                           ++ " exceeds char limit of 256 bytes." ++ newline)%string)).
Proof.
  split.
  - apply (proj1 (add_rejects_oversized_fields
                    (mkCommand RMBRL_CMD_ADD RMBRL_VERB_NORMAL None (Some (filler 257))
                       false false)
                    (filler 257) (world_on sample_store) eq_refl)).
    reflexivity.
  - apply (proj2 (add_rejects_oversized_fields
                    (mkCommand RMBRL_CMD_ADD RMBRL_VERB_NORMAL (Some (filler 257)) (Some "t")
                       false false)
                    "t" (world_on sample_store) eq_refl) (filler 257)).
    + vm_compute. discriminate.
    + reflexivity.
    + reflexivity.
Defined.

(** ** add: dry run (C3) *)

(** C3.  On a freshly opened connection to any store, add with
    [dry_run] set returns with the store exactly as it was: what the
    connection leaves behind when closed is the store it was opened on.
    For a task and project within the length limit the call returns 0 and
    the statements the store received are the BEGIN, then the INSERT, then
    the ROLLBACK. *)
Theorem add_dry_run_leaves_store_unchanged :
  forall (cmd : Rmbrl_Command) (t : string) (file : Store) (now : string) (err : Stream),
    task cmd = Some t ->
    dry_run cmd = true ->
    exists (result : Z) (w' : World),
      rmbrl_command_add cmd (mkWorld (opened file now) err) = Some (result, w')
      /\ sqlite3_close (db w') = file
      /\ (strlen t <= 256 -> project_too_long cmd = false ->
          result = 0
          /\ statements (db w')
             = [ Begin_transaction;
                 Insert t (match project cmd with Some p => p | None => EmptyString end);
                 Rollback ]).
Proof.
  intros cmd t file now err Ht Hdry.
  unfold rmbrl_command_add. rewrite Ht, Hdry.
  destruct (256 <? strlen t) eqn:Elen.
  { eexists _, _. split; [reflexivity|]. split; [reflexivity|].
    intros H. apply Z.ltb_lt in Elen. lia. }
  destruct (project_too_long cmd) eqn:Eproj.
  { eexists _, _. split; [reflexivity|]. split; [reflexivity|]. congruence. }
  unfold rmbrl_db_begin_transaction, add_insert, rmbrl_db_rollback_transaction, log_query.
  rewrite Hdry.
  destruct (is_verbose (verbosity cmd)); simpl;
    (eexists _, _; split; [reflexivity|]; split; [reflexivity|]; intros _ _; split; reflexivity).
Qed.

Lemma add_dry_run_leaves_store_unchanged_witness :
  exists (result : Z) (w' : World),
    rmbrl_command_add
      (mkCommand RMBRL_CMD_ADD RMBRL_VERB_NORMAL (Some "lazypm") (Some "X") false true)
      (mkWorld
         (opened (mkStore [mkRow 1 "a" "lazypm" "2025-01-01 00:00:00"] 1)
            "2025-01-02 00:00:00") [])
    = Some (result, w')
    /\ sqlite3_close (db w') = mkStore [mkRow 1 "a" "lazypm" "2025-01-01 00:00:00"] 1
    /\ result = 0
    /\ statements (db w') = [Begin_transaction; Insert "X" "lazypm"; Rollback].
Proof.
  destruct (add_dry_run_leaves_store_unchanged
              (mkCommand RMBRL_CMD_ADD RMBRL_VERB_NORMAL (Some "lazypm") (Some "X") false true)
              "X" (mkStore [mkRow 1 "a" "lazypm" "2025-01-01 00:00:00"] 1)
              "2025-01-02 00:00:00" [] eq_refl eq_refl)
    as (result & w' & Hrun & Hfile & Hok).
  exists result, w'. split; [exact Hrun|]. split; [exact Hfile|].
  apply Hok; [vm_compute; discriminate|reflexivity].
Defined.

(** ** clear without --all (C1, C4) *)

Lemma filter_none {A : Type} (f : A -> bool) (l : list A) :
  (forall x, In x l -> f x = false) -> filter f l = [].
Proof.
  induction l as [|a l IH]; intros H; simpl; auto.
  rewrite (H a (or_introl eq_refl)). apply IH. intros; apply H; now right.
Qed.

(** C4.  When no row of the store matches the project filter, clear
    without [--all] returns 1, no DELETE is among the statements the store
    received, and what the connection leaves behind is the store as it
    was.  For a project filter within the length limit the statements are
    the resolving SELECT (after the BEGIN of a dry run) and nothing else,
    and the report is the failed-lookup error. *)
Theorem clear_one_without_match_fails :
  forall (cmd : Rmbrl_Command) (file : Store) (now : string) (err : Stream),
    all cmd = false ->
    (forall r, In r (memories file) -> matches (project cmd) r = false) ->
    exists w' : World,
      rmbrl_command_clear cmd (mkWorld (opened file now) err) = (1, w')
      /\ existsb is_delete (statements (db w')) = false
      /\ sqlite3_close (db w') = file
      /\ (project_too_long cmd = false ->
          statements (db w')
          = (if dry_run cmd then [Begin_transaction] else []) ++ [Select (project cmd) true]
          /\ exists before : Stream,
               stderr w'
               = before
                 ++ log_line RMBRL_LOG_ERROR
                      ("Failed to remember memory to delete: "
                         ++ sqlite3_errmsg (db w') ++ newline)%string).
Proof.
  intros cmd file now err Hall Hnone.
  unfold rmbrl_command_clear.
  destruct (project_too_long cmd) eqn:Hproj.
  { eexists. split; [reflexivity|]. split; [reflexivity|]. split; [reflexivity|].
    intros H; discriminate H. }
  unfold clear_resolve, rmbrl_db_begin_transaction, log_query. rewrite Hall.
  destruct (dry_run cmd), (is_verbose (verbosity cmd)); simpl;
    unfold select_rows; simpl; rewrite (filter_none _ _ Hnone); simpl;
    (eexists; split; [reflexivity|]; split; [reflexivity|]; split; [reflexivity|];
     intros _; split; [reflexivity|]; eexists; reflexivity).
Qed.

Lemma clear_one_without_match_fails_witness :
  exists w' : World,
    rmbrl_command_clear
      (mkCommand RMBRL_CMD_CLEAR RMBRL_VERB_NORMAL (Some "lazypm") None false false)
      (mkWorld
         (opened (mkStore [mkRow 1 "a" "other" "2025-01-01 00:00:00"] 1)
            "2025-01-02 00:00:00") [])
    = (1, w')
    /\ statements (db w') = [Select (Some "lazypm") true]
    /\ sqlite3_close (db w') = mkStore [mkRow 1 "a" "other" "2025-01-01 00:00:00"] 1.
Proof.
  destruct (clear_one_without_match_fails
              (mkCommand RMBRL_CMD_CLEAR RMBRL_VERB_NORMAL (Some "lazypm") None false false)
              (mkStore [mkRow 1 "a" "other" "2025-01-01 00:00:00"] 1)
              "2025-01-02 00:00:00" [] eq_refl)
    as (w' & Hrun & _ & Hfile & Hstmts).
  - intros r [<-|[]]. reflexivity.
  - exists w'. split; [exact Hrun|]. split; [|exact Hfile].
    exact (proj1 (Hstmts eq_refl)).
Defined.

Lemma sqlite3_column_int_fits (z : Z) :
  1 <= z <= INT_MAX -> sqlite3_column_int z = z /\ (z =? -1) = false.
Proof.
  unfold INT_MAX, sqlite3_column_int. intros H. split.
  - rewrite Z.mod_small; lia.
  - apply Z.eqb_neq. lia.
Qed.

(** Taking the rows a DELETE picks out of a table leaves a permutation
    of the table when put back in front. *)
Lemma delete_where_perm (pred : Row -> bool) (table : list Row) :
  Permutation table
    (filter pred table ++ filter (fun r => negb (pred r)) table).
Proof.
  induction table as [|row table IH]; [constructor|].
  cbn [filter]. destruct (pred row); cbn [negb app].
  - constructor. exact IH.
  - apply Permutation_cons_app. exact IH.
Qed.

Lemma filter_rowid_unique (l : list Row) (r : Row) :
  NoDup (map row_id l) -> In r l ->
  filter (fun x => row_id x =? row_id r) l = [r].
Proof.
  induction l as [|a l IH]; simpl; intros Hnd Hin; [contradiction|].
  inversion Hnd as [|? ? Hnotin Hnd']; subst.
  destruct Hin as [->|Hin].
  - rewrite Z.eqb_refl. f_equal.
    apply filter_none. intros x Hx. apply Z.eqb_neq. intros E.
    apply Hnotin. rewrite <- E. now apply in_map.
  - destruct (row_id a =? row_id r) eqn:E; [|now apply IH].
    apply Z.eqb_eq in E. exfalso. apply Hnotin. rewrite E. now apply in_map.
Qed.

(** C1, as the code has it.  On a store with unique row ids in the range
    of an [int], with at least one row matching the project filter, clear
    without [--all] and without [--dry-run] returns 0 after a SELECT with
    LIMIT 1 and a DELETE by the id that SELECT gave; the row [r] of that id
    matches the filter, no matching row has a later [created_at], and the
    store left behind is the old one without [r]: exactly one row is gone. *)
Theorem clear_one_removes_most_recent_match :
  forall (cmd : Rmbrl_Command) (file : Store) (now : string) (err : Stream),
    all cmd = false ->
    dry_run cmd = false ->
    project_too_long cmd = false ->
    rowids_ok file ->
    (exists r0, In r0 (memories file) /\ matches (project cmd) r0 = true) ->
    exists (r : Row) (w' : World),
      rmbrl_command_clear cmd (mkWorld (opened file now) err) = (0, w')
      /\ In r (memories file)
      /\ matches (project cmd) r = true
      /\ (forall x, In x (memories file) -> matches (project cmd) x = true ->
                    String.leb (created_at x) (created_at r) = true)
      /\ statements (db w') = [Select (project cmd) true; Delete_id (row_id r)]
      /\ memories (sqlite3_close (db w'))
         = filter (fun x => negb (row_id x =? row_id r)) (memories file)
      /\ Permutation (memories file) (r :: memories (sqlite3_close (db w')))
      /\ List.length (memories file)
         = S (List.length (memories (sqlite3_close (db w')))).
Proof.
  intros cmd file now err Hall Hdry Hproj [Hnd Hrange] (r0 & Hin0 & Hm0).
  destruct (order_by_created_at_desc (filter (matches (project cmd)) (memories file)))
    as [|r t] eqn:E.
  { apply order_by_nil in E.
    assert (In r0 (filter (matches (project cmd)) (memories file))) as Hf
        by (apply filter_In; auto).
    rewrite E in Hf. contradiction. }
  destruct (order_by_head _ _ _ E) as [Hr Hnewest].
  apply filter_In in Hr. destruct Hr as [Hr Hmatch].
  destruct (sqlite3_column_int_fits _ (Hrange r Hr)) as [Hint Hnot].
  assert (rmbrl_command_clear cmd (mkWorld (opened file now) err)
          = clear_delete cmd (row_id r)
              (let w := log_query cmd (Select (project cmd) true)
                          (mkWorld (opened file now) err) in
               let w := with_db w (record_stmt (Select (project cmd) true) (db w)) in
               if is_verbose (verbosity cmd)
               then print_row RMBRL_VERB_VERBOSE r
                      (rmbrl_log RMBRL_LOG_INFO ("Found Memory:" ++ newline)%string w)
               else w)) as Hstep.
  { unfold rmbrl_command_clear, clear_resolve.
    rewrite Hproj, Hdry, Hall. cbn [negb].
    unfold sqlite3_run, select_rows. rewrite db_log_query. cbn [db opened live record_stmt].
    rewrite E. cbn [firstn]. now rewrite Hint. }
  rewrite Hstep. clear Hstep.
  unfold clear_delete. rewrite Hnot, Hdry.
  exists r. eexists. split.
  { unfold sqlite3_run, delete_where. reflexivity. }
  split; [exact Hr|]. split; [exact Hmatch|]. split.
  { intros x Hx Hxm. apply Hnewest. apply filter_In. auto. }
  same_db. cbn [db with_db].
  destruct (is_silent (verbosity cmd)), (is_verbose (verbosity cmd));
    cbn [negb]; same_db; cbn [db with_db record_stmt statements live saved opened
                               sqlite3_close app].
  all: split; [reflexivity|]; split; [reflexivity|]; cbn [memories].
  all: pose proof (delete_where_perm (fun x => row_id x =? row_id r) (memories file)) as P;
    rewrite (filter_rowid_unique _ _ Hnd Hr) in P.
  all: split; [exact P|exact (Permutation_length P)].
Qed.

Lemma sample_store_rowids_ok : rowids_ok sample_store.
Proof.
  split.
  - simpl. repeat constructor; simpl; intuition discriminate.
  - unfold INT_MAX. simpl. intros r [<-|[<-|[<-|[]]]]; simpl; lia.
Defined.

Lemma clear_one_removes_most_recent_match_witness :
  exists (r : Row) (w' : World),
    rmbrl_command_clear clear_lazypm
      (mkWorld (opened sample_store "2025-01-06 00:00:00") [])
    = (0, w')
    /\ In r (memories sample_store)
    /\ matches (project clear_lazypm) r = true
    /\ (forall x, In x (memories sample_store) -> matches (project clear_lazypm) x = true ->
                  String.leb (created_at x) (created_at r) = true)
    /\ statements (db w') = [Select (project clear_lazypm) true; Delete_id (row_id r)]
    /\ memories (sqlite3_close (db w'))
       = filter (fun x => negb (row_id x =? row_id r)) (memories sample_store)
    /\ Permutation (memories sample_store) (r :: memories (sqlite3_close (db w')))
    /\ List.length (memories sample_store)
       = S (List.length (memories (sqlite3_close (db w')))).
Proof.
  apply (clear_one_removes_most_recent_match clear_lazypm sample_store
           "2025-01-06 00:00:00" [] eq_refl eq_refl eq_refl sample_store_rowids_ok).
  exists (mkRow 1 "a" "lazypm" "2025-01-01 00:00:00").
  split; [simpl; auto|reflexivity].
Defined.

(** C1 as stated fails when nothing matches and in a dry run.  On the
    store whose only row is tagged [other], clear without [--all] for the
    project [lazypm] returns 1 and the row stays.  On the store whose only
    row is tagged [lazypm], the dry run of the same clear returns 0 and
    the row stays as well.  Either way no row is removed. *)
Lemma clear_one_can_remove_no_row :
  fst (rmbrl_command_clear clear_lazypm (world_on one_other_row)) = 1
  /\ sqlite3_close (db (snd (rmbrl_command_clear clear_lazypm (world_on one_other_row))))
     = one_other_row
  /\ fst (rmbrl_command_clear (set_dry_run clear_lazypm true) (world_on one_lazypm_row)) = 0
  /\ sqlite3_close
       (db (snd (rmbrl_command_clear (set_dry_run clear_lazypm true)
                   (world_on one_lazypm_row))))
     = one_lazypm_row.
Proof. vm_compute. repeat split. Qed.

Lemma world_eq (w1 w2 : World) :
  db w1 = db w2 -> stderr w1 = stderr w2 -> w1 = w2.
Proof. destruct w1, w2; simpl; intros; subst; reflexivity. Qed.

(** ** peek *)

Lemma peek_spec (cmd : Rmbrl_Command) (w : World) :
  project_too_long cmd = false ->
  rmbrl_command_peek cmd w
  = (0, mkWorld (record_stmt (Select (project cmd) false) (db w))
          (stderr w
           ++ query_text cmd (Select (project cmd) false)
           ++ peek_header (verbosity cmd)
           ++ flat_map (row_text (verbosity cmd)) (peek_shown cmd (live (db w))))).
Proof.
  intros Hproj. unfold rmbrl_command_peek. rewrite Hproj.
  set (stmt := Select (project cmd) false).
  set (w1 := log_query cmd stmt w).
  set (w2 := if negb (is_silent (verbosity cmd)) then _ else w1).
  assert (db w2 = db w) as Hdb.
  { subst w2 w1. destruct (negb (is_silent (verbosity cmd))); now same_db. }
  assert (stderr w2 = stderr w ++ query_text cmd stmt ++ peek_header (verbosity cmd)) as Herr.
  { subst w2 w1. unfold peek_header.
    destruct (negb (is_silent (verbosity cmd))); cbn [rmbrl_log stderr];
      rewrite stderr_log_query; [now rewrite <- app_assoc|now rewrite app_nil_r]. }
  unfold sqlite3_run, stmt. rewrite Hdb. f_equal.
  apply world_eq; cbn [db stderr].
  - now rewrite db_peek_loop.
  - rewrite stderr_peek_loop. cbn [stderr with_db]. rewrite Herr.
    unfold peek_shown, stmt. cbn [record_stmt live]. now rewrite <- !app_assoc.
Qed.

(** ** add then peek (C2) *)

Lemma select_after_insert_same_project (file : Store) (t P now : string) :
  (forall r, In r (memories file) -> row_project r = P ->
             String.ltb (created_at r) now = true) ->
  select_rows (Some P) false (insert_row t P now file)
  = mkRow (next_rowid file) t P now :: select_rows (Some P) false file.
Proof.
  intros Hold. unfold select_rows, insert_row. cbn [memories].
  rewrite filter_app. cbn [filter matches row_project]. rewrite String.eqb_refl.
  apply order_by_snoc_newest. intros x Hx. apply filter_In in Hx.
  destruct Hx as [Hx Hm]. cbn [created_at]. apply Hold; auto.
  now apply String.eqb_eq.
Qed.

Lemma select_after_insert_other_project (file : Store) (t P Q now : string) :
  Q <> P ->
  (forall r, In r (memories file) -> row_project r <> Q) ->
  select_rows (Some Q) false (insert_row t P now file) = [].
Proof.
  intros Hne Hnone. unfold select_rows, insert_row. cbn [memories].
  rewrite filter_none; [reflexivity|].
  intros x Hx. cbn [matches]. apply String.eqb_neq.
  apply in_app_or in Hx. destruct Hx as [Hx|[<-|[]]]; auto.
Qed.

(** C2.  [t], [P], [Q] within the length limit, [Q <> P].  On a store
    whose rows tagged [P] are all older than the store's clock and that has
    no row tagged [Q] (the empty store is one), add with project [P] and
    task [t] returns 0 and appends the row to the table, and on the store
    it leaves behind: peek with filter [P] returns 0 and prints the new row first, before any other row (and
    alone when [all] is unset); peek with filter [Q] returns 0 and prints
    no row. *)
Theorem add_then_peek_round_trip :
  forall (t P Q : string) (file : Store) (now later : string)
         (va v : Rmbrl_Verbosity_Level) (a : bool) (err err' : Stream),
    strlen t <= 256 -> strlen P <= 256 -> strlen Q <= 256 -> Q <> P ->
    (forall r, In r (memories file) -> row_project r = P ->
               String.ltb (created_at r) now = true) ->
    (forall r, In r (memories file) -> row_project r <> Q) ->
    exists w1 : World,
      rmbrl_command_add (mkCommand RMBRL_CMD_ADD va (Some P) (Some t) false false)
        (mkWorld (opened file now) err)
      = Some (0, w1)
      /\ let peek_cmd := fun p => mkCommand RMBRL_CMD_PEEK v (Some p) None a false in
         let peek := fun p =>
           rmbrl_command_peek (peek_cmd p)
             (mkWorld (opened (sqlite3_close (db w1)) later) err') in
         let new_row := mkRow (next_rowid file) t P now in
         memories (sqlite3_close (db w1)) = memories file ++ [new_row]
         /\ fst (peek P) = 0
         /\ stderr (snd (peek P))
            = err' ++ query_text (peek_cmd P) (Select (Some P) false) ++ peek_header v
                ++ row_text v new_row
                ++ flat_map (row_text v)
                     (if a then select_rows (Some P) false file else [])
         /\ fst (peek Q) = 0
         /\ stderr (snd (peek Q))
            = err' ++ query_text (peek_cmd Q) (Select (Some Q) false) ++ peek_header v.
Proof.
  intros t P Q file now later va v a err err' Ht HP HQ Hne Hold Hnone.
  assert (forall p c, strlen p <= 256 ->
            project_too_long (mkCommand c v (Some p) None a false) = false) as Hok.
  { intros p c Hp. unfold project_too_long. cbn [project]. now apply Z.ltb_ge. }
  eexists. split.
  { unfold rmbrl_command_add, project_too_long. cbn [task project dry_run].
    apply Z.ltb_ge in Ht, HP. rewrite Ht, HP.
    unfold add_insert, sqlite3_run. cbn [dry_run project]. reflexivity. }
  cbv beta zeta.
  rewrite !peek_spec by (apply Hok; assumption).
  cbn [fst snd stderr db with_db].
  same_db.
  cbn [db with_db opened sqlite3_close record_stmt saved live clock verbosity].
  unfold peek_shown. cbn [project all].
  rewrite select_after_insert_same_project by assumption.
  rewrite (select_after_insert_other_project _ _ _ _ _ Hne Hnone).
  split; [reflexivity|].
  repeat split.
  - destruct a; cbn [firstn flat_map]; now rewrite ?app_nil_r.
  - destruct a; cbn [firstn flat_map]; now rewrite ?app_nil_r.
Qed.

Lemma add_then_peek_round_trip_witness :
  exists w1 : World,
    rmbrl_command_add
      (mkCommand RMBRL_CMD_ADD RMBRL_VERB_NORMAL (Some "lazypm") (Some "task") false false)
      (mkWorld (opened one_lazypm_row "2025-01-02 00:00:00") [])
    = Some (0, w1)
    /\ let peek_cmd :=
         fun p => mkCommand RMBRL_CMD_PEEK RMBRL_VERB_NORMAL (Some p) None false false in
       let peek := fun p =>
         rmbrl_command_peek (peek_cmd p)
           (mkWorld (opened (sqlite3_close (db w1)) "2025-01-03 00:00:00") []) in
       let new_row :=
         mkRow (next_rowid one_lazypm_row) "task" "lazypm" "2025-01-02 00:00:00" in
       memories (sqlite3_close (db w1)) = memories one_lazypm_row ++ [new_row]
       /\ fst (peek "lazypm") = 0
       /\ stderr (snd (peek "lazypm"))
          = [] ++ query_text (peek_cmd "lazypm") (Select (Some "lazypm") false)
              ++ peek_header RMBRL_VERB_NORMAL ++ row_text RMBRL_VERB_NORMAL new_row
              ++ flat_map (row_text RMBRL_VERB_NORMAL) []
       /\ fst (peek "other") = 0
       /\ stderr (snd (peek "other"))
          = [] ++ query_text (peek_cmd "other") (Select (Some "other") false)
              ++ peek_header RMBRL_VERB_NORMAL.
Proof.
  apply (add_then_peek_round_trip "task" "lazypm" "other" one_lazypm_row
           "2025-01-02 00:00:00" "2025-01-03 00:00:00"
           RMBRL_VERB_NORMAL RMBRL_VERB_NORMAL false [] []).
  - vm_compute. discriminate.
  - vm_compute. discriminate.
  - vm_compute. discriminate.
  - discriminate.
  - intros r [<-|[]] _. reflexivity.
  - intros r [<-|[]]. discriminate.
Defined.

(** C2 as stated fails when a row of the project was stored within the
    same second.  On the store whose one row [old], tagged [lazypm], has
    the timestamp of the clock, add of the task [new] with that project
    returns 0 and appends the row; the peek that follows with the filter
    [lazypm] then prints [old] and not [new], and with [--all] it prints
    [old] before [new]: the rows have equal keys and come in table
    order. *)
Lemma add_then_peek_can_show_an_older_task :
  exists w1 : World,
    rmbrl_command_add
      (mkCommand RMBRL_CMD_ADD RMBRL_VERB_NORMAL (Some "lazypm") (Some "new") false false)
      (world_on same_second_store)
    = Some (0, w1)
    /\ memories (sqlite3_close (db w1))
       = [ mkRow 1 "old" "lazypm" "2025-01-06 00:00:00";
           mkRow 2 "new" "lazypm" "2025-01-06 00:00:00" ]
    /\ rmbrl_command_peek
         (mkCommand RMBRL_CMD_PEEK RMBRL_VERB_NORMAL (Some "lazypm") None false false)
         (world_on (sqlite3_close (db w1)))
       = (0, mkWorld
               (record_stmt (Select (Some "lazypm") false)
                  (db (world_on (sqlite3_close (db w1)))))
               (peek_header RMBRL_VERB_NORMAL
                ++ row_text RMBRL_VERB_NORMAL
                     (mkRow 1 "old" "lazypm" "2025-01-06 00:00:00")))
    /\ stderr
         (snd (rmbrl_command_peek
                 (mkCommand RMBRL_CMD_PEEK RMBRL_VERB_NORMAL (Some "lazypm") None true
                    false)
                 (world_on (sqlite3_close (db w1)))))
       = peek_header RMBRL_VERB_NORMAL
         ++ row_text RMBRL_VERB_NORMAL (mkRow 1 "old" "lazypm" "2025-01-06 00:00:00")
         ++ row_text RMBRL_VERB_NORMAL (mkRow 2 "new" "lazypm" "2025-01-06 00:00:00").
Proof. eexists. split; [reflexivity|]. vm_compute. repeat split. Qed.

(** ** The scan *)

Lemma arg_byte_0 (t : string) (rest : list string) (tail : string) :
  arg_byte (t :: rest) tail 0 = first_byte t.
Proof. destruct t; reflexivity. Qed.

(** A token that does not begin with a dash is no flag: for add without
    a task yet it is the task, otherwise it is ignored. *)
Lemma scan_plain_token tail cmd ignored_flags t rest :
  first_byte t <> "-"%char ->
  scan tail cmd ignored_flags (t :: rest)
  = if is_add (function cmd) && is_null (task cmd)
    then scan tail (set_task cmd t) ignored_flags rest
    else scan tail cmd (ignored_flags ++ [t]) rest.
Proof.
  intros Hdash.
  assert (Ascii.eqb (first_byte t) "-"%char = false) as Hb by now apply Ascii.eqb_neq.
  cbn [scan]. rewrite arg_byte_0, Hb.
  assert (forall lit, strcmp0 t (String "-"%char lit) = false) as Hcmp.
  { intros lit. unfold strcmp0. destruct t as [|c s]; cbn [String.eqb first_byte] in *;
      [reflexivity|]. now rewrite Hb. }
  assert (forall lit, strncmp0 t (String "-"%char lit) = false) as Hpre.
  { intros lit. unfold strncmp0. destruct t as [|c s]; cbn [String.prefix first_byte] in *;
      [reflexivity|].
    destruct (ascii_dec "-" c) as [E|]; [now elim Hdash|reflexivity]. }
  rewrite !Hcmp, !Hpre. cbn [orb andb negb].
  now rewrite andb_true_r.
Qed.

Lemma append_empty_r (s : string) : (s ++ EmptyString)%string = s.
Proof. induction s as [|c s IH]; simpl; [reflexivity|now rewrite IH]. Qed.

Lemma append_assoc_string (a b c : string) :
  ((a ++ b) ++ c)%string = (a ++ b ++ c)%string.
Proof. induction a as [|x a IH]; simpl; [reflexivity|now rewrite IH]. Qed.

Lemma concat_nosep_cons (x : string) (l : list string) :
  String.concat EmptyString (x :: l) = (x ++ String.concat EmptyString l)%string.
Proof. destruct l; simpl; [now rewrite append_empty_r|reflexivity]. Qed.

Lemma concat_nosep_app (l1 l2 : list string) :
  String.concat EmptyString (l1 ++ l2)
  = (String.concat EmptyString l1 ++ String.concat EmptyString l2)%string.
Proof.
  induction l1 as [|x l1 IH]; [reflexivity|].
  rewrite <- app_comm_cons, !concat_nosep_cons, IH.
  now rewrite append_assoc_string.
Qed.

Lemma concat_print_ignored (items : list string) :
  String.concat EmptyString (print_ignored items) = String.concat ", " items.
Proof.
  induction items as [|x [|y rest] IH]; try reflexivity.
  change (print_ignored (x :: y :: rest)) with (x :: ", " :: print_ignored (y :: rest)).
  change (String.concat ", " (x :: y :: rest))
    with (x ++ ", " ++ String.concat ", " (y :: rest))%string.
  rewrite <- IH.
  destruct (print_ignored (y :: rest)) eqn:E; [discriminate E|].
  reflexivity.
Qed.

(** ** [add --all] (C8) *)

(** C8.  A token [--all] or [-a] reaches the all-flag clause only when
    the function is not add: under add the scan goes on with [all]
    untouched and the token appended to the ignored flags, under peek and
    clear it goes on with [all] set.  So [add --all t] parses to a command
    with [all] unset, task [t] and [--all] as its one ignored flag.  The
    ignored flags are reported unless the verbosity is silent, in one
    line: the warning prefix, the flags in their order separated by a
    comma and a space, and a newline.  A run of [main] on [add --all t]
    that gets its connection ([HOME] of at most 476 bytes, the data
    directory there, neither the open nor the CREATE TABLE refused) prints
    that warning and stores the row. *)
Theorem add_routes_all_flag_to_ignored :
  forall (a : string), a = "--all" \/ a = "-a" ->
    (forall tail cmd ignored_flags rest,
        function cmd = RMBRL_CMD_ADD ->
        scan tail cmd ignored_flags (a :: rest)
        = scan tail cmd (ignored_flags ++ [a]) rest)
    /\ (forall tail cmd ignored_flags rest,
        function cmd <> RMBRL_CMD_ADD ->
        scan tail cmd ignored_flags (a :: rest)
        = scan tail (set_all cmd true) ignored_flags rest)
    /\ (forall tail t,
        first_byte t <> "-"%char ->
        scan tail (set_function cmd_zero RMBRL_CMD_ADD) [] [a; t]
        = Some (mkCommand RMBRL_CMD_ADD RMBRL_VERB_NORMAL None (Some t) false false, [a]))
    /\ (forall v ignored_flags,
        ignored_flags <> [] ->
        String.concat EmptyString (warn_ignored v ignored_flags)
        = if is_silent v then EmptyString
          else ("[WARNING] Ignoring flags: "
                  ++ String.concat ", " ignored_flags ++ newline)%string)
    /\ (forall prog t env file home,
        first_byte t <> "-"%char ->
        strlen t <= 256 ->
        HOME env = Some home ->
        strlen home <= 476 ->
        mkdir_error env = None ->
        open_error env = None ->
        create_table_error env = None ->
        main [prog; "add"; a; t] env file
        = mkProcess 0 []
            (log_line RMBRL_LOG_WARNING "Ignoring flags: " ++ [a; newline]
             ++ log_line RMBRL_LOG_INFO
                  (dquote ++ t ++ dquote ++ " was added to your memory!" ++ newline)%string)
            (insert_row t EmptyString (CURRENT_TIMESTAMP env) file)
            (Some [Create_table; Insert t EmptyString])).
Proof.
  intros a Ha.
  assert (forall tail cmd ignored_flags rest,
             function cmd = RMBRL_CMD_ADD ->
             scan tail cmd ignored_flags (a :: rest)
             = scan tail cmd (ignored_flags ++ [a]) rest) as Hadd.
  { intros tail cmd ign rest Hf.
    destruct Ha as [-> | ->]; cbn [scan]; rewrite Hf; cbn -[scan];
      now rewrite andb_false_r. }
  split; [exact Hadd|]. split; [|split; [|split]].
  - intros tail cmd ign rest Hf.
    destruct Ha as [-> | ->]; cbn [scan]; destruct (function cmd); try reflexivity;
      now elim Hf.
  - intros tail t Ht.
    rewrite Hadd by reflexivity.
    rewrite scan_plain_token by assumption. reflexivity.
  - intros v ign Hne. destruct ign as [|x ign]; [now elim Hne|].
    unfold warn_ignored. destruct (is_silent v); [reflexivity|].
    cbn [negb log_line log_prefix app].
    rewrite !concat_nosep_cons, concat_nosep_app, concat_print_ignored.
    reflexivity.
  - intros prog t env file home Ht Hlen Hhome Hshort Hmk Hopen Hcreate.
    unfold main. cbn -[scan main_after_scan].
    rewrite Hadd by reflexivity.
    rewrite scan_plain_token by assumption.
    cbn -[main_after_scan].
    unfold main_after_scan, main_session. cbn -[rmbrl_command_add sqlite3_open db_path].
    rewrite Hhome, Hmk, Hopen, Hcreate.
    destruct (sqlite3_open_cases home None file (CURRENT_TIMESTAMP env))
      as [(_ & _ & ->)|([H|H] & _)]; [|lia|now elim H].
    cbn -[rmbrl_command_add].
    unfold rmbrl_command_add, project_too_long.
    cbn [task project dry_run set_task set_function cmd_zero].
    apply Z.ltb_ge in Hlen. rewrite Hlen.
    reflexivity.
Qed.

Lemma add_routes_all_flag_to_ignored_witness :
  scan EmptyString (set_function cmd_zero RMBRL_CMD_ADD) [] ["--all"; "buy milk"]
  = Some (mkCommand RMBRL_CMD_ADD RMBRL_VERB_NORMAL None (Some "buy milk") false false,
          ["--all"])
  /\ String.concat EmptyString (warn_ignored RMBRL_VERB_NORMAL ["--all"; "-x"])
     = ("[WARNING] Ignoring flags: " ++ String.concat ", " ["--all"; "-x"] ++ newline)%string
  /\ main ["rmbrl"; "add"; "--all"; "buy milk"] sample_env sample_store
     = mkProcess 0 []
         (log_line RMBRL_LOG_WARNING "Ignoring flags: " ++ ["--all"; newline]
          ++ log_line RMBRL_LOG_INFO
               (dquote ++ "buy milk" ++ dquote ++ " was added to your memory!" ++ newline)%string)
         (insert_row "buy milk" EmptyString (CURRENT_TIMESTAMP sample_env) sample_store)
         (Some [Create_table; Insert "buy milk" EmptyString]).
Proof.
  destruct (add_routes_all_flag_to_ignored "--all" (or_introl eq_refl))
    as (_ & _ & Hscan & Hwarn & Hmain).
  split; [|split].
  - apply Hscan. vm_compute. discriminate.
  - apply (Hwarn RMBRL_VERB_NORMAL). discriminate.
  - apply (Hmain "rmbrl" "buy milk" sample_env sample_store "/home/u").
    + vm_compute. discriminate.
    + vm_compute. discriminate.
    + reflexivity.
    + vm_compute. discriminate.
    + reflexivity.
    + reflexivity.
    + reflexivity.
Defined.

(** ** An empty attached project (C10) *)

Lemma in_select_rows (p : option string) (st : Store) (r : Row) :
  In r (select_rows p false st) <-> In r (memories st) /\ matches p r = true.
Proof.
  unfold select_rows. rewrite <- filter_In. split; intros H.
  - eapply Permutation_in; [apply Permutation_sym, order_by_perm|exact H].
  - eapply Permutation_in; [apply order_by_perm|exact H].
Qed.

Lemma in_peek_shown (cmd : Rmbrl_Command) (st : Store) (r : Row) :
  In r (peek_shown cmd st) -> In r (memories st) /\ matches (project cmd) r = true.
Proof.
  unfold peek_shown. intros H. apply in_select_rows.
  destruct (all cmd); [exact H|].
  destruct (select_rows (project cmd) false st) as [|x l]; [contradiction|].
  destruct H as [<-|[]]. now left.
Qed.

(** C10.  The token [--project=] (or [-p=]) is taken as a project flag
    with the empty string as its value: the scan goes on with [project]
    set to the empty string, no error.  With that project peek selects
    with [WHERE project = ''], so every row it prints is untagged, and
    with [all] every untagged row is printed; clear with [all] deletes
    exactly the untagged rows.  Without the flag no filter applies, and
    the outcome differs: on a store of one untagged row and a later tagged
    one, peek and clear with the empty project act on the untagged row,
    and without the flag on the tagged one. *)
Theorem empty_attached_project_filters_untagged :
  forall flag : string, flag = "--project=" \/ flag = "-p=" ->
    (forall tail cmd ignored_flags rest,
        scan tail cmd ignored_flags (flag :: rest)
        = scan tail (set_project cmd EmptyString) ignored_flags rest)
    /\ (forall cmd w,
        project cmd = Some EmptyString ->
        rmbrl_command_peek cmd w
        = (0, mkWorld (record_stmt (Select (Some EmptyString) false) (db w))
                (stderr w
                 ++ query_text cmd (Select (Some EmptyString) false)
                 ++ peek_header (verbosity cmd)
                 ++ flat_map (row_text (verbosity cmd)) (peek_shown cmd (live (db w)))))
        /\ (forall r, In r (peek_shown cmd (live (db w))) -> row_project r = EmptyString)
        /\ (all cmd = true ->
            forall r, In r (memories (live (db w))) -> row_project r = EmptyString ->
                      In r (peek_shown cmd (live (db w)))))
    /\ (forall cmd file now err,
        project cmd = Some EmptyString -> all cmd = true -> dry_run cmd = false ->
        exists w' : World,
          rmbrl_command_clear cmd (mkWorld (opened file now) err) = (0, w')
          /\ statements (db w') = [Delete (Some EmptyString)]
          /\ memories (sqlite3_close (db w'))
             = filter (fun r => negb (String.eqb (row_project r) EmptyString))
                 (memories file))
    /\ (let run := fun args => main ("rmbrl" :: args) sample_env two_rows in
        process_stderr (run ["peek"; flag])
        = log_line RMBRL_LOG_INFO ("Currently Remembering:" ++ newline)%string
          ++ log_line RMBRL_LOG_INFO ("    " ++ dquote ++ "untagged" ++ dquote)%string
          ++ [newline]
        /\ process_stderr (run ["peek"])
           = log_line RMBRL_LOG_INFO ("Currently Remembering:" ++ newline)%string
             ++ log_line RMBRL_LOG_INFO ("    " ++ dquote ++ "tagged" ++ dquote)%string
             ++ [" -- lazypm"; newline]
        /\ memories (file (run ["clear"; flag]))
           = [mkRow 2 "tagged" "lazypm" "2025-01-03 00:00:00"]
        /\ memories (file (run ["clear"]))
           = [mkRow 1 "untagged" EmptyString "2025-01-01 00:00:00"]).
Proof.
  intros flag Hflag. split; [|split; [|split]].
  - intros tail cmd ign rest. destruct Hflag as [-> | ->]; reflexivity.
  - intros cmd w Hp.
    assert (project_too_long cmd = false) as Hok
        by (unfold project_too_long; now rewrite Hp).
    split; [|split].
    + rewrite (peek_spec cmd w Hok). now rewrite Hp.
    + intros r Hr. apply in_peek_shown in Hr. destruct Hr as [_ Hm].
      rewrite Hp in Hm. now apply String.eqb_eq.
    + intros Hall r Hr Hr0. unfold peek_shown. rewrite Hall.
      apply in_select_rows. split; [exact Hr|].
      rewrite Hp. now apply String.eqb_eq.
  - intros cmd file now err Hp Hall Hdry.
    unfold rmbrl_command_clear, project_too_long, clear_resolve. rewrite Hp, Hdry, Hall.
    cbn [strlen String.length Z.of_nat Z.ltb Z.compare negb].
    unfold clear_delete. rewrite Hdry, Hp. cbn [Z.eqb].
    eexists. split; [unfold sqlite3_run, delete_where; reflexivity|].
    same_db. cbn [db with_db].
    destruct (negb (is_silent (verbosity cmd))); same_db; split; reflexivity.
  - destruct Hflag as [-> | ->]; vm_compute; repeat split.
Qed.

Lemma empty_attached_project_filters_untagged_witness :
  scan EmptyString (set_function cmd_zero RMBRL_CMD_PEEK) [] ["--project="]
  = Some (mkCommand RMBRL_CMD_PEEK RMBRL_VERB_NORMAL (Some EmptyString) None false false, [])
  /\ exists w' : World,
       rmbrl_command_clear
         (mkCommand RMBRL_CMD_CLEAR RMBRL_VERB_NORMAL (Some EmptyString) None true false)
         (mkWorld (opened two_rows "2025-01-06 00:00:00") [])
       = (0, w')
       /\ statements (db w') = [Delete (Some EmptyString)]
       /\ memories (sqlite3_close (db w'))
          = filter (fun r => negb (String.eqb (row_project r) EmptyString))
              (memories two_rows).
Proof.
  destruct (empty_attached_project_filters_untagged "--project=" (or_introl eq_refl))
    as (Hscan & _ & Hclear & _).
  split.
  - rewrite Hscan. reflexivity.
  - apply Hclear; reflexivity.
Defined.

(** ** Silent mode (C9) *)

Lemma peek_shown_set_verbosity cmd v st :
  peek_shown (set_verbosity cmd v) st = peek_shown cmd st.
Proof. reflexivity. Qed.

Lemma project_too_long_set_verbosity cmd v :
  project_too_long (set_verbosity cmd v) = project_too_long cmd.
Proof. reflexivity. Qed.

Lemma peek_silent_and_normal (cmd : Rmbrl_Command) (w : World) :
  project_too_long cmd = false ->
  let shown := peek_shown cmd (live (db w)) in
  let c := record_stmt (Select (project cmd) false) (db w) in
  rmbrl_command_peek (set_verbosity cmd RMBRL_VERB_SILENT) w
  = (0, mkWorld c (stderr w ++ flat_map (row_text RMBRL_VERB_SILENT) shown))
  /\ rmbrl_command_peek (set_verbosity cmd RMBRL_VERB_NORMAL) w
     = (0, mkWorld c
             (stderr w
              ++ log_line RMBRL_LOG_INFO ("Currently Remembering:" ++ newline)%string
              ++ flat_map (row_text RMBRL_VERB_SILENT) shown)).
Proof.
  intros Hok shown c. split; rewrite peek_spec by exact Hok; reflexivity.
Qed.

Lemma log_query_quiet cmd stmt w :
  is_verbose (verbosity cmd) = false -> log_query cmd stmt w = w.
Proof. unfold log_query. now intros ->. Qed.

Lemma world_eta (w : World) : mkWorld (db w) (stderr w) = w.
Proof. now destruct w. Qed.

(** [clear_delete] outside verbose mode: the header unless silent, one
    entry per returned row, then the outcome of the rollback in a dry
    run. *)
Lemma clear_delete_quiet (cmd : Rmbrl_Command) (id : Z) (w : World) :
  is_verbose (verbosity cmd) = false ->
  let ran := sqlite3_run (delete_stmt cmd id) (db w) in
  let out := stderr w ++ clear_header (verbosity cmd)
               ++ flat_map (row_text (verbosity cmd)) (fst ran) in
  clear_delete cmd id w
  = if dry_run cmd
    then
      match sqlite3_exec Rollback (snd ran) with
      | (Some err_msg, c) =>
        (1, mkWorld c
              (out ++ log_line RMBRL_LOG_ERROR
                        ("Failed to rollback transaction: " ++ err_msg ++ newline)%string))
      | (None, c) => (0, mkWorld c out)
      end
    else (0, mkWorld (snd ran) out).
Proof.
  intros Hq ran out. unfold clear_delete. fold (delete_stmt cmd id).
  rewrite (log_query_quiet _ _ _ Hq).
  set (w1 := if negb (is_silent (verbosity cmd)) then _ else w).
  assert (db w1 = db w) as Hdb by (subst w1; now destruct (negb (is_silent (verbosity cmd)))).
  assert (stderr w1 = stderr w ++ clear_header (verbosity cmd)) as Herr.
  { subst w1. unfold clear_header.
    destruct (negb (is_silent (verbosity cmd))); [reflexivity|now rewrite app_nil_r]. }
  rewrite Hdb. fold ran. destruct ran as [rows c] eqn:Eran. cbn [fst snd] in *.
  set (w2 := clear_loop cmd rows (with_db w1 c)).
  assert (db w2 = c) as Hdb2 by (subst w2; now rewrite db_clear_loop).
  assert (stderr w2 = out) as Herr2.
  { subst w2 out. rewrite stderr_clear_loop. cbn [stderr with_db].
    now rewrite Herr, <- app_assoc. }
  clearbody w2 out. destruct (dry_run cmd).
  - unfold rmbrl_db_rollback_transaction. rewrite Hdb2, Hq.
    destruct (sqlite3_exec Rollback c) as [[msg|] c'].
    + unfold rmbrl_log. cbn [db stderr with_db negb Z.eqb]. now rewrite Herr2.
    + cbn [negb Z.eqb]. unfold with_db. now rewrite Herr2.
  - f_equal. apply world_eq; cbn [db stderr]; assumption.
Qed.

Lemma clear_resolve_quiet (cmd : Rmbrl_Command) (w : World) :
  is_verbose (verbosity cmd) = false ->
  clear_resolve cmd w
  = if negb (all cmd)
    then
      let c := record_stmt (Select (project cmd) true) (db w) in
      match select_rows (project cmd) true (live (db w)) with
      | [] =>
        (1, mkWorld c
              (stderr w
               ++ log_line RMBRL_LOG_ERROR
                    ("Failed to remember memory to delete: not an error" ++ newline)%string))
      | r :: _ => clear_delete cmd (sqlite3_column_int (row_id r)) (mkWorld c (stderr w))
      end
    else clear_delete cmd (-1) w.
Proof.
  intros Hq. unfold clear_resolve.
  destruct (negb (all cmd)); [|reflexivity].
  rewrite (log_query_quiet _ _ _ Hq), Hq. unfold sqlite3_run. cbn [record_stmt live].
  destruct (select_rows (project cmd) true (live (db w))); reflexivity.
Qed.

Lemma clear_quiet (cmd : Rmbrl_Command) (w : World) :
  is_verbose (verbosity cmd) = false ->
  project_too_long cmd = false ->
  rmbrl_command_clear cmd w
  = if dry_run cmd
    then
      let out := stderr w ++ clear_notice cmd in
      match sqlite3_exec Begin_transaction (db w) with
      | (Some err_msg, c) =>
        (1, mkWorld c
              (out ++ log_line RMBRL_LOG_ERROR
                        ("Failed to begin transaction: " ++ err_msg ++ newline)%string))
      | (None, c) => clear_resolve cmd (mkWorld c out)
      end
    else clear_resolve cmd w.
Proof.
  intros Hq Hok. unfold rmbrl_command_clear, clear_notice. rewrite Hok.
  destruct (dry_run cmd); [|reflexivity].
  unfold rmbrl_db_begin_transaction. rewrite Hq. cbn [db rmbrl_log].
  destruct (sqlite3_exec Begin_transaction (db w)) as [[msg|] c]; reflexivity.
Qed.

Lemma saved_sqlite3_run (s : Sql) (c : sqlite3) :
  saved (snd (sqlite3_run s c)) = saved c.
Proof. destruct s; reflexivity. Qed.

Lemma statements_sqlite3_run (s : Sql) (c : sqlite3) :
  statements (snd (sqlite3_run s c)) = statements c ++ [s].
Proof. destruct s; reflexivity. Qed.

Lemma fst_sqlite3_run_live (s : Sql) (c1 c2 : sqlite3) :
  live c1 = live c2 -> fst (sqlite3_run s c1) = fst (sqlite3_run s c2).
Proof.
  intros H. unfold sqlite3_run, delete_where.
  destruct s; cbn [record_stmt live fst]; now rewrite ?H.
Qed.

Lemma is_delete_delete_stmt cmd id : is_delete (delete_stmt cmd id) = true.
Proof. unfold delete_stmt. now destruct (id =? -1). Qed.

Lemma clear_delete_differ (cmd : Rmbrl_Command) (id : Z) (w : World) :
  (dry_run cmd = true -> saved (db w) <> None) ->
  differ_by_header (stderr w) (db w)
    (clear_delete (set_verbosity cmd RMBRL_VERB_SILENT) id w)
    (clear_delete (set_verbosity cmd RMBRL_VERB_NORMAL) id w).
Proof.
  intros Htxn.
  rewrite !clear_delete_quiet by reflexivity.
  cbn [set_verbosity verbosity dry_run is_silent negb clear_header app].
  change (delete_stmt (set_verbosity cmd RMBRL_VERB_SILENT) id) with (delete_stmt cmd id).
  change (delete_stmt (set_verbosity cmd RMBRL_VERB_NORMAL) id) with (delete_stmt cmd id).
  set (stmt := delete_stmt cmd id).
  assert (In stmt (statements (snd (sqlite3_run stmt (db w))))) as Hin.
  { rewrite statements_sqlite3_run. apply in_or_app. right. now left. }
  assert (is_delete stmt = true) as Hdel by apply is_delete_delete_stmt.
  unfold differ_by_header.
  destruct (dry_run cmd).
  - unfold sqlite3_exec. cbn [record_stmt saved]. rewrite saved_sqlite3_run.
    destruct (saved (db w)) as [snap|]; [|now elim Htxn].
    cbn [fst snd db stderr].
    split; [reflexivity|]. split; [reflexivity|]. split; [intros H; now elim H|].
    intros _. exists stmt. split; [exact Hdel|].
    split; [|split; reflexivity].
    cbn [statements]. apply in_or_app. left. exact Hin.
  - cbn [fst snd db stderr].
    split; [reflexivity|]. split; [reflexivity|]. split; [intros H; now elim H|].
    intros _. exists stmt. split; [exact Hdel|]. split; [exact Hin|].
    split; reflexivity.
Qed.

Lemma clear_resolve_differ (cmd : Rmbrl_Command) (w : World) :
  (dry_run cmd = true -> saved (db w) <> None) ->
  differ_by_header (stderr w) (db w)
    (clear_resolve (set_verbosity cmd RMBRL_VERB_SILENT) w)
    (clear_resolve (set_verbosity cmd RMBRL_VERB_NORMAL) w).
Proof.
  intros Htxn.
  rewrite !clear_resolve_quiet by reflexivity.
  cbn [set_verbosity all project].
  destruct (negb (all cmd)); [|now apply clear_delete_differ].
  destruct (select_rows (project cmd) true (live (db w))) as [|r rest].
  - unfold differ_by_header. cbn [fst snd db stderr].
    split; [reflexivity|]. split; [reflexivity|]. split; [reflexivity|].
    intros H; discriminate H.
  - set (w1 := mkWorld (record_stmt (Select (project cmd) true) (db w)) (stderr w)).
    pose proof (clear_delete_differ cmd (sqlite3_column_int (row_id r)) w1 Htxn) as H.
    unfold differ_by_header in *.
    destruct H as (H1 & H2 & H3 & H4).
    split; [exact H1|]. split; [exact H2|]. split; [exact H3|].
    intros H0. destruct (H4 H0) as (stmt & Hdel & Hin & Hs & Hn).
    exists stmt. split; [exact Hdel|]. split; [exact Hin|].
    rewrite (fst_sqlite3_run_live stmt (db w) (db w1)) by reflexivity.
    split; assumption.
Qed.

Lemma clear_differ (cmd : Rmbrl_Command) (w : World) :
  differ_by_header (stderr w ++ clear_notice cmd) (db w)
    (rmbrl_command_clear (set_verbosity cmd RMBRL_VERB_SILENT) w)
    (rmbrl_command_clear (set_verbosity cmd RMBRL_VERB_NORMAL) w).
Proof.
  destruct (project_too_long cmd) eqn:Eok.
  { unfold rmbrl_command_clear. rewrite !project_too_long_set_verbosity, Eok.
    unfold differ_by_header. cbn [fst snd].
    split; [reflexivity|]. split; [reflexivity|]. split; [reflexivity|].
    intros H; discriminate H. }
  rewrite !clear_quiet by (try reflexivity; exact Eok).
  cbn [set_verbosity dry_run].
  change (clear_notice (set_verbosity cmd RMBRL_VERB_SILENT)) with (clear_notice cmd).
  change (clear_notice (set_verbosity cmd RMBRL_VERB_NORMAL)) with (clear_notice cmd).
  destruct (dry_run cmd) eqn:Edry.
  - unfold sqlite3_exec. cbn [record_stmt saved].
    destruct (saved (db w)) as [snap|] eqn:Esaved.
    + unfold differ_by_header. cbn [fst snd].
      split; [reflexivity|]. split; [reflexivity|]. split; [reflexivity|].
      intros H; discriminate H.
    + cbv zeta.
      set (w1 := mkWorld _ (stderr w ++ clear_notice cmd)).
      assert (dry_run cmd = true -> saved (db w1) <> None) as Htxn
          by (intros _; subst w1; cbn; discriminate).
      pose proof (clear_resolve_differ cmd w1 Htxn) as H.
      unfold differ_by_header in *.
      destruct H as (H1 & H2 & H3 & H4).
      split; [exact H1|]. split; [exact H2|]. split; [exact H3|].
      intros H0. destruct (H4 H0) as (stmt & Hdel & Hin & Hs & Hn).
      exists stmt. split; [exact Hdel|]. split; [exact Hin|].
      rewrite (fst_sqlite3_run_live stmt (db w) (db w1)) by reflexivity.
      split; assumption.
  - unfold clear_notice. rewrite Edry, app_nil_r.
    apply clear_resolve_differ. congruence.
Qed.

Lemma add_silent_and_normal (cmd : Rmbrl_Command) (w : World) :
  rmbrl_command_add (set_verbosity cmd RMBRL_VERB_SILENT) w
  = rmbrl_command_add (set_verbosity cmd RMBRL_VERB_NORMAL) w.
Proof.
  unfold rmbrl_command_add, add_insert, rmbrl_db_begin_transaction,
    rmbrl_db_rollback_transaction, log_query, log_project_too_long.
  rewrite !project_too_long_set_verbosity.
  cbn [set_verbosity task project dry_run verbosity is_verbose].
  reflexivity.
Qed.

(** C9.  Take any command and run it once with verbosity silent and once
    with verbosity normal, from the same world.  A row is printed the
    same way in both modes: its task, its project after [" -- "] when the
    project is not empty, a newline.  peek returns the same code and
    leaves the same connection in both modes; when it returns 0 the silent
    run has added to standard error exactly the rows shown, and the normal
    run the header and then the same rows.  clear likewise: same code, same
    connection; when it returns 0 there is a DELETE among the statements
    and the silent run has added (after the dry-run notice, if any) one
    entry per row that DELETE returned, the normal run the same with the
    header before the rows; when either fails both runs write the same.
    add writes the same in both modes, and the warning about ignored
    flags is empty in silent mode. *)
Theorem silent_suppresses_only_headers :
  forall (cmd : Rmbrl_Command) (w : World),
    let silent := set_verbosity cmd RMBRL_VERB_SILENT in
    let normal := set_verbosity cmd RMBRL_VERB_NORMAL in
    let peek_s := rmbrl_command_peek silent w in
    let peek_n := rmbrl_command_peek normal w in
    let clear_s := rmbrl_command_clear silent w in
    let clear_n := rmbrl_command_clear normal w in
    (forall r : Row,
        row_text RMBRL_VERB_SILENT r
        = log_line RMBRL_LOG_INFO ("    " ++ dquote ++ row_task r ++ dquote)%string
          ++ (if 0 <? strlen (row_project r)
              then [(" -- " ++ row_project r)%string] else [])
          ++ [newline]
        /\ row_text RMBRL_VERB_NORMAL r = row_text RMBRL_VERB_SILENT r)
    /\ (fst peek_s = fst peek_n
        /\ db (snd peek_s) = db (snd peek_n)
        /\ (fst peek_s <> 0 -> stderr (snd peek_s) = stderr (snd peek_n))
        /\ (fst peek_s = 0 ->
            stderr (snd peek_s)
            = stderr w
                ++ flat_map (row_text RMBRL_VERB_SILENT) (peek_shown cmd (live (db w)))
            /\ stderr (snd peek_n)
               = stderr w
                   ++ log_line RMBRL_LOG_INFO ("Currently Remembering:" ++ newline)%string
                   ++ flat_map (row_text RMBRL_VERB_SILENT) (peek_shown cmd (live (db w)))))
    /\ (fst clear_s = fst clear_n
        /\ db (snd clear_s) = db (snd clear_n)
        /\ (fst clear_s <> 0 -> stderr (snd clear_s) = stderr (snd clear_n))
        /\ (fst clear_s = 0 ->
            exists stmt : Sql,
              is_delete stmt = true
              /\ In stmt (statements (db (snd clear_s)))
              /\ stderr (snd clear_s)
                 = (stderr w ++ clear_notice cmd)
                     ++ flat_map (row_text RMBRL_VERB_SILENT) (fst (sqlite3_run stmt (db w)))
              /\ stderr (snd clear_n)
                 = (stderr w ++ clear_notice cmd)
                     ++ log_line RMBRL_LOG_INFO ("Forgotten Memories:" ++ newline)%string
                     ++ flat_map (row_text RMBRL_VERB_SILENT)
                          (fst (sqlite3_run stmt (db w)))))
    /\ rmbrl_command_add silent w = rmbrl_command_add normal w
    /\ (forall ignored_flags, warn_ignored RMBRL_VERB_SILENT ignored_flags = []).
Proof.
  intros cmd w silent normal peek_s peek_n clear_s clear_n.
  split; [|split; [|split; [|split]]].
  - intros r. split; reflexivity.
  - subst peek_s peek_n silent normal.
    destruct (project_too_long cmd) eqn:Eok.
    + unfold rmbrl_command_peek. rewrite !project_too_long_set_verbosity, Eok.
      cbn [fst snd].
      split; [reflexivity|]. split; [reflexivity|]. split; [reflexivity|].
      intros H; discriminate H.
    + destruct (peek_silent_and_normal cmd w Eok) as [Hs Hn].
      rewrite Hs, Hn. cbn [fst snd db stderr].
      split; [reflexivity|]. split; [reflexivity|]. split; [intros H; now elim H|].
      intros _. split; reflexivity.
  - exact (clear_differ cmd w).
  - apply add_silent_and_normal.
  - intros [|x l]; reflexivity.
Qed.

Lemma silent_suppresses_only_headers_witness :
  stderr (snd (rmbrl_command_peek (set_verbosity clear_lazypm RMBRL_VERB_SILENT)
                 (world_on sample_store)))
  = stderr (world_on sample_store)
      ++ flat_map (row_text RMBRL_VERB_SILENT)
           (peek_shown clear_lazypm (live (db (world_on sample_store))))
  /\ stderr (snd (rmbrl_command_peek (set_verbosity clear_lazypm RMBRL_VERB_NORMAL)
                    (world_on sample_store)))
     = stderr (world_on sample_store)
         ++ log_line RMBRL_LOG_INFO ("Currently Remembering:" ++ newline)%string
         ++ flat_map (row_text RMBRL_VERB_SILENT)
              (peek_shown clear_lazypm (live (db (world_on sample_store))))
  /\ exists stmt : Sql,
       is_delete stmt = true
       /\ stderr (snd (rmbrl_command_clear (set_verbosity clear_lazypm RMBRL_VERB_SILENT)
                         (world_on sample_store)))
          = (stderr (world_on sample_store) ++ clear_notice clear_lazypm)
              ++ flat_map (row_text RMBRL_VERB_SILENT)
                   (fst (sqlite3_run stmt (db (world_on sample_store)))).
Proof.
  destruct (silent_suppresses_only_headers clear_lazypm (world_on sample_store))
    as (_ & (_ & _ & _ & Hpeek) & (_ & _ & _ & Hclear) & _).
  destruct (Hpeek eq_refl) as [Hs Hn].
  destruct (Hclear eq_refl) as (stmt & Hdel & _ & Hcs & _).
  split; [exact Hs|]. split; [exact Hn|].
  exists stmt. split; [exact Hdel|exact Hcs].
Defined.

(** ** The project flag (C6, C7) *)

Lemma c_str_own_bytes (s m : string) :
  nul_free s = true -> c_str (s ++ String NUL m) = s.
Proof.
  induction s as [|c s IH]; intros H; [reflexivity|].
  cbn [nul_free] in H. apply andb_prop in H. destruct H as [Hc Hs].
  cbn [append c_str]. apply negb_true_iff in Hc. rewrite Hc. now rewrite IH.
Qed.

(** The attached forms: the value is what follows the [=] in the token. *)
Lemma scan_attached_long tail cmd ignored_flags name rest :
  nul_free name = true ->
  scan tail cmd ignored_flags (("--project=" ++ name)%string :: rest)
  = scan tail (set_project cmd name) ignored_flags rest.
Proof.
  intros H. cbn [scan]. cbn -[scan c_str]. unfold arg_str.
  cbn [arg_block append advance]. now rewrite c_str_own_bytes.
Qed.

Lemma scan_attached_short tail cmd ignored_flags name rest :
  nul_free name = true ->
  scan tail cmd ignored_flags (("-p=" ++ name)%string :: rest)
  = scan tail (set_project cmd name) ignored_flags rest.
Proof.
  intros H. cbn [scan]. cbn -[scan c_str]. unfold arg_str.
  cbn [arg_block append advance]. now rewrite c_str_own_bytes.
Qed.

(** The long flag followed by its value: every byte the scan looks at
    belongs to the token [--project] or is the first byte of the next. *)
Lemma scan_separate_long tail cmd ignored_flags name rest :
  first_byte name <> "-"%char ->
  scan tail cmd ignored_flags ("--project" :: name :: rest)
  = scan tail (set_project cmd name) ignored_flags rest.
Proof.
  intros H. cbn [scan]. cbn -[scan arg_byte]. rewrite arg_byte_0.
  apply Ascii.eqb_neq in H. now rewrite H.
Qed.

Lemma scan_long_flag_without_name tail cmd ignored_flags rest :
  match rest with
  | [] => True
  | next :: _ => first_byte next = "-"%char
  end ->
  scan tail cmd ignored_flags ("--project" :: rest) = None.
Proof.
  intros H. cbn [scan]. cbn -[scan arg_byte].
  destruct rest as [|next rest]; [reflexivity|].
  rewrite arg_byte_0, H. reflexivity.
Qed.

(** The short flag is two bytes long, and the scan still looks at byte 9
    from its start.  When that byte is not [=] the value is the next
    token. *)
Lemma scan_separate_short tail cmd ignored_flags name rest :
  first_byte name <> "-"%char ->
  arg_byte ("-p" :: name :: rest) tail 9 <> "="%char ->
  scan tail cmd ignored_flags ("-p" :: name :: rest)
  = scan tail (set_project cmd name) ignored_flags rest.
Proof.
  intros H H9. cbn [scan].
  apply Ascii.eqb_neq in H9. rewrite H9.
  cbn -[scan arg_byte]. rewrite arg_byte_0.
  apply Ascii.eqb_neq in H. now rewrite H.
Qed.

Lemma scan_short_flag_without_name tail cmd ignored_flags rest :
  arg_byte ("-p" :: rest) tail 9 <> "="%char ->
  match rest with
  | [] => True
  | next :: _ => first_byte next = "-"%char
  end ->
  scan tail cmd ignored_flags ("-p" :: rest) = None.
Proof.
  intros H9 H. cbn [scan].
  apply Ascii.eqb_neq in H9. rewrite H9.
  cbn -[scan arg_byte].
  destruct rest as [|next rest]; [reflexivity|].
  rewrite arg_byte_0, H. reflexivity.
Qed.

(** C7 at [add -p abcdef=x t].  The three forms that carry their own
    [=] or are nine bytes long give project [abcdef=x] and task [t].  For
    [-p] byte 9 from the start of the token is byte 6 of the next
    argument, here [=]: the scan takes the attached form, the project is
    what follows that [=], [x], and the name itself is scanned again and
    becomes the task; [t] ends among the ignored flags.  The rows stored
    by [main] differ accordingly. *)
Theorem short_project_flag_reads_next_argument :
  forall tail : string,
    let parse := scan tail (set_function cmd_zero RMBRL_CMD_ADD) [] in
    let expected :=
      Some (mkCommand RMBRL_CMD_ADD RMBRL_VERB_NORMAL (Some "abcdef=x") (Some "t")
              false false, []) in
    parse ["--project=abcdef=x"; "t"] = expected
    /\ parse ["--project"; "abcdef=x"; "t"] = expected
    /\ parse ["-p=abcdef=x"; "t"] = expected
    /\ parse ["-p"; "abcdef=x"; "t"]
       = Some (mkCommand RMBRL_CMD_ADD RMBRL_VERB_NORMAL (Some "x") (Some "abcdef=x")
                 false false, ["t"])
    /\ memories
         (file (main ["rmbrl"; "add"; "--project"; "abcdef=x"; "t"]
                  sample_env (mkStore [] 0)))
       = [mkRow 1 "t" "abcdef=x" "2025-01-06 00:00:00"]
    /\ memories
         (file (main ["rmbrl"; "add"; "-p"; "abcdef=x"; "t"] sample_env (mkStore [] 0)))
       = [mkRow 1 "abcdef=x" "x" "2025-01-06 00:00:00"].
Proof. intros tail. repeat split. Qed.

(** C6 at [peek -p -abcde=x].  The token after [-p] begins with a dash,
    and the scan does not fail: byte 9 from the start of [-p] is the [=]
    of that token, so the project becomes [x], the token itself is
    ignored with a warning, and [main] goes on to open the store and run
    the SELECT. *)
Theorem short_project_flag_accepts_dashed_argument :
  (forall tail : string,
      scan tail (set_function cmd_zero RMBRL_CMD_PEEK) [] ["-p"; "-abcde=x"]
      = Some (mkCommand RMBRL_CMD_PEEK RMBRL_VERB_NORMAL (Some "x") None false false,
              ["-abcde=x"]))
  /\ (forall tail : string,
      scan tail (set_function cmd_zero RMBRL_CMD_PEEK) [] ["--project"; "-abcde=x"]
      = None)
  /\ main ["rmbrl"; "peek"; "-p"; "-abcde=x"] sample_env sample_store
     = mkProcess 0 []
         (log_line RMBRL_LOG_WARNING "Ignoring flags: " ++ ["-abcde=x"; newline]
          ++ log_line RMBRL_LOG_INFO ("Currently Remembering:" ++ newline)%string)
         sample_store
         (Some [Create_table; Select (Some "x") false]).
Proof. repeat split. Qed.

(** One round of the loop: it returns early, or goes on with the next
    token, or (a project flag taking the next token as its name, which
    then does not begin with a dash) with the token after the next. *)
Lemma scan_step tail cmd ignored_flags tok rest :
  scan tail cmd ignored_flags (tok :: rest) = None
  \/ (exists cmd' ignored', scan tail cmd ignored_flags (tok :: rest)
                            = scan tail cmd' ignored' rest)
  \/ (exists cmd' name rest',
         rest = name :: rest'
         /\ first_byte name <> "-"%char
         /\ scan tail cmd ignored_flags (tok :: rest)
            = scan tail cmd' ignored_flags rest').
Proof.
  cbn [scan].
  repeat match goal with
         | |- context [if ?b then _ else _] =>
           lazymatch b with
           | negb (Ascii.eqb (arg_byte rest tail 0) _) => fail
           | _ => destruct b
           end
         end;
    try (right; left; eexists _, _; reflexivity).
  all: destruct rest as [|name rest']; [now left|].
  all: rewrite arg_byte_0.
  all: destruct (Ascii.eqb (first_byte name) "-"%char) eqn:E; cbn [negb]; [now left|].
  all: right; right; exists (set_project cmd name), name, rest'.
  all: split; [reflexivity|]; split; [now apply Ascii.eqb_neq|reflexivity].
Qed.

(** The half of C6 that holds as stated: wherever the nine-byte token
    [--project] stands in the arguments, followed by nothing or by a token
    that begins with a dash, the scan returns early. *)
Lemma scan_long_flag_without_name_anywhere tail (n : nat) :
  forall pre rest cmd ignored_flags,
    List.length pre = n ->
    match rest with
    | [] => True
    | next :: _ => first_byte next = "-"%char
    end ->
    scan tail cmd ignored_flags (pre ++ "--project" :: rest) = None.
Proof.
  induction n as [n IH] using (well_founded_induction Wf_nat.lt_wf).
  intros pre rest cmd ign Hlen Hrest.
  destruct pre as [|tok pre].
  { now apply scan_long_flag_without_name. }
  cbn [app List.length] in *.
  destruct (scan_step tail cmd ign tok (pre ++ "--project" :: rest))
    as [H|[(cmd' & ign' & H)|(cmd' & name & rest' & Hsplit & Hname & H)]];
    rewrite H.
  - reflexivity.
  - apply (IH (List.length pre)); [lia|reflexivity|exact Hrest].
  - destruct pre as [|name' pre']; cbn [app] in Hsplit.
    + injection Hsplit as <- _. now elim Hname.
    + injection Hsplit as _ <-.
      apply (IH (List.length pre')); [cbn [List.length] in Hlen; lia|reflexivity|exact Hrest].
Qed.

Lemma main_long_flag_without_name prog name pre rest env file :
  command_of_name name <> RMBRL_CMD_UNKNOWN ->
  match rest with
  | [] => True
  | next :: _ => first_byte next = "-"%char
  end ->
  main (prog :: name :: pre ++ "--project" :: rest) env file
  = mkProcess 1 []
      (log_line RMBRL_LOG_ERROR
         ("Project flag provided but missing project name" ++ newline)%string)
      file None.
Proof.
  intros Hname Hrest. unfold main.
  assert (strcmp0 name "--help" || strcmp0 name "-h" = false) as H1.
  { unfold command_of_name, strcmp0 in *.
    destruct (String.eqb_spec name "--help") as [->|]; [now elim Hname|].
    destruct (String.eqb_spec name "-h") as [->|]; [now elim Hname|reflexivity]. }
  assert (strcmp0 name "--version" || strcmp0 name "-V" = false) as H2.
  { unfold command_of_name, strcmp0 in *.
    destruct (String.eqb_spec name "--version") as [->|]; [now elim Hname|].
    destruct (String.eqb_spec name "-V") as [->|]; [now elim Hname|reflexivity]. }
  rewrite H1, H2.
  destruct (command_of_name name); [now elim Hname| | |];
    now rewrite (scan_long_flag_without_name_anywhere _ _ pre rest _ _ eq_refl Hrest).
Qed.

(** * More of the program *)

(** ** The loop of [main]: what every scan keeps *)

Lemma project_flag_is_no_other_flag (tok : string) :
  is_project_flag tok = true ->
  is_all_flag tok = false /\ is_dry_flag tok = false
  /\ is_verbose_flag tok = false /\ is_silent_flag tok = false
  /\ first_byte tok = "-"%char.
Proof.
  unfold is_project_flag, is_all_flag, is_dry_flag, is_verbose_flag, is_silent_flag,
    strcmp0, strncmp0.
  intros H.
  repeat match goal with
         | |- context [String.eqb tok ?lit] =>
           destruct (String.eqb_spec tok lit) as [->|_]; [discriminate H|]
         end.
  repeat split.
  destruct tok as [|c tok]; [discriminate H|].
  cbn [String.prefix] in H. cbn [first_byte].
  destruct (ascii_dec "-" c) as [<-|]; [reflexivity|discriminate H].
Qed.

(** One round of the loop: an early return, a [step] on to the next
    token, or a project flag that takes the next token as its name. *)
Lemma scan_round tail cmd ign tok rest :
  scan tail cmd ign (tok :: rest) = None
  \/ (exists s', step tok (cmd, ign) s'
                 /\ scan tail cmd ign (tok :: rest) = scan tail (fst s') (snd s') rest)
  \/ (exists name rest',
         rest = name :: rest'
         /\ is_project_flag tok = true
         /\ first_byte name <> "-"%char
         /\ scan tail cmd ign (tok :: rest) = scan tail (set_project cmd name) ign rest').
Proof.
  cbn [scan].
  fold (is_all_flag tok) (is_dry_flag tok) (is_verbose_flag tok) (is_silent_flag tok)
    (is_project_flag tok).
  destruct (is_all_flag tok && negb (is_add (function cmd))) eqn:Eall.
  { right; left. exists (set_all cmd true, ign). split; [|reflexivity].
    apply andb_prop in Eall. destruct Eall as [Ha Hf].
    constructor; [exact Ha|]. intros E. rewrite E in Hf. discriminate Hf. }
  destruct (is_dry_flag tok) eqn:Edry.
  { right; left. exists (set_dry_run cmd true, ign). split; [now constructor|reflexivity]. }
  destruct (is_verbose_flag tok) eqn:Everb.
  { right; left. eexists (_, _). split; [now apply step_verbose|reflexivity]. }
  destruct (is_silent_flag tok) eqn:Esil.
  { right; left. eexists (_, _). split; [now apply step_silent|reflexivity]. }
  destruct (is_project_flag tok) eqn:Eproj.
  { destruct (Ascii.eqb (arg_byte (tok :: rest) tail 2) "=").
    { right; left. eexists (_, _). split; [now apply step_attached|reflexivity]. }
    destruct (Ascii.eqb (arg_byte (tok :: rest) tail 9) "=").
    { right; left. eexists (_, _). split; [now apply step_attached|reflexivity]. }
    destruct rest as [|name rest']; [now left|].
    rewrite arg_byte_0.
    destruct (Ascii.eqb (first_byte name) "-") eqn:E; cbn [negb]; [now left|].
    right; right. exists name, rest'.
    split; [reflexivity|]. split; [reflexivity|]. split; [now apply Ascii.eqb_neq|reflexivity]. }
  rewrite arg_byte_0.
  destruct (is_add (function cmd) && is_null (task cmd)
            && negb (Ascii.eqb (first_byte tok) "-")) eqn:Etask.
  { right; left. exists (set_task cmd tok, ign). split; [|reflexivity].
    apply andb_prop in Etask. destruct Etask as [Hft Hb].
    apply andb_prop in Hft. destruct Hft as [Hf Ht].
    constructor.
    - destruct (function cmd); try discriminate Hf; reflexivity.
    - destruct (task cmd); [discriminate Ht|reflexivity].
    - apply negb_true_iff in Hb. now apply Ascii.eqb_neq. }
  right; left. exists (cmd, ign ++ [tok]). split; [|reflexivity].
  constructor; try assumption.
  - apply andb_false_iff in Eall. destruct Eall as [Ha|Hf]; [now left|right].
    apply negb_false_iff in Hf. destruct (function cmd); try discriminate Hf; reflexivity.
  - apply andb_false_iff in Etask. destruct Etask as [Hft|Hb].
    + apply andb_false_iff in Hft. destruct Hft as [Hf|Ht].
      * left. intros E. rewrite E in Hf. discriminate Hf.
      * right; left. intros E. rewrite E in Ht. discriminate Ht.
    + right; right. apply negb_false_iff in Hb. now apply Ascii.eqb_eq.
Qed.

(** The rule for the loop: what holds at the start and is kept by every
    round holds when the scan returns a command. *)
Lemma scan_invariant (tail : string) (I : State -> list string -> Prop) :
  (forall s s' tok rest, I s (tok :: rest) -> step tok s s' -> I s' rest) ->
  (forall cmd ign tok name rest,
      I (cmd, ign) (tok :: name :: rest) ->
      is_project_flag tok = true -> first_byte name <> "-"%char ->
      I (set_project cmd name, ign) rest) ->
  forall args cmd ign c i,
    I (cmd, ign) args -> scan tail cmd ign args = Some (c, i) -> I (c, i) [].
Proof.
  intros Hstep Hname args.
  induction args as [args IH] using (induction_ltof1 _ (@List.length string)).
  unfold ltof in IH.
  intros cmd ign c i HI Hscan.
  destruct args as [|tok rest].
  { cbn in Hscan. injection Hscan as <- <-. exact HI. }
  destruct (scan_round tail cmd ign tok rest)
    as [H|[([cmd' ign'] & Hs & H)|(name & rest' & -> & Hp & Hn & H)]];
    rewrite H in Hscan.
  - discriminate Hscan.
  - apply (IH rest) with (cmd := cmd') (ign := ign'); [cbn; lia| |exact Hscan].
    exact (Hstep _ _ _ _ HI Hs).
  - apply (IH rest') with (cmd := set_project cmd name) (ign := ign);
      [cbn; lia| |exact Hscan].
    exact (Hname _ _ _ _ _ HI Hp Hn).
Qed.

Ltac which_flag tok :=
  unfold is_all_flag, is_dry_flag, is_verbose_flag, is_silent_flag, is_project_flag,
    strcmp0, strncmp0 in *;
  repeat match goal with
         | H : context [String.eqb tok ?lit] |- _ =>
           destruct (String.eqb_spec tok lit); [subst tok|]
         | |- context [String.eqb tok ?lit] =>
           destruct (String.eqb_spec tok lit); [subst tok|]
         end;
  cbn in *; try discriminate; try congruence.

Lemma dry_flag_is_no_other_flag (tok : string) :
  is_dry_flag tok = true ->
  is_all_flag tok = false /\ is_verbose_flag tok = false /\ is_silent_flag tok = false
  /\ is_project_flag tok = false /\ first_byte tok = "-"%char.
Proof. intros H. which_flag tok; repeat split. Qed.

Lemma verbosity_flag_is_no_other_flag (tok : string) :
  is_verbose_flag tok = true \/ is_silent_flag tok = true ->
  is_all_flag tok = false /\ is_dry_flag tok = false
  /\ is_project_flag tok = false /\ first_byte tok = "-"%char
  /\ (is_verbose_flag tok = true -> is_silent_flag tok = false).
Proof. intros [H|H]; which_flag tok; repeat split; congruence. Qed.

(** The scan never touches [function]. *)
Lemma scan_keeps_function tail args cmd ign c i :
  scan tail cmd ign args = Some (c, i) -> function c = function cmd.
Proof.
  apply (scan_invariant tail (fun s _ => function (fst s) = function cmd)); [| |reflexivity].
  - intros s s' tok rest H Hs. destruct Hs; cbn in *; exact H.
  - intros; cbn in *; assumption.
Qed.

(** A dry-run flag anywhere among the arguments sets [dry_run]: the scan
    either returns early or returns a command with [dry_run] set. *)
Lemma scan_dry_flag_anywhere tail args cmd ign c i flag :
  In flag args -> is_dry_flag flag = true ->
  scan tail cmd ign args = Some (c, i) -> dry_run c = true.
Proof.
  intros Hin Hflag Hscan.
  destruct (dry_flag_is_no_other_flag _ Hflag) as (Ha & Hv & Hs' & Hp' & Hb).
  enough (dry_run (fst (c, i)) = true \/ In flag []) as [H|[]] by exact H.
  apply (scan_invariant tail (fun s rem => dry_run (fst s) = true \/ In flag rem))
    with (args := args) (cmd := cmd) (ign := ign); [| | |exact Hscan].
  - intros s s' tok rest [H|[->|H]] Hs.
    + left. destruct Hs; cbn in *; auto.
    + left. destruct Hs; cbn in *; try congruence.
    + now right.
  - intros cmd0 ign0 tok name rest [H|[->|[->|H]]] Hp Hn.
    + now left.
    + congruence.
    + now elim Hn.
    + now right.
  - right. exact Hin.
Qed.

(** ** The executors without their logging *)

Lemma begin_outcome v w :
  outcome (rmbrl_db_begin_transaction v w) = exec_effect Begin_transaction (db w).
Proof.
  unfold outcome, rmbrl_db_begin_transaction, exec_effect.
  destruct (sqlite3_exec Begin_transaction (db w)) as [[msg|] c]; cbn [fst snd];
    [reflexivity|]. now destruct (is_verbose v).
Qed.

Lemma rollback_outcome v w :
  outcome (rmbrl_db_rollback_transaction v w) = exec_effect Rollback (db w).
Proof.
  unfold outcome, rmbrl_db_rollback_transaction, exec_effect.
  destruct (sqlite3_exec Rollback (db w)) as [[msg|] c]; cbn [fst snd];
    [reflexivity|]. now destruct (is_verbose v).
Qed.

Lemma exec_effect_code s c : fst (exec_effect s c) = 0 \/ fst (exec_effect s c) = 1.
Proof. unfold exec_effect. destruct (fst (sqlite3_exec s c)); cbn; auto. Qed.

(** The tail shared by add and clear: [if (cmd->dry_run) { rollback }
    return 0]. *)
Lemma finish_outcome (dry : bool) v (w : World) :
  outcome
    (if dry
     then let '(result, w) := rmbrl_db_rollback_transaction v w in
          if negb (result =? 0) then (result, w) else (0, w)
     else (0, w))
  = finish_effect dry (db w).
Proof.
  unfold finish_effect. destruct dry; [|reflexivity].
  rewrite <- rollback_outcome with (v := v).
  destruct (rmbrl_db_rollback_transaction v w) as [result w'].
  destruct (result =? 0) eqn:E; cbn [negb]; [|reflexivity].
  apply Z.eqb_eq in E. now subst.
Qed.

(** The head shared by add and clear: the notice, the begin, and the
    return when it fails. *)
Lemma guarded_outcome (dry : bool) v msg (w : World)
      (body : World -> Z * World) (effect : sqlite3 -> Z * sqlite3) :
  (forall w', outcome (body w') = effect (db w')) ->
  outcome
    (if dry
     then let w := rmbrl_log RMBRL_LOG_INFO msg w in
          let '(result, w) := rmbrl_db_begin_transaction v w in
          if negb (result =? 0) then (result, w) else body w
     else body w)
  = guarded_effect dry effect (db w).
Proof.
  intros Hbody. unfold guarded_effect. destruct dry; [|apply Hbody].
  cbv zeta.
  pose proof (begin_outcome v (rmbrl_log RMBRL_LOG_INFO msg w)) as Hb.
  rewrite db_rmbrl_log in Hb. rewrite <- Hb. clear Hb.
  destruct (rmbrl_db_begin_transaction v (rmbrl_log RMBRL_LOG_INFO msg w)) as [result w'].
  cbn [outcome fst snd]. destruct (result =? 0); cbn [negb]; [apply Hbody|reflexivity].
Qed.

Lemma add_insert_outcome cmd t w :
  outcome (add_insert cmd t w)
  = finish_effect (dry_run cmd)
      (snd (sqlite3_run
              (Insert t (match project cmd with Some p => p | None => EmptyString end))
              (db w))).
Proof.
  unfold add_insert. rewrite db_log_query.
  destruct (sqlite3_run _ (db w)) as [rows c]. cbn [snd].
  rewrite finish_outcome. reflexivity.
Qed.

Lemma add_outcome cmd t w :
  task cmd = Some t ->
  option_map outcome (rmbrl_command_add cmd w) = Some (add_effect cmd t (db w)).
Proof.
  intros Ht. unfold rmbrl_command_add, add_effect. rewrite Ht. cbn [option_map]. f_equal.
  destruct (256 <? strlen t); [reflexivity|].
  destruct (project_too_long cmd); [reflexivity|]. cbn [orb].
  apply guarded_outcome. intros w'. apply add_insert_outcome.
Qed.

Lemma peek_outcome cmd w :
  outcome (rmbrl_command_peek cmd w) = peek_effect cmd (db w).
Proof.
  unfold peek_effect. destruct (project_too_long cmd) eqn:E.
  - unfold rmbrl_command_peek. now rewrite E.
  - destruct cmd as [f v p t a d]. destruct v.
    + now rewrite (peek_spec _ w E).
    + now rewrite (peek_spec _ w E).
    + now rewrite (peek_spec _ w E).
Qed.

Lemma clear_delete_outcome cmd id w :
  outcome (clear_delete cmd id w)
  = finish_effect (dry_run cmd) (snd (sqlite3_run (delete_stmt cmd id) (db w))).
Proof.
  unfold clear_delete. fold (delete_stmt cmd id).
  set (w1 := if negb (is_silent (verbosity cmd)) then _ else _).
  assert (db w1 = db w) as ->.
  { subst w1. destruct (negb (is_silent (verbosity cmd))); now same_db. }
  destruct (sqlite3_run (delete_stmt cmd id) (db w)) as [rows c]. cbn [snd].
  rewrite finish_outcome. now rewrite db_clear_loop.
Qed.

Lemma clear_resolve_outcome cmd w :
  outcome (clear_resolve cmd w)
  = if negb (all cmd)
    then
      let c1 := record_stmt (Select (project cmd) true) (db w) in
      match select_rows (project cmd) true (live (db w)) with
      | [] => (1, c1)
      | r :: _ =>
        finish_effect (dry_run cmd)
          (snd (sqlite3_run (delete_stmt cmd (sqlite3_column_int (row_id r))) c1))
      end
    else finish_effect (dry_run cmd) (snd (sqlite3_run (delete_stmt cmd (-1)) (db w))).
Proof.
  unfold clear_resolve. destruct (negb (all cmd)); [|apply clear_delete_outcome].
  rewrite db_log_query. unfold sqlite3_run at 1. cbn [record_stmt live].
  destruct (select_rows (project cmd) true (live (db w))) as [|r rest]; [reflexivity|].
  rewrite clear_delete_outcome.
  destruct (is_verbose (verbosity cmd)); now same_db.
Qed.

Lemma clear_outcome cmd w :
  outcome (rmbrl_command_clear cmd w) = clear_effect cmd (db w).
Proof.
  unfold rmbrl_command_clear, clear_effect.
  destruct (project_too_long cmd); [reflexivity|].
  apply guarded_outcome. intros w'. apply clear_resolve_outcome.
Qed.

(** ** Verbosity and the store *)

(** X1.  The verbosity of a command changes nothing but standard error:
    with any verbosity put in place of the command's own, add, peek and
    clear return the same code and leave the same connection (rows, open
    transaction, statements received). *)
Theorem verbosity_changes_only_stderr :
  forall (cmd : Rmbrl_Command) (v : Rmbrl_Verbosity_Level) (w : World),
    option_map outcome (rmbrl_command_add (set_verbosity cmd v) w)
    = option_map outcome (rmbrl_command_add cmd w)
    /\ outcome (rmbrl_command_peek (set_verbosity cmd v) w)
       = outcome (rmbrl_command_peek cmd w)
    /\ outcome (rmbrl_command_clear (set_verbosity cmd v) w)
       = outcome (rmbrl_command_clear cmd w).
Proof.
  intros cmd v w. split; [|split].
  - destruct (task cmd) as [t|] eqn:Et.
    + rewrite (add_outcome (set_verbosity cmd v) t w Et), (add_outcome cmd t w Et).
      reflexivity.
    + unfold rmbrl_command_add. cbn [set_verbosity task]. now rewrite Et.
  - now rewrite !peek_outcome.
  - now rewrite !clear_outcome.
Qed.

(** ** peek *)

(** X2.  peek never alters the store.  Whatever the command (also with
    [dry_run] or [all] set) and whatever the connection, the rows, the open
    transaction and the clock are as before; with a project filter within
    the length limit it returns 0 after handing the store one SELECT and
    nothing else, and with a longer one it returns 1 and hands the store
    nothing. *)
Theorem peek_never_alters_the_store :
  forall (cmd : Rmbrl_Command) (w : World),
    let r := rmbrl_command_peek cmd w in
    live (db (snd r)) = live (db w)
    /\ saved (db (snd r)) = saved (db w)
    /\ sqlite3_close (db (snd r)) = sqlite3_close (db w)
    /\ (fst r, statements (db (snd r)))
       = if project_too_long cmd
         then (1, statements (db w))
         else (0, statements (db w) ++ [Select (project cmd) false]).
Proof.
  intros cmd w r. subst r.
  pose proof (peek_outcome cmd w) as H. unfold outcome, peek_effect in H.
  destruct (rmbrl_command_peek cmd w) as [rc w']. cbn [fst snd] in *.
  destruct (project_too_long cmd); injection H as -> ->; repeat split.
Qed.

(** X3.  peek without [--all], project filter within the limit: it
    returns 0 and prints the header (unless silent) and then at most one
    row.  When no row matches the filter it prints no row, and that is no
    error; otherwise it prints exactly one row of the store, one that
    matches the filter and than which no matching row is more recent. *)
Theorem peek_one_shows_the_most_recent :
  forall (cmd : Rmbrl_Command) (w : World),
    all cmd = false ->
    project_too_long cmd = false ->
    exists shown : list Row,
      rmbrl_command_peek cmd w
      = (0, mkWorld (record_stmt (Select (project cmd) false) (db w))
              (stderr w
               ++ query_text cmd (Select (project cmd) false)
               ++ peek_header (verbosity cmd)
               ++ flat_map (row_text (verbosity cmd)) shown))
      /\ ((shown = []
           /\ forall x, In x (memories (live (db w))) -> matches (project cmd) x = false)
          \/ exists r,
               shown = [r]
               /\ In r (memories (live (db w)))
               /\ matches (project cmd) r = true
               /\ forall x, In x (memories (live (db w))) ->
                            matches (project cmd) x = true ->
                            String.leb (created_at x) (created_at r) = true).
Proof.
  intros cmd w Hall Hok.
  exists (peek_shown cmd (live (db w))). split; [apply peek_spec, Hok|].
  unfold peek_shown, select_rows. rewrite Hall.
  destruct (order_by_created_at_desc
              (filter (matches (project cmd)) (memories (live (db w)))))
    as [|r rest] eqn:E.
  - left. split; [reflexivity|]. apply order_by_nil in E.
    intros x Hx. destruct (matches (project cmd) x) eqn:Em; [|reflexivity].
    assert (In x (filter (matches (project cmd)) (memories (live (db w))))) as Hf
        by (apply filter_In; auto).
    rewrite E in Hf. contradiction.
  - right. exists r. destruct (order_by_head _ _ _ E) as [Hin Hnew].
    apply filter_In in Hin. destruct Hin as [Hin Hm].
    split; [reflexivity|]. split; [exact Hin|]. split; [exact Hm|].
    intros x Hx Hxm. apply Hnew. apply filter_In. auto.
Qed.

Lemma peek_one_shows_the_most_recent_witness :
  exists shown : list Row,
    rmbrl_command_peek (set_function clear_lazypm RMBRL_CMD_PEEK) (world_on sample_store)
    = (0, mkWorld (record_stmt (Select (Some "lazypm") false) (db (world_on sample_store)))
            (stderr (world_on sample_store)
             ++ query_text (set_function clear_lazypm RMBRL_CMD_PEEK)
                  (Select (Some "lazypm") false)
             ++ peek_header RMBRL_VERB_NORMAL
             ++ flat_map (row_text RMBRL_VERB_NORMAL) shown))
    /\ exists r, shown = [r] /\ row_task r = "b".
Proof.
  destruct (peek_one_shows_the_most_recent
              (set_function clear_lazypm RMBRL_CMD_PEEK) (world_on sample_store)
              eq_refl eq_refl) as (shown & Hrun & Hshown).
  exists shown. split; [exact Hrun|].
  destruct Hshown as [[_ Hnone]|(r & -> & Hin & Hm & Hnew)].
  - specialize (Hnone (mkRow 1 "a" "lazypm" "2025-01-01 00:00:00") (or_introl eq_refl)).
    discriminate Hnone.
  - exists r. split; [reflexivity|].
    specialize (Hnew (mkRow 2 "b" "lazypm" "2025-01-03 00:00:00")
                  (or_intror (or_introl eq_refl)) eq_refl).
    destruct Hin as [<-|[<-|[<-|[]]]]; [discriminate Hnew|reflexivity|discriminate Hm].
Defined.

(** X4.  peek with [--all], project filter within the limit: it returns
    0 and prints, after the header, one entry for each row that matches the
    filter and for no other row, each once, the more recent before the
    less recent. *)
Theorem peek_all_shows_matching_rows_newest_first :
  forall (cmd : Rmbrl_Command) (w : World),
    all cmd = true ->
    project_too_long cmd = false ->
    exists shown : list Row,
      rmbrl_command_peek cmd w
      = (0, mkWorld (record_stmt (Select (project cmd) false) (db w))
              (stderr w
               ++ query_text cmd (Select (project cmd) false)
               ++ peek_header (verbosity cmd)
               ++ flat_map (row_text (verbosity cmd)) shown))
      /\ Permutation shown (filter (matches (project cmd)) (memories (live (db w))))
      /\ desc_sorted shown.
Proof.
  intros cmd w Hall Hok.
  exists (peek_shown cmd (live (db w))). split; [apply peek_spec, Hok|].
  unfold peek_shown, select_rows. rewrite Hall. split.
  - apply Permutation_sym, order_by_perm.
  - apply order_by_sorted.
Qed.

Lemma peek_all_shows_matching_rows_newest_first_witness :
  exists shown : list Row,
    rmbrl_command_peek (set_all (set_function clear_lazypm RMBRL_CMD_PEEK) true)
      (world_on sample_store)
    = (0, mkWorld (record_stmt (Select (Some "lazypm") false) (db (world_on sample_store)))
            (stderr (world_on sample_store)
             ++ query_text (set_all (set_function clear_lazypm RMBRL_CMD_PEEK) true)
                  (Select (Some "lazypm") false)
             ++ peek_header RMBRL_VERB_NORMAL
             ++ flat_map (row_text RMBRL_VERB_NORMAL) shown))
    /\ Permutation shown
         (filter (matches (Some "lazypm")) (memories (live (db (world_on sample_store)))))
    /\ desc_sorted shown.
Proof.
  apply (peek_all_shows_matching_rows_newest_first
           (set_all (set_function clear_lazypm RMBRL_CMD_PEEK) true) (world_on sample_store));
    reflexivity.
Defined.

(** ** clear *)

Lemma clear_delete_stderr cmd id w :
  dry_run cmd = false ->
  stderr (snd (clear_delete cmd id w))
  = stderr w
      ++ query_text cmd (delete_stmt cmd id)
      ++ clear_header (verbosity cmd)
      ++ flat_map (row_text (verbosity cmd)) (fst (sqlite3_run (delete_stmt cmd id) (db w))).
Proof.
  intros Hdry. unfold clear_delete. fold (delete_stmt cmd id). rewrite Hdry.
  set (w0 := log_query cmd (delete_stmt cmd id) w).
  set (w1 := if negb (is_silent (verbosity cmd)) then _ else w0).
  assert (db w1 = db w) as Hdb.
  { subst w1 w0. destruct (negb (is_silent (verbosity cmd))); now same_db. }
  assert (stderr w1 = stderr w ++ query_text cmd (delete_stmt cmd id)
                        ++ clear_header (verbosity cmd)) as Herr.
  { subst w1 w0. unfold clear_header.
    destruct (negb (is_silent (verbosity cmd))); cbn [rmbrl_log stderr];
      rewrite stderr_log_query; [now rewrite <- app_assoc|now rewrite app_nil_r]. }
  rewrite Hdb. destruct (sqlite3_run (delete_stmt cmd id) (db w)) as [rows c].
  cbn [fst snd]. rewrite stderr_clear_loop. cbn [stderr with_db]. rewrite Herr.
  now rewrite <- !app_assoc.
Qed.

(** X5.  clear with [--all], no dry run, project filter within the
    limit: it returns 0 (also when nothing matches) after handing the
    store the one DELETE for that filter; the rows left are exactly the
    rows that do not match, in their order, and after the header it prints
    one entry for each row that matched, in table order. *)
Theorem clear_all_removes_exactly_the_matching_rows :
  forall (cmd : Rmbrl_Command) (w : World),
    all cmd = true ->
    dry_run cmd = false ->
    project_too_long cmd = false ->
    let r := rmbrl_command_clear cmd w in
    let table := memories (live (db w)) in
    fst r = 0
    /\ statements (db (snd r)) = statements (db w) ++ [Delete (project cmd)]
    /\ memories (live (db (snd r)))
       = filter (fun x => negb (matches (project cmd) x)) table
    /\ saved (db (snd r)) = saved (db w)
    /\ stderr (snd r)
       = stderr w
           ++ query_text cmd (Delete (project cmd))
           ++ clear_header (verbosity cmd)
           ++ flat_map (row_text (verbosity cmd)) (filter (matches (project cmd)) table).
Proof.
  intros cmd w Hall Hdry Hok r table. subst r table.
  pose proof (clear_outcome cmd w) as Hout.
  unfold outcome, clear_effect, guarded_effect, finish_effect in Hout.
  rewrite Hok, Hdry in Hout. cbv beta in Hout. rewrite Hall in Hout.
  cbn [negb] in Hout. injection Hout as Hrc Hdb.
  split; [exact Hrc|]. rewrite Hdb.
  split; [reflexivity|]. split; [reflexivity|]. split; [reflexivity|].
  unfold rmbrl_command_clear, clear_resolve. rewrite Hok, Hdry, Hall. cbn [negb].
  rewrite (clear_delete_stderr _ _ _ Hdry). reflexivity.
Qed.

Lemma clear_all_removes_exactly_the_matching_rows_witness :
  fst (rmbrl_command_clear (set_all clear_lazypm true) (world_on sample_store)) = 0
  /\ memories
       (live (db (snd (rmbrl_command_clear (set_all clear_lazypm true)
                         (world_on sample_store)))))
     = filter (fun x => negb (matches (Some "lazypm") x))
         (memories (live (db (world_on sample_store)))).
Proof.
  destruct (clear_all_removes_exactly_the_matching_rows
              (set_all clear_lazypm true) (world_on sample_store) eq_refl eq_refl eq_refl)
    as (Hrc & _ & Hrows & _).
  split; [exact Hrc|exact Hrows].
Defined.

Lemma clear_effect_dry_close (cmd : Rmbrl_Command) (c : sqlite3) :
  dry_run cmd = true ->
  sqlite3_close (snd (clear_effect cmd c)) = sqlite3_close c.
Proof.
  intros Hdry. unfold clear_effect, guarded_effect, finish_effect, exec_effect.
  rewrite Hdry. destruct (project_too_long cmd); [reflexivity|].
  destruct c as [lv [sv|] ck st]; [reflexivity|].
  cbn [sqlite3_exec record_stmt saved fst snd Z.eqb live clock statements].
  destruct (negb (all cmd)).
  - destruct (select_rows (project cmd) true lv) as [|r rest]; [reflexivity|].
    unfold delete_stmt. destruct (sqlite3_column_int (row_id r) =? -1); reflexivity.
  - reflexivity.
Qed.

Lemma add_effect_dry_close (cmd : Rmbrl_Command) (t : string) (c : sqlite3) :
  dry_run cmd = true ->
  sqlite3_close (snd (add_effect cmd t c)) = sqlite3_close c.
Proof.
  intros Hdry. unfold add_effect, guarded_effect, finish_effect, exec_effect.
  rewrite Hdry. destruct ((256 <? strlen t) || project_too_long cmd); [reflexivity|].
  destruct c as [lv [sv|] ck st]; reflexivity.
Qed.

(** X6.  A dry run of clear removes nothing.  Whatever the command
    otherwise (with or without [--all], any filter, any verbosity) and
    whatever the connection, what the connection leaves behind when closed
    is what it would have left behind before the call; on a connection
    with no transaction open, a call that returns 0 has handed the store a
    BEGIN first and a ROLLBACK last and leaves no transaction open. *)
Theorem clear_dry_run_removes_nothing :
  forall (cmd : Rmbrl_Command) (w : World),
    dry_run cmd = true ->
    let r := rmbrl_command_clear cmd w in
    sqlite3_close (db (snd r)) = sqlite3_close (db w)
    /\ (saved (db w) = None -> fst r = 0 ->
        live (db (snd r)) = live (db w)
        /\ saved (db (snd r)) = None
        /\ exists between : list Sql,
             statements (db (snd r))
             = statements (db w) ++ [Begin_transaction] ++ between ++ [Rollback]).
Proof.
  intros cmd w Hdry r. subst r.
  pose proof (clear_outcome cmd w) as Hout.
  pose proof (f_equal fst Hout) as Hrc. pose proof (f_equal snd Hout) as Hdb.
  cbn [outcome fst snd] in Hrc, Hdb. rewrite Hrc, Hdb. clear Hout Hrc Hdb.
  split; [now apply clear_effect_dry_close|].
  intros Hsaved. unfold clear_effect, guarded_effect, finish_effect, exec_effect.
  rewrite Hdry. destruct (project_too_long cmd); [intros H; discriminate H|].
  destruct (db w) as [lv sv ck st]. cbn [saved] in Hsaved. subst sv.
  cbn [sqlite3_exec record_stmt saved fst snd Z.eqb live clock statements].
  destruct (negb (all cmd)).
  - destruct (select_rows (project cmd) true lv) as [|x rest];
      [intros H; discriminate H|].
    intros _. unfold delete_stmt.
    destruct (sqlite3_column_int (row_id x) =? -1);
      (split; [reflexivity|]; split; [reflexivity|];
       eexists [_; _]; cbn; rewrite <- !app_assoc; reflexivity).
  - intros _. split; [reflexivity|]. split; [reflexivity|].
    eexists [_]. cbn. rewrite <- !app_assoc. reflexivity.
Qed.

Lemma clear_dry_run_removes_nothing_witness :
  sqlite3_close
    (db (snd (rmbrl_command_clear (set_dry_run (set_all clear_lazypm true) true)
                (world_on sample_store))))
  = sqlite3_close (db (world_on sample_store))
  /\ live (db (snd (rmbrl_command_clear (set_dry_run (set_all clear_lazypm true) true)
                      (world_on sample_store))))
     = live (db (world_on sample_store)).
Proof.
  destruct (clear_dry_run_removes_nothing
              (set_dry_run (set_all clear_lazypm true) true) (world_on sample_store) eq_refl)
    as (Hclose & Hfresh).
  split; [exact Hclose|]. exact (proj1 (Hfresh eq_refl eq_refl)).
Defined.

(** ** main *)

Lemma main_session_cases cmd err env file0 :
  (session (main_session cmd err env file0) = None
   /\ file (main_session cmd err env file0) = file0
   /\ exit_code (main_session cmd err env file0) = 1
   /\ ~ store_opens env)
  \/ (store_opens env
      /\ create_table_error env <> None
      /\ session (main_session cmd err env file0) = Some [Create_table]
      /\ file (main_session cmd err env file0) = file0
      /\ exit_code (main_session cmd err env file0) = 1)
  \/ (store_opens env
      /\ create_table_error env = None
      /\ exit_code (main_session cmd err env file0)
         = fst (dispatch_effect cmd (session_start env file0))
      /\ file (main_session cmd err env file0)
         = sqlite3_close (snd (dispatch_effect cmd (session_start env file0)))
      /\ session (main_session cmd err env file0)
         = Some (statements (snd (dispatch_effect cmd (session_start env file0))))).
Proof.
  unfold main_session, store_opens.
  destruct (HOME env) as [home|];
    [|left; repeat split; intros (h & H & _); discriminate H].
  destruct (mkdir_error env) as [reason|];
    [left; repeat split; intros (h & _ & _ & H & _); discriminate H|].
  cbv zeta.
  destruct (sqlite3_open_cases home (open_error env) file0 (CURRENT_TIMESTAMP env))
    as [(Hshort & Hio & ->)|(Hwhy & errmsg & ->)].
  2:{ left. repeat split. intros (h & Hh & Hlen & _ & Hio). injection Hh as <-.
      destruct Hwhy as [H|H]; [lia|now elim H]. }
  assert (exists home_env : string,
             Some home = Some home_env /\ strlen home_env <= 476
             /\ @None string = None /\ open_error env = None) as Hopens
      by (exists home; repeat split; assumption).
  set (w0 := if is_verbose (verbosity cmd) then rmbrl_log _ _ _ else _).
  assert (db w0 = opened file0 (CURRENT_TIMESTAMP env)) as Hdb0
      by (subst w0; now destruct (is_verbose (verbosity cmd))).
  rewrite Hdb0. unfold sqlite3_exec. cbn [fst snd].
  fold (session_start env file0).
  destruct (create_table_error env) as [err_msg|].
  { right; left. split; [exact Hopens|]. split; [discriminate|]. repeat split. }
  right; right. split; [exact Hopens|]. split; [reflexivity|].
  set (w1 := if is_verbose (verbosity cmd) then rmbrl_log _ _ (with_db w0 _) else _).
  assert (db w1 = session_start env file0) as Hdb1
      by (subst w1; now destruct (is_verbose (verbosity cmd))).
  clearbody w1. clear w0 Hdb0.
  assert (exists r : Z * World,
             outcome r = dispatch_effect cmd (session_start env file0)
             /\ match function cmd with
                | RMBRL_CMD_ADD =>
                  match rmbrl_command_add cmd w1 with
                  | Some r => r
                  | None => (139, w1)
                  end
                | RMBRL_CMD_PEEK => rmbrl_command_peek cmd w1
                | RMBRL_CMD_CLEAR => rmbrl_command_clear cmd w1
                | RMBRL_CMD_UNKNOWN => (134, w1)
                end = r) as (r & Hout & Hr).
  { eexists. split; [|reflexivity]. unfold dispatch_effect. rewrite <- Hdb1.
    destruct (function cmd).
    - reflexivity.
    - destruct (task cmd) as [t|] eqn:Et.
      + pose proof (add_outcome cmd t w1 Et) as H.
        destruct (rmbrl_command_add cmd w1) as [r|]; [|discriminate H].
        cbn [option_map] in H. now injection H.
      + unfold rmbrl_command_add. rewrite Et. reflexivity.
    - apply peek_outcome.
    - apply clear_outcome. }
  rewrite Hr. rewrite <- Hout. destruct r as [rc w2]. repeat split.
Qed.

(** The runs of [main].  Every run either has no connection to the store,
    and then leaves the file as it was and exits with 1, or with 0 after
    printing the help or the version; or it has recognised the command,
    scanned the arguments to the end, found a task if the command is add,
    and got its connection.  Then either the store refuses the CREATE
    TABLE, and the run exits with 1 and the file as it was; or the exit
    code, the file left behind and the statements run are those of the
    executor for the scanned command on the freshly opened store. *)
Lemma main_cases :
  forall (argv : list string) (env : Env) (file0 : Store),
    let p := main argv env file0 in
    (session p = None /\ file p = file0
     /\ (exit_code p = 1
         \/ (exit_code p = 0 /\ process_stderr p = []
             /\ exists prog flag rest,
                  argv = prog :: flag :: rest
                  /\ (flag = "--help" \/ flag = "-h"
                      \/ flag = "--version" \/ flag = "-V"))))
    \/ (exists prog name args cmd ignored_flags,
           argv = prog :: name :: args
           /\ command_of_name name <> RMBRL_CMD_UNKNOWN
           /\ scan (environ env) (set_function cmd_zero (command_of_name name)) [] args
              = Some (cmd, ignored_flags)
           /\ function cmd = command_of_name name
           /\ (function cmd = RMBRL_CMD_ADD -> task cmd <> None)
           /\ store_opens env
           /\ ((create_table_error env <> None
                /\ session p = Some [Create_table]
                /\ file p = file0
                /\ exit_code p = 1)
               \/ (create_table_error env = None
                   /\ exit_code p = fst (dispatch_effect cmd (session_start env file0))
                   /\ file p
                      = sqlite3_close (snd (dispatch_effect cmd (session_start env file0)))
                   /\ session p
                      = Some (statements
                                (snd (dispatch_effect cmd (session_start env file0))))))).
Proof.
  intros argv env file0 p. subst p. unfold main.
  destruct argv as [|prog [|name args]]; [left; repeat split; now left..|].
  destruct (strcmp0 name "--help" || strcmp0 name "-h") eqn:Ehelp.
  { left. split; [reflexivity|]. split; [reflexivity|]. right.
    split; [reflexivity|]. split; [reflexivity|]. exists prog, name, args.
    split; [reflexivity|]. unfold strcmp0 in Ehelp. apply orb_prop in Ehelp.
    destruct Ehelp as [H|H]; apply String.eqb_eq in H; auto. }
  destruct (strcmp0 name "--version" || strcmp0 name "-V") eqn:Evers.
  { left. split; [reflexivity|]. split; [reflexivity|]. right.
    split; [reflexivity|]. split; [reflexivity|]. exists prog, name, args.
    split; [reflexivity|]. unfold strcmp0 in Evers. apply orb_prop in Evers.
    destruct Evers as [H|H]; apply String.eqb_eq in H; auto. }
  assert (forall func, command_of_name name = func -> func <> RMBRL_CMD_UNKNOWN ->
            let p := match scan (environ env) (set_function cmd_zero func) [] args with
                     | Some (cmd, ignored_flags) =>
                       main_after_scan cmd ignored_flags env file0
                     | None =>
                       mkProcess 1 []
                         (log_line RMBRL_LOG_ERROR
                            ("Project flag provided but missing project name"
                               ++ newline)%string)
                         file0 None
                     end in
            (session p = None /\ file p = file0 /\ exit_code p = 1)
            \/ (exists cmd ignored_flags,
                   scan (environ env) (set_function cmd_zero func) [] args
                   = Some (cmd, ignored_flags)
                   /\ function cmd = func
                   /\ (function cmd = RMBRL_CMD_ADD -> task cmd <> None)
                   /\ store_opens env
                   /\ ((create_table_error env <> None
                        /\ session p = Some [Create_table]
                        /\ file p = file0
                        /\ exit_code p = 1)
                       \/ (create_table_error env = None
                           /\ exit_code p
                              = fst (dispatch_effect cmd (session_start env file0))
                           /\ file p
                              = sqlite3_close
                                  (snd (dispatch_effect cmd (session_start env file0)))
                           /\ session p
                              = Some (statements
                                        (snd (dispatch_effect cmd
                                                (session_start env file0))))))))
    as Hparsed.
  { intros func Hname Hknown. cbv zeta.
    destruct (scan (environ env) (set_function cmd_zero func) [] args)
      as [[cmd ign]|] eqn:Escan; [|left; repeat split].
    pose proof (scan_keeps_function _ _ _ _ _ _ Escan) as Hf. cbn in Hf.
    unfold main_after_scan.
    destruct (is_add (function cmd) && is_null (task cmd)) eqn:Etask;
      [left; repeat split|].
    assert (function cmd = RMBRL_CMD_ADD -> task cmd <> None) as Ht.
    { intros Ha Ht. rewrite Ha, Ht in Etask. discriminate Etask. }
    destruct (main_session_cases cmd
                (if is_verbose (verbosity cmd)
                 then warn_ignored (verbosity cmd) ign ++ rmbrl_command_debug_print cmd
                 else warn_ignored (verbosity cmd) ign) env file0)
      as [(H1 & H2 & H3 & _)|[(Ho & H1 & H2 & H3 & H4)|(Ho & H1 & H2 & H3 & H4)]].
    - left. auto.
    - right. exists cmd, ign. split; [reflexivity|]. split; [exact Hf|].
      split; [exact Ht|]. split; [exact Ho|]. left. auto.
    - right. exists cmd, ign. split; [reflexivity|]. split; [exact Hf|].
      split; [exact Ht|]. split; [exact Ho|]. right. auto. }
  destruct (command_of_name name) eqn:Ename.
  - left. split; [reflexivity|]. split; [reflexivity|]. now left.
  - destruct (Hparsed RMBRL_CMD_ADD eq_refl ltac:(discriminate))
      as [(H1 & H2 & H3)|(cmd & ign & H)]; [left; auto|].
    right. exists prog, name, args, cmd, ign. rewrite !Ename.
    split; [reflexivity|]. split; [discriminate|]. exact H.
  - destruct (Hparsed RMBRL_CMD_PEEK eq_refl ltac:(discriminate))
      as [(H1 & H2 & H3)|(cmd & ign & H)]; [left; auto|].
    right. exists prog, name, args, cmd, ign. rewrite !Ename.
    split; [reflexivity|]. split; [discriminate|]. exact H.
  - destruct (Hparsed RMBRL_CMD_CLEAR eq_refl ltac:(discriminate))
      as [(H1 & H2 & H3)|(cmd & ign & H)]; [left; auto|].
    right. exists prog, name, args, cmd, ign. rewrite !Ename.
    split; [reflexivity|]. split; [discriminate|]. exact H.
Qed.

(** ** More on the loop of [main] *)

Lemma all_flag_is_no_other_flag (tok : string) :
  is_all_flag tok = true ->
  is_dry_flag tok = false /\ is_verbose_flag tok = false /\ is_silent_flag tok = false
  /\ is_project_flag tok = false /\ first_byte tok = "-"%char.
Proof. intros H. which_flag tok; repeat split. Qed.

(** X7.  The last verbosity flag wins.  When the scan returns a command
    and the arguments hold a verbosity flag with no verbosity flag after
    it, the command has the verbosity of that flag, whatever stands before
    it and whatever the command started with. *)
Theorem scan_last_verbosity_flag_wins :
  forall (tail : string) (pre : list string) (flag : string) (post : list string)
         (cmd : Rmbrl_Command) (ign : list string) (c : Rmbrl_Command) (i : list string),
    is_verbose_flag flag = true \/ is_silent_flag flag = true ->
    Forall (fun t => is_verbose_flag t = false /\ is_silent_flag t = false) post ->
    scan tail cmd ign (pre ++ flag :: post) = Some (c, i) ->
    verbosity c = verbosity_of_flag flag.
Proof.
  intros tail pre flag post cmd ign c i Hflag Hpost Hscan.
  destruct (verbosity_flag_is_no_other_flag _ Hflag) as (Ha & Hd & Hp & Hb & Hvs).
  enough ((exists pre', [] = pre' ++ flag :: post)
          \/ (verbosity (fst (c, i)) = verbosity_of_flag flag
              /\ Forall (fun t => is_verbose_flag t = false /\ is_silent_flag t = false) []))
    as [(pre' & H)|[H _]]; [destruct pre'; discriminate H|exact H|].
  apply (scan_invariant tail
           (fun s rem =>
              (exists pre', rem = pre' ++ flag :: post)
              \/ (verbosity (fst s) = verbosity_of_flag flag
                  /\ Forall (fun t => is_verbose_flag t = false /\ is_silent_flag t = false)
                       rem)))
    with (args := pre ++ flag :: post) (cmd := cmd) (ign := ign); [| | |exact Hscan].
  - intros s s' tok rest [(pre' & Hrem)|[Hv Hall]] Hs.
    + destruct pre' as [|x pre']; cbn [app] in Hrem; injection Hrem as -> ->.
      * right. split; [|exact Hpost]. unfold verbosity_of_flag.
        destruct Hs; cbn [fst verbosity set_verbosity]; try congruence.
        -- now rewrite H.
        -- destruct (is_verbose_flag flag); [|reflexivity].
           specialize (Hvs eq_refl). congruence.
        -- destruct Hflag; congruence.
      * left. exists pre'. reflexivity.
    + right. inversion Hall as [|? ? [Hnv Hns] Hrest]; subst. split; [|exact Hrest].
      destruct Hs; cbn in *; try exact Hv; congruence.
  - intros cmd0 ign0 tok name rest [(pre' & Hrem)|[Hv Hall]] Hptok Hname.
    + destruct pre' as [|x [|y pre']]; cbn [app] in Hrem.
      * injection Hrem as -> _. congruence.
      * injection Hrem as _ -> _. now elim Hname.
      * injection Hrem as _ _ ->. left. exists pre'. reflexivity.
    + right. split; [exact Hv|].
      inversion Hall as [|? ? _ Hrest]; subst.
      inversion Hrest as [|? ? _ Hrest']; subst. exact Hrest'.
  - left. exists pre. reflexivity.
Qed.

Lemma scan_last_verbosity_flag_wins_witness :
  exists c i,
    scan EmptyString (set_function cmd_zero RMBRL_CMD_PEEK) [] ["-s"; "--all"; "-v"; "x"]
    = Some (c, i)
    /\ verbosity c = verbosity_of_flag "-v".
Proof.
  eexists _, _. split; [reflexivity|].
  apply (scan_last_verbosity_flag_wins EmptyString ["-s"; "--all"] "-v" ["x"]
           (set_function cmd_zero RMBRL_CMD_PEEK) [] _ ["x"]).
  - left. reflexivity.
  - repeat constructor.
  - reflexivity.
Defined.

Lemma subseq_snoc_skip {A : Type} (l m : list A) (x : A) :
  subseq l m -> subseq l (m ++ [x]).
Proof.
  induction 1; cbn [app].
  - apply subseq_skip, subseq_nil.
  - now apply subseq_skip.
  - now apply subseq_take.
Qed.

Lemma subseq_snoc_take {A : Type} (l m : list A) (x : A) :
  subseq l m -> subseq (l ++ [x]) (m ++ [x]).
Proof.
  induction 1; cbn [app].
  - apply subseq_take, subseq_nil.
  - now apply subseq_skip.
  - now apply subseq_take.
Qed.

(** X8.  What the ignored flags are.  When the scan returns, the ignored
    flags are arguments of the command line in the order they were given,
    none of them a dry-run, verbosity or project flag, and for peek and
    clear none of them an all flag. *)
Theorem scan_ignored_flags_in_order :
  forall (tail : string) (args : list string) (cmd c : Rmbrl_Command) (i : list string),
    scan tail cmd [] args = Some (c, i) ->
    subseq i args
    /\ Forall (fun t => recognised t = false) i
    /\ (function cmd <> RMBRL_CMD_ADD -> Forall (fun t => is_all_flag t = false) i).
Proof.
  intros tail args cmd c i Hscan.
  enough (exists done,
             args = done ++ [] /\ subseq (snd (c, i)) done
             /\ Forall (fun t => recognised t = false
                                 /\ (function cmd <> RMBRL_CMD_ADD -> is_all_flag t = false))
                  (snd (c, i))
             /\ function (fst (c, i)) = function cmd)
    as (done & Hargs & Hsub & Hall & _).
  { rewrite app_nil_r in Hargs. subst done. cbn [snd] in *.
    split; [exact Hsub|]. rewrite Forall_forall in Hall.
    split; [|intros Hf]; apply Forall_forall; intros t Ht; now apply Hall. }
  apply (scan_invariant tail
           (fun s rem =>
              exists done,
                args = done ++ rem /\ subseq (snd s) done
                /\ Forall (fun t => recognised t = false
                                    /\ (function cmd <> RMBRL_CMD_ADD
                                        -> is_all_flag t = false))
                     (snd s)
                /\ function (fst s) = function cmd))
    with (args := args) (cmd := cmd) (ign := []); [| | |exact Hscan].
  - intros s s' tok rest (done & Hargs & Hsub & Hall & Hf) Hs.
    exists (done ++ [tok]). rewrite <- app_assoc. split; [exact Hargs|].
    destruct Hs; cbn [fst snd] in *;
      try (split; [now apply subseq_snoc_skip|]; split; [exact Hall|exact Hf]).
    split; [now apply subseq_snoc_take|]. split; [|exact Hf].
    apply Forall_app. split; [exact Hall|]. constructor; [|constructor].
    split; [unfold recognised; now rewrite H, H0, H1, H2|].
    intros Hadd. destruct H3 as [H3|H3]; [exact H3|]. congruence.
  - intros cmd0 ign0 tok name rest (done & Hargs & Hsub & Hall & Hf) _ _.
    exists (done ++ [tok; name]). rewrite <- app_assoc. split; [exact Hargs|].
    cbn [fst snd] in *. split; [|split; [exact Hall|exact Hf]].
    change [tok; name] with ([tok] ++ [name]). rewrite app_assoc.
    now apply subseq_snoc_skip, subseq_snoc_skip.
  - exists []. split; [reflexivity|]. split; [apply subseq_nil|]. split; [constructor|reflexivity].
Qed.

Lemma scan_ignored_flags_in_order_witness :
  exists c,
    scan EmptyString (set_function cmd_zero RMBRL_CMD_PEEK) [] ["x"; "-v"; "--bogus"; "-a"]
    = Some (c, ["x"; "--bogus"])
    /\ subseq ["x"; "--bogus"] ["x"; "-v"; "--bogus"; "-a"].
Proof.
  eexists. split; [reflexivity|].
  exact (proj1 (scan_ignored_flags_in_order EmptyString ["x"; "-v"; "--bogus"; "-a"]
                  (set_function cmd_zero RMBRL_CMD_PEEK) _ _ eq_refl)).
Defined.

(** X9.  The task of add is the first plain argument.  With the command
    add and no task yet, when the arguments begin with tokens that start
    with a dash and are no project flags, and then comes a token that does
    not start with a dash, a scan that returns a command has made that
    token the task, whatever follows it. *)
Theorem scan_first_plain_argument_is_the_task :
  forall (tail : string) (pre : list string) (t : string) (post : list string)
         (cmd : Rmbrl_Command) (ign : list string) (c : Rmbrl_Command) (i : list string),
    function cmd = RMBRL_CMD_ADD ->
    task cmd = None ->
    Forall (fun x => dashed x /\ is_project_flag x = false) pre ->
    ~ dashed t ->
    scan tail cmd ign (pre ++ t :: post) = Some (c, i) ->
    task c = Some t.
Proof.
  intros tail pre t post cmd ign c i Hadd Hnone Hpre Ht Hscan. unfold dashed in *.
  enough ((task (fst (c, i)) = None /\ function (fst (c, i)) = RMBRL_CMD_ADD
           /\ exists pre', Forall (fun x => first_byte x = "-"%char
                                            /\ is_project_flag x = false) pre'
                           /\ [] = pre' ++ t :: post)
          \/ task (fst (c, i)) = Some t)
    as [(_ & _ & pre' & _ & H)|H]; [destruct pre'; discriminate H|exact H|].
  apply (scan_invariant tail
           (fun s rem =>
              (task (fst s) = None /\ function (fst s) = RMBRL_CMD_ADD
               /\ exists pre', Forall (fun x => first_byte x = "-"%char
                                                /\ is_project_flag x = false) pre'
                               /\ rem = pre' ++ t :: post)
              \/ task (fst s) = Some t))
    with (args := pre ++ t :: post) (cmd := cmd) (ign := ign); [| | |exact Hscan].
  - intros s s' tok rest [(Hn & Hf & pre' & Hall & Hrem)|Hs'] Hs.
    + destruct pre' as [|x pre']; cbn [app] in Hrem; injection Hrem as -> ->.
      * right. destruct Hs; cbn [fst] in *.
        -- congruence.
        -- destruct (dry_flag_is_no_other_flag _ H) as (_ & _ & _ & _ & Hb). now elim Ht.
        -- destruct (verbosity_flag_is_no_other_flag _ (or_introl H))
             as (_ & _ & _ & Hb & _). now elim Ht.
        -- destruct (verbosity_flag_is_no_other_flag _ (or_intror H))
             as (_ & _ & _ & Hb & _). now elim Ht.
        -- destruct (project_flag_is_no_other_flag _ H) as (_ & _ & _ & _ & Hb).
           now elim Ht.
        -- reflexivity.
        -- destruct H4 as [H4|[H4|H4]]; [congruence|congruence|now elim Ht].
      * inversion Hall as [|? ? [Hx Hxp] Hall']; subst.
        destruct Hs; cbn [fst] in *; try congruence;
          left; (split; [exact Hn|]; split; [exact Hf|]; exists pre'; now split).
    + right. destruct Hs; cbn [fst] in *; try exact Hs'. congruence.
  - intros cmd0 ign0 tok name rest [(Hn & Hf & pre' & Hall & Hrem)|Hs'] Hptok Hname.
    + destruct pre' as [|x pre']; cbn [app] in Hrem; injection Hrem as -> Hrem.
      * destruct (project_flag_is_no_other_flag _ Hptok) as (_ & _ & _ & _ & Hb).
        now elim Ht.
      * inversion Hall as [|? ? [Hx Hxp] Hall']; subst. congruence.
    + right. exact Hs'.
  - left. split; [exact Hnone|]. split; [exact Hadd|]. exists pre. now split.
Qed.

Lemma scan_first_plain_argument_is_the_task_witness :
  exists c i,
    scan EmptyString (set_function cmd_zero RMBRL_CMD_ADD) [] ["-n"; "--all"; "milk"; "eggs"]
    = Some (c, i)
    /\ task c = Some "milk".
Proof.
  eexists _, _. split; [reflexivity|].
  apply (scan_first_plain_argument_is_the_task EmptyString ["-n"; "--all"] "milk" ["eggs"]
           (set_function cmd_zero RMBRL_CMD_ADD) [] _ ["--all"; "eggs"]).
  - reflexivity.
  - reflexivity.
  - repeat constructor.
  - unfold dashed. cbn. discriminate.
  - reflexivity.
Defined.

(** X10.  The all flag counts for peek and clear only.  When the scan
    returns a command: for add, [all] is as it was before the scan,
    whatever the arguments; for peek and clear, an all flag anywhere among
    the arguments has set it. *)
Theorem scan_all_flag_only_for_peek_and_clear :
  forall (tail : string) (args : list string) (cmd : Rmbrl_Command) (ign : list string)
         (c : Rmbrl_Command) (i : list string),
    scan tail cmd ign args = Some (c, i) ->
    (function cmd = RMBRL_CMD_ADD -> all c = all cmd)
    /\ (function cmd <> RMBRL_CMD_ADD ->
        forall flag, In flag args -> is_all_flag flag = true -> all c = true).
Proof.
  intros tail args cmd ign c i Hscan. split.
  - intros Hadd.
    enough (function (fst (c, i)) = RMBRL_CMD_ADD /\ all (fst (c, i)) = all cmd) as [_ H]
        by exact H.
    apply (scan_invariant tail
             (fun s _ => function (fst s) = RMBRL_CMD_ADD /\ all (fst s) = all cmd))
      with (args := args) (cmd := cmd) (ign := ign); [| | |exact Hscan].
    + intros s s' tok rest [Hf Ha] Hs. destruct Hs; cbn [fst] in *; auto. congruence.
    + intros cmd0 ign0 tok name rest [Hf Ha] _ _. cbn [fst] in *. auto.
    + auto.
  - intros Hother flag Hin Hflag.
    destruct (all_flag_is_no_other_flag _ Hflag) as (Hd & Hv & Hs' & Hp & Hb).
    enough (function (fst (c, i)) <> RMBRL_CMD_ADD
            /\ (all (fst (c, i)) = true \/ In flag [])) as [_ [H|[]]] by exact H.
    apply (scan_invariant tail
             (fun s rem => function (fst s) <> RMBRL_CMD_ADD
                           /\ (all (fst s) = true \/ In flag rem)))
      with (args := args) (cmd := cmd) (ign := ign); [| | |exact Hscan].
    + intros s s' tok rest [Hf [Ha|[->|Hin']]] Hs.
      * destruct Hs; cbn [fst] in *; auto.
      * destruct Hs; cbn [fst] in *; try congruence; auto.
        destruct H3; congruence.
      * destruct Hs; cbn [fst] in *; auto.
    + intros cmd0 ign0 tok name rest [Hf [Ha|[->|[->|Hin']]]] Hptok Hname; cbn [fst] in *.
      * auto.
      * congruence.
      * now elim Hname.
      * auto.
    + auto.
Qed.

Lemma scan_all_flag_only_for_peek_and_clear_witness :
  exists c i,
    scan EmptyString (set_function cmd_zero RMBRL_CMD_CLEAR) [] ["-p"; "home"; "--all"]
    = Some (c, i)
    /\ all c = true.
Proof.
  eexists _, _. split; [reflexivity|].
  apply (proj2 (scan_all_flag_only_for_peek_and_clear EmptyString ["-p"; "home"; "--all"]
                  (set_function cmd_zero RMBRL_CMD_CLEAR) [] _ [] eq_refl))
    with (flag := "--all").
  - cbn. discriminate.
  - cbn. auto.
  - reflexivity.
Defined.

(** Tokens that all begin with a dash never give a task. *)
Lemma scan_dashed_keeps_task tail args cmd ign c i :
  Forall dashed args -> scan tail cmd ign args = Some (c, i) -> task c = task cmd.
Proof.
  intros Hall Hscan. unfold dashed in *.
  enough (task (fst (c, i)) = task cmd /\ Forall (fun x => first_byte x = "-"%char) [])
    as [H _] by exact H.
  apply (scan_invariant tail
           (fun s rem => task (fst s) = task cmd
                         /\ Forall (fun x => first_byte x = "-"%char) rem))
    with (args := args) (cmd := cmd) (ign := ign); [| | |exact Hscan].
  - intros s s' tok rest [Ht Hrem] Hs. inversion Hrem as [|? ? Hb Hrest]; subst.
    split; [|exact Hrest]. destruct Hs; cbn [fst] in *; try exact Ht. congruence.
  - intros cmd0 ign0 tok name rest [Ht Hrem] _ Hname.
    inversion Hrem as [|? ? _ Hrest]; subst. inversion Hrest as [|? ? Hb _]; subst.
    now elim Hname.
  - split; [reflexivity|exact Hall].
Qed.

(** ** More on [main] *)

Lemma finish_effect_code dry c :
  fst (finish_effect dry c) = 0 \/ fst (finish_effect dry c) = 1.
Proof. unfold finish_effect. destruct dry; [apply exec_effect_code|now left]. Qed.

Lemma guarded_effect_code dry body c :
  (forall c', fst (body c') = 0 \/ fst (body c') = 1) ->
  fst (guarded_effect dry body c) = 0 \/ fst (guarded_effect dry body c) = 1.
Proof.
  intros Hbody. unfold guarded_effect. destruct dry; [|apply Hbody]. cbv zeta.
  destruct (exec_effect_code Begin_transaction c) as [H|H]; rewrite H; cbn [Z.eqb];
    [apply Hbody|now right].
Qed.

(** The codes 139 and 134, which stand for the dereference of a missing
    task and for [RMBRL_UNREACHABLE], are not among the results of a
    dispatch on a parsed command. *)
Lemma dispatch_effect_code cmd c :
  function cmd <> RMBRL_CMD_UNKNOWN ->
  (function cmd = RMBRL_CMD_ADD -> task cmd <> None) ->
  fst (dispatch_effect cmd c) = 0 \/ fst (dispatch_effect cmd c) = 1.
Proof.
  intros Hknown Htask. unfold dispatch_effect.
  destruct (function cmd); [now elim Hknown| | |].
  - destruct (task cmd) as [t|]; [|now elim (Htask eq_refl)].
    unfold add_effect. destruct ((256 <? strlen t) || project_too_long cmd); [now right|].
    apply guarded_effect_code. intros c'. apply finish_effect_code.
  - unfold peek_effect. destruct (project_too_long cmd); [now right|now left].
  - unfold clear_effect. destruct (project_too_long cmd); [now right|].
    apply guarded_effect_code. intros c'. destruct (negb (all cmd)).
    + cbv zeta. destruct (select_rows (project cmd) true (live c')); [now right|].
      apply finish_effect_code.
    + apply finish_effect_code.
Qed.

Lemma peek_effect_close cmd c :
  sqlite3_close (snd (peek_effect cmd c)) = sqlite3_close c.
Proof. unfold peek_effect. now destruct (project_too_long cmd). Qed.

Lemma dispatch_dry_close cmd c :
  dry_run cmd = true ->
  sqlite3_close (snd (dispatch_effect cmd c)) = sqlite3_close c.
Proof.
  intros Hdry. unfold dispatch_effect. destruct (function cmd); [reflexivity| | |].
  - destruct (task cmd); [now apply add_effect_dry_close|reflexivity].
  - apply peek_effect_close.
  - now apply clear_effect_dry_close.
Qed.

(** On a connection with no transaction open, a dispatch that does not
    return 0 leaves behind what was there. *)
Lemma dispatch_failure_close cmd c :
  saved c = None ->
  fst (dispatch_effect cmd c) <> 0 ->
  sqlite3_close (snd (dispatch_effect cmd c)) = sqlite3_close c.
Proof.
  intros Hsaved. destruct c as [lv sv ck st]. cbn [saved] in Hsaved. subst sv.
  unfold dispatch_effect, add_effect, peek_effect, clear_effect, guarded_effect,
    finish_effect, exec_effect.
  destruct (function cmd); [reflexivity| | |].
  - destruct (task cmd) as [t|]; [|reflexivity].
    destruct ((256 <? strlen t) || project_too_long cmd); [reflexivity|].
    destruct (dry_run cmd);
      cbn [sqlite3_exec sqlite3_run record_stmt saved fst snd Z.eqb live clock statements];
      intros H; now elim H.
  - destruct (project_too_long cmd); [reflexivity|]. intros H; now elim H.
  - destruct (project_too_long cmd); [reflexivity|].
    destruct (dry_run cmd);
      cbn [sqlite3_exec record_stmt saved fst snd Z.eqb live clock statements].
    + destruct (negb (all cmd)).
      * destruct (select_rows (project cmd) true lv) as [|r rest]; [reflexivity|].
        unfold delete_stmt. destruct (sqlite3_column_int (row_id r) =? -1);
          intros H; now elim H.
      * intros H; now elim H.
    + destruct (negb (all cmd)).
      * destruct (select_rows (project cmd) true lv) as [|r rest]; [reflexivity|].
        intros H; now elim H.
      * intros H; now elim H.
Qed.

(** X11.  The exit code of [main] is 0 or 1, whatever the arguments, the
    environment and the store file: the switch of [main] never meets an
    unknown command, and add is never called without a task. *)
Theorem main_exit_code_is_0_or_1 :
  forall (argv : list string) (env : Env) (file0 : Store),
    exit_code (main argv env file0) = 0 \/ exit_code (main argv env file0) = 1.
Proof.
  intros argv env file0. pose proof (main_cases argv env file0) as H. cbv zeta in H.
  destruct H as [(_ & _ & [H|(H & _)])
                |(prog & name & args & cmd & ign & _ & Hk & _ & Hf & Ht & _
                  & [(_ & _ & _ & Hc)|(_ & Hc & _)])].
  - now right.
  - now left.
  - now right.
  - rewrite Hc. apply dispatch_effect_code; [congruence|exact Ht].
Qed.

(** X12.  A run that fails changes nothing.  When [main] exits with a
    code other than 0, the store file is as it was before the run. *)
Theorem main_failed_run_leaves_file :
  forall (argv : list string) (env : Env) (file0 : Store),
    exit_code (main argv env file0) <> 0 ->
    file (main argv env file0) = file0.
Proof.
  intros argv env file0 Hfail. pose proof (main_cases argv env file0) as H. cbv zeta in H.
  destruct H as [(_ & H & _)
                |(prog & name & args & cmd & ign & _ & _ & _ & _ & _ & _
                  & [(_ & _ & H & _)|(_ & Hc & Hfile & _)])].
  - exact H.
  - exact H.
  - rewrite Hfile. rewrite Hc in Hfail.
    now rewrite (dispatch_failure_close cmd (session_start env file0) eq_refl Hfail).
Qed.

Lemma main_failed_run_leaves_file_witness :
  file (main ["rmbrl"; "clear"; "-p"; "lazypm"] sample_env one_other_row) = one_other_row.
Proof.
  apply (main_failed_run_leaves_file ["rmbrl"; "clear"; "-p"; "lazypm"] sample_env
           one_other_row).
  vm_compute. discriminate.
Defined.

(** X13.  A dry-run flag anywhere after the program name keeps the store
    file as it was, whatever the command, the other arguments and the
    environment. *)
Theorem main_dry_run_flag_leaves_file :
  forall (argv : list string) (flag : string) (env : Env) (file0 : Store),
    In flag (tl argv) ->
    is_dry_flag flag = true ->
    file (main argv env file0) = file0.
Proof.
  intros argv flag env file0 Hin Hflag.
  pose proof (main_cases argv env file0) as H. cbv zeta in H.
  destruct H as [(_ & H & _)
                |(prog & name & args & cmd & ign & -> & Hk & Hscan & _ & _ & _
                  & [(_ & _ & H & _)|(_ & _ & Hfile & _)])].
  - exact H.
  - exact H.
  - rewrite Hfile. cbn [tl] in Hin. destruct Hin as [->|Hin].
    + exfalso. apply Hk. which_flag flag.
    + rewrite dispatch_dry_close; [reflexivity|].
      exact (scan_dry_flag_anywhere _ _ _ _ _ _ _ Hin Hflag Hscan).
Qed.

Lemma main_dry_run_flag_leaves_file_witness :
  file (main ["rmbrl"; "clear"; "--all"; "-n"] sample_env sample_store) = sample_store.
Proof.
  apply (main_dry_run_flag_leaves_file ["rmbrl"; "clear"; "--all"; "-n"] "-n").
  - cbn. auto.
  - reflexivity.
Defined.







(** X15.  peek through [main] only reads.  Whatever the other arguments
    and the environment, a run of the peek command leaves the store file
    as it was; it exits with 0 after one SELECT (without LIMIT) as the only
    statement after the CREATE TABLE, or with 1 and no SELECT at all. *)
Theorem main_peek_only_reads :
  forall (prog : string) (args : list string) (env : Env) (file0 : Store),
    let p := main (prog :: "peek" :: args) env file0 in
    file p = file0
    /\ ((exit_code p = 1 /\ (session p = None \/ session p = Some [Create_table]))
        \/ (exit_code p = 0
            /\ exists proj, session p = Some [Create_table; Select proj false])).
Proof.
  intros prog args env file0 p. subst p.
  pose proof (main_cases (prog :: "peek" :: args) env file0) as H. cbv zeta in H.
  destruct H as [(Hs & Hfile & [Hc|(_ & _ & prog' & flag & rest & Hargv & Hflag)])
                |(prog' & name & args' & cmd & ign & Hargv & _ & _ & Hf & _ & _
                  & [(_ & Hs & Hfile & Hc)|(_ & Hc & Hfile & Hs)])].
  - split; [exact Hfile|]. left. split; [exact Hc|now left].
  - injection Hargv as _ <- _.
    destruct Hflag as [H|[H|[H|H]]]; discriminate H.
  - split; [exact Hfile|]. left. split; [exact Hc|now right].
  - injection Hargv as _ <- _. cbn in Hf.
    unfold dispatch_effect in *. rewrite Hf in *.
    rewrite Hfile, Hc, Hs. split; [now rewrite peek_effect_close|].
    unfold peek_effect. destruct (project_too_long cmd).
    + left. split; [reflexivity|now right].
    + right. split; [reflexivity|]. now exists (project cmd).
Qed.

(** X16.  add needs a plain argument.  When every argument after [add]
    begins with a dash, the run exits with 1 without opening the store,
    and the file is as it was. *)
Theorem main_add_needs_a_plain_argument :
  forall (prog : string) (args : list string) (env : Env) (file0 : Store),
    Forall dashed args ->
    let p := main (prog :: "add" :: args) env file0 in
    exit_code p = 1 /\ session p = None /\ file p = file0.
Proof.
  intros prog args env file0 Hall p. subst p.
  pose proof (main_cases (prog :: "add" :: args) env file0) as H. cbv zeta in H.
  destruct H as [(Hs & Hfile & [Hc|(_ & _ & prog' & flag & rest & Hargv & Hflag)])
                |(prog' & name & args' & cmd & ign & Hargv & _ & Hscan & Hf & Ht & _)].
  - now repeat split.
  - injection Hargv as _ <- _.
    destruct Hflag as [H|[H|[H|H]]]; discriminate H.
  - injection Hargv as _ <- <-. exfalso. cbn in Hf. apply (Ht Hf).
    now rewrite (scan_dashed_keeps_task _ _ _ _ _ _ Hall Hscan).
Qed.

Lemma main_add_needs_a_plain_argument_witness :
  exit_code (main ["rmbrl"; "add"; "-n"; "--all"; "-x"] sample_env sample_store) = 1.
Proof.
  apply (main_add_needs_a_plain_argument "rmbrl" ["-n"; "--all"; "-x"] sample_env
           sample_store).
  repeat constructor.
Defined.

(** ** Dynamic arrays *)

Lemma size_t_small (z : Z) : 0 <= z <= SIZE_MAX -> size_t z = z.
Proof. intros H. unfold size_t. apply Z.mod_small. unfold SIZE_MAX in *. lia. Qed.

(** The doubling loop returns when the expected capacity is at most
    [2 ^ 63] and the rounds allowed suffice to reach it. *)
Lemma da_double_returns (fuel : nat) :
  forall expected cap,
    0 < cap -> expected <= 2 ^ 63 -> expected <= cap * 2 ^ Z.of_nat fuel ->
    exists cap',
      da_double fuel expected cap = Some cap'
      /\ expected <= cap' /\ cap <= cap'
      /\ (cap' = cap \/ cap' < 2 * expected)
      /\ (expected <= cap -> cap' = cap).
Proof.
  change (2 ^ 63) with 9223372036854775808.
  induction fuel as [|fuel IH]; intros expected cap Hpos Hexp Hfuel.
  - cbn [da_double]. change (2 ^ Z.of_nat 0) with 1 in Hfuel.
    destruct (cap <? expected) eqn:E; [apply Z.ltb_lt in E; lia|].
    apply Z.ltb_ge in E. exists cap. repeat split; auto; lia.
  - cbn [da_double]. destruct (cap <? expected) eqn:E.
    + apply Z.ltb_lt in E.
      rewrite size_t_small by (unfold SIZE_MAX; lia).
      destruct (IH expected (cap * 2)) as (cap' & H1 & H2 & H3 & H4 & H5);
        [lia|exact Hexp| |].
      { rewrite Nat2Z.inj_succ, Z.pow_succ_r in Hfuel by lia. lia. }
      exists cap'. split; [exact H1|]. repeat split; lia.
    + apply Z.ltb_ge in E. exists cap. repeat split; auto; lia.
Qed.

Lemma da_double_zero (fuel : nat) (expected : Z) :
  0 < expected -> da_double fuel expected 0 = None.
Proof.
  intros H. induction fuel as [|fuel IH]; cbn [da_double];
    (destruct (0 <? expected) eqn:E; [|apply Z.ltb_ge in E; lia]); [reflexivity|exact IH].
Qed.

(** X17.  An append stays within the block.  On an array that the
    appends have kept in order ([da_ok]; the zeroed array is one) with
    fewer than [2 ^ 59] items, with at least 64 rounds allowed to the
    doubling loop, [rmbrl_da_append] returns; the item is the new last
    one, [count] is one more, the capacity is untouched when a slot was
    free, the slot written lies within the bytes asked of the allocator,
    and the array is in order again. *)
Theorem da_append_stays_within_the_block :
  forall (fuel : nat) (da : Rmbrl_DA_Strs) (item : string),
    da_ok da ->
    count da < 2 ^ 59 ->
    (64 <= fuel)%nat ->
    exists da' : Rmbrl_DA_Strs,
      rmbrl_da_append fuel da item = Some da'
      /\ items da' = items da ++ [item]
      /\ count da' = count da + 1
      /\ (count da < capacity da -> capacity da' = capacity da)
      /\ count da' * sizeof_item <= block_bytes da'
      /\ da_ok da'.
Proof.
  intros fuel da item (Hcount & Hle & Hcap) Hsmall Hfuel.
  change (2 ^ 59) with 576460752303423488 in Hsmall.
  unfold RMBRL_DA_INIT_CAP in Hcap.
  assert (0 <= count da) as Hnn by lia.
  assert (size_t (count da + 1) = count da + 1) as Hnext
      by (apply size_t_small; unfold SIZE_MAX; lia).
  assert (forall cap',
             count da + 1 <= cap' -> cap' <= Z.max 256 (2 * (count da + 1)) ->
             (count da < capacity da -> cap' = capacity da) ->
             let da' := mkDA (items da ++ [item]) cap' (size_t (count da + 1)) in
             items da' = items da ++ [item]
             /\ count da' = count da + 1
             /\ (count da < capacity da -> capacity da' = capacity da)
             /\ count da' * sizeof_item <= block_bytes da'
             /\ da_ok da') as Hdone.
  { intros cap' H1 H2 H3 da'. subst da'. unfold block_bytes, da_ok, sizeof_item.
    cbn [items capacity count]. rewrite Hnext.
    rewrite size_t_small by (unfold SIZE_MAX; lia).
    rewrite length_app, Nat2Z.inj_add. cbn [List.length]. unfold RMBRL_DA_INIT_CAP.
    repeat split; lia. }
  unfold rmbrl_da_append, rmbrl_da_reserve. rewrite Hnext.
  destruct (capacity da <? count da + 1) eqn:E.
  - apply Z.ltb_lt in E.
    set (cap := if capacity da =? 0 then RMBRL_DA_INIT_CAP else capacity da).
    assert (0 < cap /\ (cap = 256 \/ cap = capacity da)) as [Hpos Hwhich].
    { subst cap. unfold RMBRL_DA_INIT_CAP. destruct (capacity da =? 0) eqn:E0.
      - split; [lia|now left].
      - apply Z.eqb_neq in E0. split; [lia|now right]. }
    destruct (da_double_returns fuel (count da + 1) cap) as (cap' & H1 & H2 & H3 & H4 & H5).
    + exact Hpos.
    + change (2 ^ 63) with 9223372036854775808. lia.
    + assert (2 ^ 64 <= 2 ^ Z.of_nat fuel) as Hpow by (apply Z.pow_le_mono_r; lia).
      change (2 ^ 64) with 18446744073709551616 in Hpow. nia.
    + rewrite H1. eexists. split; [reflexivity|]. cbn [items capacity count].
      clearbody cap. apply Hdone; lia.
  - apply Z.ltb_ge in E. eexists. split; [reflexivity|]. apply Hdone; lia.
Qed.

Lemma da_append_stays_within_the_block_witness :
  exists da' : Rmbrl_DA_Strs,
    rmbrl_da_append 64 da_zero "--bogus" = Some da'
    /\ items da' = ["--bogus"].
Proof.
  destruct (da_append_stays_within_the_block 64 da_zero "--bogus")
    as (da' & H1 & H2 & _).
  - cbv [da_ok da_zero items capacity count RMBRL_DA_INIT_CAP List.length]. lia.
  - reflexivity.
  - lia.
  - exists da'. split; [exact H1|exact H2].
Defined.

(** X18.  [rmbrl_da_reserve] with an expected capacity above [2 ^ 63].
    On an array whose capacity is 0 or a power of two below the expected
    capacity, the doubling loop never reaches it: the capacity wraps to 0
    in [size_t] and stays there, so no number of rounds ends the loop. *)
Theorem da_reserve_above_half_never_returns :
  forall (fuel : nat) (da : Rmbrl_DA_Strs) (k expected : Z),
    0 <= k <= 63 ->
    capacity da = 0 \/ capacity da = 2 ^ k ->
    2 ^ 63 < expected ->
    rmbrl_da_reserve fuel da expected = None.
Proof.
  intros fuel da k expected Hk Hcap Hexp.
  assert (forall n j, 0 <= j <= 63 -> da_double n expected (2 ^ j) = None) as Hloop.
  { induction n as [|n IH]; intros j Hj; cbn [da_double];
      assert (2 ^ j <= 2 ^ 63) as Hle by (apply Z.pow_le_mono_r; lia);
      (destruct (2 ^ j <? expected) eqn:E; [|apply Z.ltb_ge in E; lia]); [reflexivity|].
    destruct (Z.eq_dec j 63) as [->|Hne].
    - change (size_t (2 ^ 63 * 2)) with 0. apply da_double_zero.
      assert (0 < 2 ^ 63) by reflexivity. lia.
    - replace (2 ^ j * 2) with (2 ^ (j + 1)) by (now rewrite Z.pow_add_r by lia).
      assert (0 < 2 ^ (j + 1)) by (apply Z.pow_pos_nonneg; lia).
      assert (2 ^ (j + 1) <= 2 ^ 63) as Hle' by (apply Z.pow_le_mono_r; lia).
      change (2 ^ 63) with 9223372036854775808 in Hle'.
      rewrite size_t_small by (unfold SIZE_MAX; lia).
      apply IH. lia. }
  assert (0 < 2 ^ 63) as Hpos by reflexivity.
  unfold rmbrl_da_reserve. destruct Hcap as [Hcap|Hcap]; rewrite Hcap.
  - destruct (0 <? expected) eqn:E; [|apply Z.ltb_ge in E; lia].
    cbn [Z.eqb]. change RMBRL_DA_INIT_CAP with (2 ^ 8). now rewrite Hloop by lia.
  - assert (2 ^ k <= 2 ^ 63) as Hle by (apply Z.pow_le_mono_r; lia).
    assert (0 < 2 ^ k) as Hpk by (apply Z.pow_pos_nonneg; lia).
    destruct (2 ^ k <? expected) eqn:E; [|apply Z.ltb_ge in E; lia].
    destruct (2 ^ k =? 0) eqn:E0; [apply Z.eqb_eq in E0; lia|].
    now rewrite Hloop by lia.
Qed.

Lemma da_reserve_above_half_never_returns_witness :
  rmbrl_da_reserve 1000 da_zero (2 ^ 63 + 1) = None.
Proof.
  apply (da_reserve_above_half_never_returns 1000 da_zero 8 (2 ^ 63 + 1)).
  - lia.
  - left. reflexivity.
  - reflexivity.
Defined.

(** ** The command name *)

(** X19.  The name [main] recognises a command by is the name
    [rmbrl_command_function_str] prints for it: for the three commands,
    an argument selects the command exactly when it is that string. *)
Theorem command_name_round_trip :
  forall (name : string) (func : Rmbrl_Command_Function),
    func <> RMBRL_CMD_UNKNOWN ->
    (command_of_name name = func <-> name = rmbrl_command_function_str func).
Proof.
  intros name func Hknown. unfold command_of_name, strcmp0. split.
  - intros H.
    destruct (String.eqb_spec name "add") as [->|_]; [now subst func|].
    destruct (String.eqb_spec name "peek") as [->|_]; [now subst func|].
    destruct (String.eqb_spec name "clear") as [->|_]; [now subst func|].
    now elim Hknown.
  - intros ->. destruct func; [now elim Hknown|reflexivity..].
Qed.

Lemma command_name_round_trip_witness :
  command_of_name "clear" = RMBRL_CMD_CLEAR.
Proof.
  apply (proj2 (command_name_round_trip "clear" RMBRL_CMD_CLEAR ltac:(discriminate))).
  reflexivity.
Defined.

(** ** clear: the id that reads as -1 *)

(** X20.  clear without [--all] tells "no id looked up" from an id by
    the value -1.  When the most recent matching row has an id whose low
    32 bits read as -1, the delete is the one by project and not the one by
    id: the call returns 0 and every matching row is gone, not only the
    most recent. *)
Theorem clear_one_with_id_minus_one_removes_every_match :
  forall (cmd : Rmbrl_Command) (w : World) (r : Row),
    all cmd = false ->
    dry_run cmd = false ->
    project_too_long cmd = false ->
    select_rows (project cmd) true (live (db w)) = [r] ->
    sqlite3_column_int (row_id r) = -1 ->
    let res := rmbrl_command_clear cmd w in
    fst res = 0
    /\ memories (live (db (snd res)))
       = filter (fun x => negb (matches (project cmd) x)) (memories (live (db w)))
    /\ statements (db (snd res))
       = statements (db w) ++ [Select (project cmd) true; Delete (project cmd)].
Proof.
  intros cmd w r Hall Hdry Hok Hsel Hid res. subst res.
  pose proof (clear_outcome cmd w) as Hout.
  pose proof (f_equal fst Hout) as Hrc. pose proof (f_equal snd Hout) as Hdb.
  cbn [outcome fst snd] in Hrc, Hdb. rewrite Hrc, Hdb. clear Hout Hrc Hdb.
  unfold clear_effect, guarded_effect, finish_effect.
  rewrite Hok, Hdry, Hall. cbn [negb]. cbv zeta. rewrite Hsel, Hid.
  unfold delete_stmt. cbn [Z.eqb Pos.eqb]. unfold sqlite3_run, delete_where.
  cbn [record_stmt live saved clock statements fst snd memories].
  split; [reflexivity|]. split; [reflexivity|]. now rewrite <- app_assoc.
Qed.

Lemma clear_one_with_id_minus_one_removes_every_match_witness :
  memories (live (db (snd (rmbrl_command_clear clear_lazypm (world_on wide_id_store)))))
  = [mkRow 7 "b" "other" "2025-01-02 00:00:00"].
Proof.
  exact (proj1 (proj2 (clear_one_with_id_minus_one_removes_every_match
                         clear_lazypm (world_on wide_id_store)
                         (mkRow 4294967295 "c" "lazypm" "2025-01-03 00:00:00")
                         eq_refl eq_refl eq_refl eq_refl eq_refl))).
Defined.

(** ** add through [main] *)


